(** * Feature recognition and pattern detection of the FBM pipeline

    A shallow embedding of
      - [FBM/pattern_recognizer.py]   (PatternRecognizer),
      - [FBM/advanced_algorithms.py]  (FeatureClassifier, AdjacencyAnalyzer,
                                       MachinabilityScorer),
      - [FBM/geometry_analyzer.py]    (GeometryAnalyzer),
      - [FBM/FBM_advanced.py]         (AdvancedFeatureRecognitionEngine).

    The Python code computes on [float] values.  Every function below is
    written once over a numeric interface [Num] and is then read at two
    instances:
      - [float_num]: IEEE-754 binary64 with round-to-nearest-even, the
        arithmetic Python's [float] performs (executable: concrete runs are
        evaluated by the kernel);
      - [real_num]: the real numbers, the exact arithmetic the binary64
        operations round (used for the statements quantified over all
        inputs).

    Conventions of the embedding:
      - loops with [break], [continue] and early [return] are folds and
        first-match searches over [range]; a loop body is a function named
        after what it computes;
      - [set]s of indices are lists read through membership;
      - [div] is total: Python raises [ZeroDivisionError] on a zero divisor,
        which the divisions of [fuzzy_classify] and [recognize_bosses] can
        meet (they return [None] there); the other
        divisors are lengths of non-empty lists or
        are kept away from zero by a preceding guard;
      - [list.sort(key=...)] is a stable insertion sort on the keys. *)

From Stdlib Require Import ZArith List String Bool Lia PeanoNat Permutation.
From Stdlib Require Import Reals Lra Psatz.
From Stdlib Require Floats.
Import ListNotations.

Local Open Scope string_scope.
Local Open Scope list_scope.
Local Open Scope nat_scope.

(** ** The numeric interface *)

Class Num (F : Type) : Type := {
  fromZ : Z -> F;            (* a Python int used where a float is expected *)
  pi    : F;                 (* math.pi *)
  add   : F -> F -> F;
  sub   : F -> F -> F;
  mul   : F -> F -> F;
  div   : F -> F -> F;       (* true division; Python raises on a zero divisor *)
  opp   : F -> F;
  fabs  : F -> F;            (* abs *)
  fsqrt : F -> F;            (* math.sqrt *)
  ltb   : F -> F -> bool;    (* a < b, and b > a *)
  eqb   : F -> F -> bool     (* a == b *)
}.

Declare Scope num_scope.
Delimit Scope num_scope with num.
Infix "+!" := add (at level 50, left associativity) : num_scope.
Infix "-!" := sub (at level 50, left associativity) : num_scope.
Infix "*!" := mul (at level 40, left associativity) : num_scope.
Infix "/!" := div (at level 40, left associativity) : num_scope.
Infix "<!" := ltb (at level 70, no associativity) : num_scope.

(** *** binary64 *)

(** int -> float conversion, correctly rounded. *)
Definition float_of_Z (z : Z) : PrimFloat.float :=
  FloatOps.SF2Prim
    (SpecFloat.binary_normalize FloatOps.prec FloatOps.emax z 0 false).

(** [math.pi] is the double 0x1.921fb54442d18p+1 = 7074237752028440 / 2^51. *)
Definition float_pi : PrimFloat.float :=
  PrimFloat.div (float_of_Z 7074237752028440) (float_of_Z (2 ^ 51)).

#[export] Instance float_num : Num PrimFloat.float := {|
  fromZ := float_of_Z;
  pi    := float_pi;
  add   := PrimFloat.add;
  sub   := PrimFloat.sub;
  mul   := PrimFloat.mul;
  div   := PrimFloat.div;
  opp   := PrimFloat.opp;
  fabs  := PrimFloat.abs;
  fsqrt := PrimFloat.sqrt;
  ltb   := PrimFloat.ltb;
  eqb   := PrimFloat.eqb
|}.

(** *** exact reals *)

Definition Rltb (a b : R) : bool := if Rlt_dec a b then true else false.
Definition Reqb (a b : R) : bool := if Req_dec_T a b then true else false.

#[export] Instance real_num : Num R := {|
  fromZ := IZR;
  pi    := PI;
  add   := Rplus;
  sub   := Rminus;
  mul   := Rmult;
  div   := Rdiv;
  opp   := Ropp;
  fabs  := Rabs;
  fsqrt := sqrt;
  ltb   := Rltb;
  eqb   := Reqb
|}.

(** ** Python built-ins used by the code *)

Section Builtins.
Context {F : Type} {N : Num F}.
Local Open Scope num_scope.

(** A decimal literal [m / 10^k], e.g. [0.5 = dec 5 1].  Both [m] and
    [10^k] are exact doubles for the literals of the code, so the
    correctly rounded quotient is the double the literal denotes. *)
Definition dec (m : Z) (k : nat) : F := fromZ m /! fromZ (10 ^ Z.of_nat k).

(** [x ** 2] for a float [x]: the (correctly rounded) product [x * x]. *)
Definition sq (x : F) : F := x *! x.

(** [sum(xs)]: the additions left to right, from the int [0], each one
    rounded. *)
Definition py_sum (xs : list F) : F := fold_left add xs (fromZ 0).

(** [max(xs)] on a non-empty iterable: the first maximal element. *)
Definition py_max (xs : list F) : F :=
  match xs with
  | [] => fromZ 0
  | x :: t => fold_left (fun m y => if m <! y then y else m) t x
  end.

(** [min(a, b)]. *)
Definition py_min (a b : F) : F := if b <! a then b else a.

(** [x in xs] for a list or set of ints. *)
Definition mem (x : nat) (xs : list nat) : bool := existsb (Nat.eqb x) xs.

(** [list.sort(key=...)]: a stable sort comparing keys with [<]. *)
Fixpoint insert_by {A} (key : A -> F) (x : A) (l : list A) : list A :=
  match l with
  | [] => [x]
  | y :: l' => if key x <! key y then x :: l else y :: insert_by key x l'
  end.

Definition sort_by {A} (key : A -> F) (l : list A) : list A :=
  fold_left (fun acc x => insert_by key x acc) l [].

(** The first result of a loop body that leaves the loop. *)
Fixpoint first_some {A B} (f : A -> option B) (l : list A) : option B :=
  match l with
  | [] => None
  | x :: l' => match f x with Some r => Some r | None => first_some f l' end
  end.

(** [range(a, b)]. *)
Definition range (a b : nat) : list nat := seq a (b - a).
End Builtins.

(** ** Data model *)

Inductive PatternType : Type :=
| LINEAR | CIRCULAR | GRID | MIRROR
| HEXAGONAL | RADIAL | CONCENTRIC | SPIRAL | CUSTOM_PATH | RANDOM_SCATTER
| IRREGULAR | ROTATIONAL_SYMMETRY | BILATERAL_SYMMETRY | POINT_SYMMETRY
| PATH | NONE.

Definition PatternType_eqb (a b : PatternType) : bool :=
  match a, b with
  | LINEAR, LINEAR | CIRCULAR, CIRCULAR | GRID, GRID | MIRROR, MIRROR
  | HEXAGONAL, HEXAGONAL | RADIAL, RADIAL | CONCENTRIC, CONCENTRIC
  | SPIRAL, SPIRAL | CUSTOM_PATH, CUSTOM_PATH
  | RANDOM_SCATTER, RANDOM_SCATTER | IRREGULAR, IRREGULAR
  | ROTATIONAL_SYMMETRY, ROTATIONAL_SYMMETRY
  | BILATERAL_SYMMETRY, BILATERAL_SYMMETRY
  | POINT_SYMMETRY, POINT_SYMMETRY | PATH, PATH | NONE, NONE => true
  | _, _ => false
  end.

Section Data.
Context {F : Type}.

Definition Point : Type := (F * F * F)%type.

(** [p[d]] for [d] in [range(3)]. *)
Definition coord (p : Point) (d : nat) : F :=
  let '(x, y, z) := p in
  match d with 0 => x | 1 => y | _ => z end.

(** A recognised feature, as the recognisers read it.  [feature_type] is
    the [.value] string of the enumeration member; [geometry] holds the
    point-valued entries of the geometry dict (the CAD handles stored under
    other keys are never read by the functions below). *)
Record Feature : Type := {
  feature_id   : Z;
  feature_type : string;
  geometry     : list (string * Point)
}.

(** [direction] of a pattern: a unit vector for linear patterns, the
    one-element tuple [(plane_name,)] for mirror patterns. *)
Inductive Direction : Type :=
| DirVec (v : Point)
| DirPlane (name : string).

Record FeaturePattern : Type := {
  pattern_type  : PatternType;
  feature_ids   : list Z;
  pattern_count : nat;
  spacing       : F;
  angle         : F;
  center        : option Point;
  direction     : option Direction;
  confidence    : F
}.
End Data.

Arguments Point : clear implicits.
Arguments Feature : clear implicits.
Arguments Direction : clear implicits.
Arguments FeaturePattern : clear implicits.

(** [k in d] and [d[k]] on a dict with string keys. *)
Fixpoint dict_get {V} (k : string) (d : list (string * V)) : option V :=
  match d with
  | [] => None
  | (k', v) :: d' => if String.eqb k k' then Some v else dict_get k d'
  end.

(** ** PatternRecognizer ([FBM/pattern_recognizer.py]) *)

Section PatternRecognizer.
Context {F : Type} {N : Num F}.
Local Open Scope num_scope.

Definition POSITION_TOLERANCE : F := dec 5 1.   (* 0.5 *)
Definition ANGLE_TOLERANCE : F := fromZ 2.     (* 2.0 *)
Definition MIN_PATTERN_COUNT : nat := 2.

Definition origin : Point F := (fromZ 0, fromZ 0, fromZ 0).

(** [_get_feature_center] *)
Definition _get_feature_center (f : Feature F) : Point F :=
  match dict_get "center" (geometry f) with
  | Some c => (coord c 0, coord c 1, coord c 2)
  | None => (fromZ 0, fromZ 0, fromZ 0)
  end.

(** [centers[i]] and [features[i].feature_id]; every index the code uses
    comes from [range(len(features))]. *)
Definition center_at (centers : list (Point F)) (i : nat) : Point F :=
  nth i centers origin.

Definition id_at (features : list (Feature F)) (i : nat) : Z :=
  match nth_error features i with
  | Some f => feature_id f
  | None => 0%Z
  end.

(** [math.sqrt(sum((a[d] - b[d])**2 for d in range(3)))] *)
Definition dist3 (a b : Point F) : F :=
  fsqrt (py_sum (map (fun d => sq (coord a d -! coord b d)) (range 0 3))).

(** [_is_on_line] *)
Definition _is_on_line (line_point direction : Point F) (spacing : F)
    (test_point : Point F) : bool :=
  let dx := coord test_point 0 -! coord line_point 0 in
  let dy := coord test_point 1 -! coord line_point 1 in
  let dz := coord test_point 2 -! coord line_point 2 in
  let proj := dx *! coord direction 0 +! dy *! coord direction 1
              +! dz *! coord direction 2 in
  let closest_x := coord line_point 0 +! proj *! coord direction 0 in
  let closest_y := coord line_point 1 +! proj *! coord direction 1 in
  let closest_z := coord line_point 2 +! proj *! coord direction 2 in
  let dist := fsqrt (sq (coord test_point 0 -! closest_x)
                     +! sq (coord test_point 1 -! closest_y)
                     +! sq (coord test_point 2 -! closest_z)) in
  dist <! POSITION_TOLERANCE.

(** [_distance_along_line] *)
Definition _distance_along_line (line_point direction test_point : Point F)
    : F :=
  let dx := coord test_point 0 -! coord line_point 0 in
  let dy := coord test_point 1 -! coord line_point 1 in
  let dz := coord test_point 2 -! coord line_point 2 in
  dx *! coord direction 0 +! dy *! coord direction 1
  +! dz *! coord direction 2.

(** The distances between consecutive members of [pattern_features]
    (lines 160-164). *)
Fixpoint consecutive_spacings (centers : list (Point F)) (idxs : list nat)
    : list F :=
  match idxs with
  | idx1 :: (idx2 :: _) as rest =>
      dist3 (center_at centers idx2) (center_at centers idx1)
      :: consecutive_spacings centers rest
  | _ => []
  end.

(** Lines 141-150: [i], [j] and every other unused feature on the line
    through [centers[i]] along [direction]. *)
Definition linear_members (features : list (Feature F))
    (centers : list (Point F)) (used_features : list nat) (i j : nat)
    (direction : Point F) (spacing : F) : list nat :=
  [i; j] ++
  filter (fun k =>
            negb (mem k [i; j] || mem k used_features)
            && _is_on_line (center_at centers i) direction spacing
                 (center_at centers k))
         (range 0 (List.length features)).

(** Lines 152-183: sort the members along the line, check that the
    consecutive spacings agree within the tolerance, build the pattern. *)
Definition linear_verify (features : list (Feature F))
    (centers : list (Point F)) (i : nat) (direction : Point F)
    (pattern_features : list nat) : option (FeaturePattern F * list nat) :=
  if MIN_PATTERN_COUNT <=? List.length pattern_features then
    let pattern_features :=
      sort_by (fun idx => _distance_along_line (center_at centers i)
                            direction (center_at centers idx))
              pattern_features in
    let spacings := consecutive_spacings centers pattern_features in
    let avg_spacing :=
      py_sum spacings /! fromZ (Z.of_nat (List.length spacings)) in
    let max_deviation :=
      py_max (map (fun s => fabs (s -! avg_spacing)) spacings) in
    if max_deviation <! POSITION_TOLERANCE then
      let feature_ids := map (id_at features) pattern_features in
      Some ({| pattern_type := LINEAR;
               feature_ids := feature_ids;
               pattern_count := List.length feature_ids;
               spacing := avg_spacing;
               angle := fromZ 0;
               center := None;
               direction := Some (DirVec direction);
               confidence := fromZ 1 -! max_deviation /! avg_spacing |},
            pattern_features)
    else None
  else None.

(** The body of the [j] loop of [detect_linear_patterns] (lines 129-183)
    for one pair [(i, j)]: [Some (pattern, pattern_features)] when the pair
    yields a pattern (the code then appends it, marks its members used and
    breaks), [None] when the loop goes on to the next [j]. *)
Definition linear_candidate (features : list (Feature F))
    (centers : list (Point F)) (used_features : list nat) (i j : nat)
    : option (FeaturePattern F * list nat) :=
  let dx := coord (center_at centers j) 0 -! coord (center_at centers i) 0 in
  let dy := coord (center_at centers j) 1 -! coord (center_at centers i) 1 in
  let dz := coord (center_at centers j) 2 -! coord (center_at centers i) 2 in
  let spacing := fsqrt (sq dx +! sq dy +! sq dz) in
  if spacing <! dec 1 1 then None
  else
    let direction := (dx /! spacing, dy /! spacing, dz /! spacing) in
    linear_verify features centers i direction
      (linear_members features centers used_features i j direction spacing).

(** The [j] loop for one [i]: the first [j] not yet used whose pair yields
    a pattern. *)
Definition linear_scan (features : list (Feature F))
    (centers : list (Point F)) (used_features : list nat) (i : nat)
    : option (FeaturePattern F * list nat) :=
  first_some
    (fun j => if mem j used_features then None
              else linear_candidate features centers used_features i j)
    (range (i + 1) (List.length features)).

(** One iteration of the [i] loop on the state
    [(patterns, used_features)]. *)
Definition linear_step (features : list (Feature F))
    (centers : list (Point F))
    (st : list (FeaturePattern F) * list nat) (i : nat)
    : list (FeaturePattern F) * list nat :=
  let '(patterns, used_features) := st in
  if mem i used_features then st
  else match linear_scan features centers used_features i with
       | Some (pattern, pattern_features) =>
           (patterns ++ [pattern], used_features ++ pattern_features)
       | None => st
       end.

(** [detect_linear_patterns] *)
Definition detect_linear_patterns (features : list (Feature F))
    : list (FeaturePattern F) :=
  if List.length features <? MIN_PATTERN_COUNT then []
  else
    let centers := map _get_feature_center features in
    fst (fold_left (linear_step features centers)
                   (range 0 (List.length features)) ([], [])).

(** [_calculate_circle_center_3d]: the planar three-point formula on the
    x and y coordinates, the mean of the z coordinates; [None] for
    (nearly) collinear points. *)
Definition _calculate_circle_center_3d (p1 p2 p3 : Point F)
    : option (Point F) :=
  let x1 := coord p1 0 in let y1 := coord p1 1 in
  let x2 := coord p2 0 in let y2 := coord p2 1 in
  let x3 := coord p3 0 in let y3 := coord p3 1 in
  let d := fromZ 2 *! (x1 *! (y2 -! y3) +! x2 *! (y3 -! y1)
                       +! x3 *! (y1 -! y2)) in
  if fabs d <! dec 1 3 then None
  else
    let ux := ((sq x1 +! sq y1) *! (y2 -! y3)
               +! (sq x2 +! sq y2) *! (y3 -! y1)
               +! (sq x3 +! sq y3) *! (y1 -! y2)) /! d in
    let uy := ((sq x1 +! sq y1) *! (x3 -! x2)
               +! (sq x2 +! sq y2) *! (x1 -! x3)
               +! (sq x3 +! sq y3) *! (x2 -! x1)) /! d in
    let uz := (coord p1 2 +! coord p2 2 +! coord p3 2) /! fromZ 3 in
    Some (ux, uy, uz).

(** The body of the innermost loop of [detect_circular_patterns] for one
    triple: [Some pattern] when the function returns there. *)
Definition circular_candidate (features : list (Feature F))
    (centers : list (Point F)) (i j k : nat) : option (FeaturePattern F) :=
  match _calculate_circle_center_3d (center_at centers i)
          (center_at centers j) (center_at centers k) with
  | None => None
  | Some circle_center =>
      let radius := dist3 (center_at centers i) circle_center in
      let pattern_features :=
        fold_left
          (fun pf m =>
             if mem m pf then pf
             else if fabs (dist3 (center_at centers m) circle_center
                           -! radius) <! POSITION_TOLERANCE
                  then pf ++ [m] else pf)
          (range 0 (List.length features)) [i; j; k] in
      if 3 <=? List.length pattern_features then
        let avg_angle :=
          if 0 <? List.length pattern_features
          then fromZ 360 /! fromZ (Z.of_nat (List.length pattern_features))
          else fromZ 0 in
        let feature_ids := map (id_at features) pattern_features in
        Some {| pattern_type := CIRCULAR;
                feature_ids := feature_ids;
                pattern_count := List.length feature_ids;
                spacing := fromZ 0;
                angle := avg_angle;
                center := Some circle_center;
                direction := None;
                confidence := dec 9 1 |}
      else None
  end.

(** [detect_circular_patterns]: the first triple [i < j < k] with an
    acceptable fit ends the search. *)
Definition detect_circular_patterns (features : list (Feature F))
    : list (FeaturePattern F) :=
  if List.length features <? 3 then []
  else
    let centers := map _get_feature_center features in
    let n := List.length features in
    match first_some (fun i =>
            first_some (fun j =>
              first_some (fun k => circular_candidate features centers i j k)
                         (range (j + 1) n))
              (range (i + 1) n))
            (range 0 n) with
    | Some pattern => [pattern]
    | None => []
    end.

(** [spacing_groups]: a dict with float keys, in insertion order. *)
Fixpoint group_add (spacing : F) (groups : list (F * list F))
    : option (list (F * list F)) :=
  match groups with
  | [] => None
  | (key, members) :: rest =>
      if fabs (spacing -! key) <! POSITION_TOLERANCE
      then Some ((key, members ++ [spacing]) :: rest)
      else match group_add spacing rest with
           | Some rest' => Some ((key, members) :: rest')
           | None => None
           end
  end.

(** [d[k] = v] *)
Fixpoint dict_set (k : F) (v : list F) (d : list (F * list F))
    : list (F * list F) :=
  match d with
  | [] => [(k, v)]
  | (k', v') :: d' =>
      if eqb k k' then (k', v) :: d' else (k', v') :: dict_set k v d'
  end.

(** [max(groups.values(), key=len)] *)
Definition longest (groups : list (list F)) : list F :=
  match groups with
  | [] => []
  | g :: t =>
      fold_left (fun m y => if List.length m <? List.length y then y else m)
                t g
  end.

(** [_find_dominant_spacing] *)
Definition _find_dominant_spacing (spacings : list F) : option F :=
  match spacings with
  | [] => None
  | _ =>
      let spacing_groups :=
        fold_left
          (fun groups spacing =>
             match group_add spacing groups with
             | Some groups' => groups'
             | None => dict_set spacing [spacing] groups
             end)
          spacings [] in
      let max_group := longest (map snd spacing_groups) in
      if 2 <=? List.length max_group
      then Some (py_sum max_group /! fromZ (Z.of_nat (List.length max_group)))
      else None
  end.

(** Truth value of an [Optional[float]]: [None] and [0.0] are false. *)
Definition truthy (x : option F) : bool :=
  match x with
  | Some v => negb (eqb v (fromZ 0))
  | None => false
  end.

(** The pairs [(i, j)], [i < j], in loop order. *)
Definition index_pairs (n : nat) : list (nat * nat) :=
  flat_map (fun i => map (fun j => (i, j)) (range (i + 1) n)) (range 0 n).

(** [detect_grid_patterns] *)
Definition detect_grid_patterns (features : list (Feature F))
    : list (FeaturePattern F) :=
  if List.length features <? 4 then []
  else
    let centers := map _get_feature_center features in
    let delta (d : nat) (ij : nat * nat) : F :=
      fabs (coord (center_at centers (snd ij)) d
            -! coord (center_at centers (fst ij)) d) in
    let same_plane :=
      filter (fun ij => delta 2 ij <! POSITION_TOLERANCE)
             (index_pairs (List.length centers)) in
    let x_spacings :=
      filter (fun dx => dec 1 1 <! dx) (map (delta 0) same_plane) in
    let y_spacings :=
      filter (fun dy => dec 1 1 <! dy) (map (delta 1) same_plane) in
    match x_spacings, y_spacings with
    | _ :: _, _ :: _ =>
        let x_spacing := _find_dominant_spacing x_spacings in
        let y_spacing := _find_dominant_spacing y_spacings in
        match x_spacing, y_spacing with
        | Some xs, Some ys =>
            if truthy x_spacing && truthy y_spacing then
              let grid_features := range 0 (List.length features) in
              if 4 <=? List.length grid_features then
                let feature_ids := map (id_at features) grid_features in
                [{| pattern_type := GRID;
                    feature_ids := feature_ids;
                    pattern_count := List.length feature_ids;
                    spacing := py_min xs ys;
                    angle := fromZ 0;
                    center := None;
                    direction := None;
                    confidence := dec 8 1 |}]
              else []
            else []
        | _, _ => []
        end
    | _, _ => []
    end.

(** [mirrored_pos]: the centre with one coordinate negated. *)
Definition flip (flip_axis : nat) (p : Point F) : Point F :=
  let '(x, y, z) := p in
  match flip_axis with
  | 0 => (opp x, y, z)
  | 1 => (x, opp y, z)
  | _ => (x, y, opp z)
  end.

(** One iteration of the [i] loop of [detect_mirror_patterns] on the state
    [(mirrored_pairs, used_indices)]. *)
Definition mirror_step (n : nat) (centers : list (Point F))
    (flip_axis : nat) (st : list (nat * nat) * list nat) (i : nat)
    : list (nat * nat) * list nat :=
  let '(mirrored_pairs, used_indices) := st in
  if mem i used_indices then st
  else
    let mirrored_pos := flip flip_axis (center_at centers i) in
    match first_some
            (fun j =>
               if mem j used_indices then None
               else if dist3 (center_at centers j) mirrored_pos
                       <! POSITION_TOLERANCE
                    then Some j else None)
            (range (i + 1) n) with
    | Some j => (mirrored_pairs ++ [(i, j)], used_indices ++ [i; j])
    | None => st
    end.

Definition mirror_planes : list (string * nat) :=
  [("XY", 2); ("XZ", 1); ("YZ", 0)].

(** [detect_mirror_patterns] *)
Definition detect_mirror_patterns (features : list (Feature F))
    : list (FeaturePattern F) :=
  if List.length features <? 2 then []
  else
    let centers := map _get_feature_center features in
    flat_map
      (fun plane : string * nat =>
         let '(plane_name, flip_axis) := plane in
         let mirrored_pairs :=
           fst (fold_left (mirror_step (List.length features) centers
                            flip_axis)
                          (range 0 (List.length features)) ([], [])) in
         if 1 <=? List.length mirrored_pairs then
           let feature_ids :=
             flat_map (fun pair : nat * nat =>
                         [id_at features (fst pair);
                          id_at features (snd pair)])
                      mirrored_pairs in
           [{| pattern_type := MIRROR;
               feature_ids := feature_ids;
               pattern_count := List.length feature_ids;
               spacing := fromZ 0;
               angle := fromZ 0;
               center := None;
               direction := Some (DirPlane plane_name);
               confidence := dec 85 2 |}]
         else [])
      mirror_planes.

(** [_group_features_by_type]: a dict from type value to the features of
    that type, keys in order of first occurrence. *)
Fixpoint group_append (feature : Feature F)
    (groups : list (string * list (Feature F)))
    : list (string * list (Feature F)) :=
  match groups with
  | [] => [(feature_type feature, [feature])]
  | (t, fs) :: rest =>
      if String.eqb (feature_type feature) t
      then (t, fs ++ [feature]) :: rest
      else (t, fs) :: group_append feature rest
  end.

Definition _group_features_by_type (features : list (Feature F))
    : list (string * list (Feature F)) :=
  fold_left (fun groups feature => group_append feature groups) features [].

(** The patterns one type group contributes. *)
Definition group_patterns (feature_list : list (Feature F))
    : list (FeaturePattern F) :=
  if List.length feature_list <? MIN_PATTERN_COUNT then []
  else detect_linear_patterns feature_list
       ++ detect_circular_patterns feature_list
       ++ detect_grid_patterns feature_list
       ++ detect_mirror_patterns feature_list.

(** [recognize_all_patterns] *)
Definition recognize_all_patterns (features : list (Feature F))
    : list (FeaturePattern F) :=
  flat_map (fun group => group_patterns (snd group))
           (_group_features_by_type features).
End PatternRecognizer.

(** ** CAD faces, as the topology explorer yields them *)

Section Shapes.
Context {F : Type} {N : Num F}.
Local Open Scope num_scope.

(** The surface of a face: its [GetType()] tag with the parameters the
    recognisers read ([Cone.SemiAngle()], [Cone.RefRadius()], ...). *)
Inductive Surface : Type :=
| Plane (normal : Point F)
| Cylinder (radius : F)
| Cone (semi_angle ref_radius : F)
| Sphere
| Torus (major_radius minor_radius : F)
| OtherSurface.

(** A shape is the sequence of faces [TopExp_Explorer(shape, TopAbs_FACE)]
    walks through. *)
Definition Shape : Type := list Surface.

(** [math.degrees]: multiplication by the constant [180.0 / pi]. *)
Definition degrees (x : F) : F := x *! (fromZ 180 /! pi).

(** [GeometryAnalyzer.measure_draft_angles] *)
Fixpoint measure_draft_angles (shape : Shape) : list F :=
  match shape with
  | [] => []
  | Cone semi_angle _ :: rest =>
      let draft_angle := degrees semi_angle in
      draft_angle :: measure_draft_angles rest
  | _ :: rest => measure_draft_angles rest
  end.

(** The fields [recognize_countersinks] sets on an
    [AdvancedMachiningFeature]; [adv_geometry] is the dict
    [{'cone': cone}]. *)
Record AdvancedMachiningFeature : Type := {
  adv_feature_id    : Z;
  adv_feature_type  : string;
  adv_geometry      : list (string * Surface);
  diameter          : F;
  sink_angle        : F;
  confidence_score  : F;
  complexity_rating : Z
}.

(** [cone.SemiAngle()] in degrees, doubled (line 222). *)
Definition full_angle (semi_angle : F) : F := degrees semi_angle *! fromZ 2.

(** [recognize_countersinks], threading [self.feature_counter]. *)
Fixpoint recognize_countersinks (shape : Shape) (feature_counter : Z)
    : list AdvancedMachiningFeature * Z :=
  match shape with
  | [] => ([], feature_counter)
  | Cone semi_angle ref_radius :: rest =>
      let sink_angle := full_angle semi_angle in
      if (fromZ 75 <! sink_angle) && (sink_angle <! fromZ 125) then
        let apex_radius := ref_radius in
        let feature :=
          {| adv_feature_id := feature_counter;
             adv_feature_type := "Countersink Hole";
             adv_geometry := [("cone", Cone semi_angle ref_radius)];
             diameter := fromZ 2 *! apex_radius;
             sink_angle := sink_angle;
             confidence_score := dec 95 2;
             complexity_rating := 3 |} in
        let '(countersinks, c) :=
          recognize_countersinks rest (feature_counter + 1)%Z in
        (feature :: countersinks, c)
      else recognize_countersinks rest feature_counter
  | _ :: rest => recognize_countersinks rest feature_counter
  end.
End Shapes.

Arguments Surface : clear implicits.
Arguments Shape : clear implicits.
Arguments AdvancedMachiningFeature : clear implicits.

(** ** FeatureClassifier ([FBM/advanced_algorithms.py]) *)

Section FeatureClassifier.
Context {F : Type} {N : Num F}.
Local Open Scope num_scope.

(** A value of the [feature_properties] dict: an int or a float. *)
Inductive PropVal : Type :=
| PInt (z : Z)
| PFloat (x : F).

Definition num_of (v : PropVal) : F :=
  match v with PInt z => fromZ z | PFloat x => x end.

(** [d.get(k, default)] *)
Definition dict_get_default {V} (k : string) (default : V)
    (d : list (string * V)) : V :=
  match dict_get k d with Some v => v | None => default end.

Record ClassificationResult : Type := {
  cr_feature_id : PropVal;
  primary_classification : string;
  cr_confidence : F;
  alternative_classifications : list (string * F)
}.

(** Line 93; [None] is the [ZeroDivisionError] of a zero divisor. *)
Definition aspect_ratio (feature_properties : list (string * PropVal))
    : option F :=
  let depth := num_of (dict_get_default "depth" (PInt 0) feature_properties) in
  let divisor :=
    num_of (dict_get_default "diameter" (PInt 1) feature_properties)
    +! dec 1 3 in
  if eqb divisor (fromZ 0) then None else Some (depth /! divisor).

(** Lines 97-102. *)
Definition hole_membership (aspect_ratio : F) : F :=
  if fromZ 2 <! aspect_ratio then fromZ 1
  else if fromZ 1 <! aspect_ratio then (aspect_ratio -! fromZ 1) /! fromZ 1
  else fromZ 0.

(** Lines 105-110. *)
Definition pocket_membership (aspect_ratio : F) : F :=
  if aspect_ratio <! dec 5 1 then fromZ 1
  else if aspect_ratio <! fromZ 1 then (fromZ 1 -! aspect_ratio) /! dec 5 1
  else fromZ 0.

(** The [memberships] dict, in insertion order. *)
Definition memberships (aspect_ratio : F) : list (string * F) :=
  [("hole", hole_membership aspect_ratio);
   ("pocket", pocket_membership aspect_ratio)].

(** [max(items, key=lambda x: x[1])]: the first item of maximal value. *)
Definition max_by_value (items : list (string * F)) : string * F :=
  match items with
  | [] => ("", fromZ 0)
  | x :: t => fold_left (fun m y => if snd m <! snd y then y else m) t x
  end.

(** [fuzzy_classify]; the [reasoning] strings (formatted floats) are not
    part of the embedding. *)
Definition fuzzy_classify (feature_properties : list (string * PropVal))
    : option ClassificationResult :=
  match aspect_ratio feature_properties with
  | None => None
  | Some ar =>
      let ms := memberships ar in
      let primary := max_by_value ms in
      let alternatives :=
        filter (fun kv : string * F =>
                  (dec 3 1 <! snd kv)
                  && negb (String.eqb (fst kv) (fst primary))) ms in
      let alternatives :=
        rev (sort_by (fun kv : string * F => snd kv) (rev alternatives)) in
      Some {| cr_feature_id :=
                dict_get_default "id" (PInt 0) feature_properties;
              primary_classification := fst primary;
              cr_confidence := snd primary;
              alternative_classifications := alternatives |}
  end.
End FeatureClassifier.

Arguments PropVal : clear implicits.
Arguments ClassificationResult : clear implicits.

(** ** AdjacencyAnalyzer ([FBM/advanced_algorithms.py]) *)

Section AdjacencyAnalyzer.
Context {F : Type} {N : Num F}.
Local Open Scope num_scope.

Record FeatureRelationship : Type := {
  feature1_id : Z;
  feature2_id : Z;
  relationship_type : string;
  strength : F;
  notes : string
}.

Definition proximity_threshold : F := fromZ 5.   (* 5.0 *)

(** [_calculate_distance]: the placeholder constant. *)
Definition _calculate_distance (feat1 feat2 : Feature F) : F := fromZ 10.

(** [_check_containment] *)
Definition _check_containment (feat1 feat2 : Feature F) : bool := false.

(** [_check_overlap] *)
Definition _check_overlap (feat1 feat2 : Feature F) : bool := false.

(** [enumerate(features)] *)
Definition enumerate {A} (l : list A) : list (nat * A) :=
  combine (seq 0 (List.length l)) l.

(** The body of the inner loop of [analyze_adjacency]: the relationships
    the pair [(i, feat1)], [(j, feat2)] appends.  [notes] formats the
    distance, which is the constant 10.0, with one decimal. *)
Definition relate (i : nat) (feat1 : Feature F) (j : nat)
    (feat2 : Feature F) : list FeatureRelationship :=
  if j <=? i then []
  else
    let distance := _calculate_distance feat1 feat2 in
    let found : option (string * F) :=
      if distance <! proximity_threshold
      then Some ("adjacent", fromZ 1 -! distance /! proximity_threshold)
      else if _check_containment feat1 feat2 then Some ("contained", fromZ 1)
      else if _check_overlap feat1 feat2 then Some ("overlapping", dec 8 1)
      else None in
    match found with
    | Some (rel_type, s) =>
        [{| feature1_id := feature_id feat1;
            feature2_id := feature_id feat2;
            relationship_type := rel_type;
            strength := s;
            notes := "Distance: 10.0mm" |}]
    | None => []
    end.

(** [analyze_adjacency] *)
Definition analyze_adjacency (features : list (Feature F))
    : list FeatureRelationship :=
  flat_map (fun '(i, feat1) =>
              flat_map (fun '(j, feat2) => relate i feat1 j feat2)
                       (enumerate features))
           (enumerate features).

(** [x in visited] for a set of feature ids. *)
Definition memZ (x : Z) (xs : list Z) : bool := existsb (Z.eqb x) xs.

(** The loop over the relationships for one cluster seed, on the state
    [(cluster, visited)] (lines 300-306). *)
Definition cluster_step (fid : Z) (st : list Z * list Z)
    (rel : FeatureRelationship) : list Z * list Z :=
  let '(cluster, visited) := st in
  if Z.eqb (feature1_id rel) fid && negb (memZ (feature2_id rel) visited)
  then (cluster ++ [feature2_id rel], visited ++ [feature2_id rel])
  else if Z.eqb (feature2_id rel) fid
          && negb (memZ (feature1_id rel) visited)
  then (cluster ++ [feature1_id rel], visited ++ [feature1_id rel])
  else st.

(** One iteration of the loop over the features, on the state
    [(clusters, visited)]. *)
Definition clusters_step (relationships : list FeatureRelationship)
    (st : list (list Z) * list Z) (feature : Feature F)
    : list (list Z) * list Z :=
  let '(clusters, visited) := st in
  if memZ (feature_id feature) visited then st
  else
    let '(cluster, visited) :=
      fold_left (cluster_step (feature_id feature)) relationships
                ([feature_id feature], visited ++ [feature_id feature]) in
    if 1 <? List.length cluster
    then (clusters ++ [cluster], visited)
    else (clusters, visited).

(** [find_feature_clusters] *)
Definition find_feature_clusters (features : list (Feature F))
    : list (list Z) :=
  let relationships := analyze_adjacency features in
  fst (fold_left (clusters_step relationships) features ([], [])).
End AdjacencyAnalyzer.

Arguments FeatureRelationship : clear implicits.

(** ** Vocabulary of the statements *)

Section Vocabulary.
Context {F : Type} {N : Num F}.
Local Open Scope num_scope.

(** The number of patterns whose [feature_ids] contain [id]. *)
Definition pattern_occurrences (id : Z) (patterns : list (FeaturePattern F))
  : nat :=
  List.length (filter (fun p => memZ id (feature_ids p)) patterns).

(** The patterns of one type. *)
Definition patterns_of_type (t : PatternType)
  (patterns : list (FeaturePattern F)) : list (FeaturePattern F) :=
  filter (fun p => PatternType_eqb (pattern_type p) t) patterns.

(** The ids of the patterns of a list are the ids found at pairwise distinct
    indices of the feature list, and the patterns all have type [t]. *)
Definition ids_at_distinct_indices (t : PatternType)
  (features : list (Feature F)) (patterns : list (FeaturePattern F))
  : Prop :=
  exists used,
    NoDup used
    /\ (forall x, In x used -> x < List.length features)
    /\ List.concat (map (@feature_ids F) patterns)
       = map (id_at features) used
    /\ Forall (fun p => pattern_type p = t) patterns.

(** The invariant of the [i] loop of [detect_linear_patterns]. *)
Definition linear_inv (features : list (Feature F))
  (st : list (FeaturePattern F) * list nat) : Prop :=
  NoDup (snd st)
  /\ (forall x, In x (snd st) -> x < List.length features)
  /\ List.concat (map (@feature_ids F) (fst st)) = map (id_at features) (snd st)
  /\ Forall (fun p => pattern_type p = LINEAR) (fst st).

(** The semi-angles of the conical faces of a shape, in face order. *)
Definition cone_semi_angles (shape : Shape F) : list F :=
  flat_map (fun s => match s with Cone a _ => [a] | _ => [] end) shape.

(** The test of line 225 of [FBM_advanced.py]: strictly between 75 and
    125. *)
Definition countersink_angle_ok (semi_angle : F) : bool :=
  (fromZ 75 <! full_angle semi_angle) && (full_angle semi_angle <! fromZ 125).

(** The spacing line 134 computes for a pair of centres. *)
Definition pair_spacing (ci cj : Point F) : F :=
  let dx := coord cj 0 -! coord ci 0 in
  let dy := coord cj 1 -! coord ci 1 in
  let dz := coord cj 2 -! coord ci 2 in
  fsqrt (sq dx +! sq dy +! sq dz).

(** A feature whose geometry dict has no ['center'] key. *)
Definition centerless (f : Feature F) : Prop :=
  dict_get "center" (geometry f) = None.

(** The determinant [d] of line 404. *)
Definition circle_det (p1 p2 p3 : Point F) : F :=
  fromZ 2 *! (coord p1 0 *! (coord p2 1 -! coord p3 1)
              +! coord p2 0 *! (coord p3 1 -! coord p1 1)
              +! coord p3 0 *! (coord p1 1 -! coord p2 1)).
End Vocabulary.

(** The pattern types with one detector that marks what it has used. *)
Definition single_detector (t : PatternType) : Prop :=
  t = LINEAR \/ t = CIRCULAR \/ t = GRID.

(** The Euclidean distance of two points. *)
Definition euclid (a b : Point R) : R :=
  let '(x1, y1, z1) := a in
  let '(x2, y2, z2) := b in
  sqrt ((x2 - x1) * (x2 - x1) + (y2 - y1) * (y2 - y1)
        + (z2 - z1) * (z2 - z1))%R.

(** The unit vector from [c1] to [c2] (line 139). *)
Definition unit_direction (c1 c2 : Point R) : Point R :=
  ((coord c2 0 - coord c1 0) / euclid c1 c2,
   (coord c2 1 - coord c1 1) / euclid c1 c2,
   (coord c2 2 - coord c1 2) / euclid c1 c2)%R.

(** What the code reports for two features at distance at least 0.1. *)
Definition pair_pattern (f1 f2 : Feature R) : FeaturePattern R :=
  let c1 := _get_feature_center f1 in
  let c2 := _get_feature_center f2 in
  {| pattern_type := LINEAR;
     feature_ids := [feature_id f1; feature_id f2];
     pattern_count := 2;
     spacing := euclid c1 c2;
     angle := 0%R;
     center := None;
     direction := Some (DirVec (unit_direction c1 c2));
     confidence := 1%R |}.

(** The [k]-th of six points at 60-degree increments on the circle of radius
    20 around [(cx, cy)] in the plane [z = cz], starting at angle [theta]. *)
Definition hexagon_point (cx cy cz theta : R) (k : nat) : Point R :=
  (cx + 20 * cos (theta + INR k * (PI / 3)),
   cy + 20 * sin (theta + INR k * (PI / 3)),
   cz)%R.

(** What the code reports for six features on such a circle. *)
Definition hexagon_pattern (features : list (Feature R)) (cx cy cz : R)
  : FeaturePattern R :=
  {| pattern_type := CIRCULAR;
     feature_ids := map (@feature_id R) features;
     pattern_count := 6;
     spacing := 0%R;
     angle := 60%R;
     center := Some (cx, cy, cz);
     direction := None;
     confidence := (9 / 10)%R |}.

(** ** Scenario inputs *)

(** A hole with a centre. *)
Definition hole_at {F} (id : Z) (c : Point F) : Feature F :=
  {| feature_id := id; feature_type := "Through Hole";
     geometry := [("center", c)] |}.

(** A feature whose geometry dict has no ['center'] key. *)
Definition bare {F} (id : Z) (type : string) : Feature F :=
  {| feature_id := id; feature_type := type; geometry := [] |}.

(** The double [n / d], for [n] and [d] exact doubles with an exact
    quotient. *)
Definition fratio (n d : Z) : PrimFloat.float :=
  PrimFloat.div (float_of_Z n) (float_of_Z d).

Definition fpt (x y z : Z) : Point PrimFloat.float :=
  (float_of_Z x, float_of_Z y, float_of_Z z).

(** Scenario A: four holes at x = 0, 10, 20, 30. *)
Definition scenario_A : list (Feature PrimFloat.float) :=
  [hole_at 1 (fpt 0 0 0); hole_at 2 (fpt 10 0 0);
   hole_at 3 (fpt 20 0 0); hole_at 4 (fpt 30 0 0)].

(** Scenario D: two holes at (10,5,0) and (-10,5,0). *)
Definition scenario_D : list (Feature PrimFloat.float) :=
  [hole_at 1 (fpt 10 5 0); hole_at 2 (fpt (-10) 5 0)].

(** Four holes at x = 0, 0.125, 0.25, 1 (all exact doubles). *)
Definition uneven_row : list (Feature PrimFloat.float) :=
  [hole_at 1 (fpt 0 0 0);
   hole_at 2 (fratio 1 8, float_of_Z 0, float_of_Z 0);
   hole_at 3 (fratio 1 4, float_of_Z 0, float_of_Z 0);
   hole_at 4 (fpt 1 0 0)].

(** Scenario B: six holes at [(20*cos(a), 20*sin(a), 0)] for
    [a = radians(60*k)], [k = 0..5]; the coordinates are the doubles
    [math.cos] and [math.sin] return for these angles, multiplied by 20. *)
Definition scenario_B : list (Feature PrimFloat.float) :=
  [hole_at 1 (fratio 20 1, fratio 0 1, float_of_Z 0);
   hole_at 2 (fratio 5629499534213121 562949953421312,
              fratio 2437644803610613 140737488355328, float_of_Z 0);
   hole_at 3 (fratio (-2814749767106559) 281474976710656,
              fratio 4875289607221227 281474976710656, float_of_Z 0);
   hole_at 4 (fratio (-20) 1,
              fratio 6209697000026889 2535301200456458802993406410752,
              float_of_Z 0);
   hole_at 5 (fratio (-5629499534213125) 562949953421312,
              fratio (-4875289607221225) 281474976710656, float_of_Z 0);
   hole_at 6 (fratio 5629499534213121 562949953421312,
              fratio (-2437644803610613) 140737488355328, float_of_Z 0)].

(** The semi-angle 0x1.4f1a6c638d03fp-1 (about 0.6545 rad), whose full angle
    in degrees is the double 75.0. *)
Definition semi_angle_75 : PrimFloat.float :=
  fratio 5895198126690367 9007199254740992.

(** Six holes on the circle of radius 20 around the origin, the first at
    angle 0, over the reals. *)
Definition hexagon_holes : list (Feature R) :=
  map (fun k => hole_at (Z.of_nat k + 1) (hexagon_point 0 0 0 0 k)) (seq 0 6).

(** Scenario B turned into the xz-plane: the six centres
    [(20*cos(a), 0, 20*sin(a))]. *)
Definition scenario_B_xz : list (Feature PrimFloat.float) :=
  [hole_at 1 (fratio 20 1, float_of_Z 0, fratio 0 1);
   hole_at 2 (fratio 5629499534213121 562949953421312, float_of_Z 0,
              fratio 2437644803610613 140737488355328);
   hole_at 3 (fratio (-2814749767106559) 281474976710656, float_of_Z 0,
              fratio 4875289607221227 281474976710656);
   hole_at 4 (fratio (-20) 1, float_of_Z 0,
              fratio 6209697000026889 2535301200456458802993406410752);
   hole_at 5 (fratio (-5629499534213125) 562949953421312, float_of_Z 0,
              fratio (-4875289607221225) 281474976710656);
   hole_at 6 (fratio 5629499534213121 562949953421312, float_of_Z 0,
              fratio (-2437644803610613) 140737488355328)].

(** Scenario B moved to the centre (1e9, 0, 0): the doubles
    [1e9 + 20*cos(a)] and [20*sin(a)]. *)
Definition far_hexagon : list (Feature PrimFloat.float) :=
  [hole_at 1 (fpt 1000000020 0 0);
   hole_at 2 (float_of_Z 1000000010,
              fratio 2437644803610613 140737488355328, float_of_Z 0);
   hole_at 3 (float_of_Z 999999990,
              fratio 4875289607221227 281474976710656, float_of_Z 0);
   hole_at 4 (float_of_Z 999999980,
              fratio 6209697000026889 2535301200456458802993406410752,
              float_of_Z 0);
   hole_at 5 (float_of_Z 999999990,
              fratio (-4875289607221225) 281474976710656, float_of_Z 0);
   hole_at 6 (float_of_Z 1000000010,
              fratio (-2437644803610613) 140737488355328, float_of_Z 0)].


(** ** Further vocabulary: patterns *)

Section PatternVocabulary.
Context {F : Type} {N : Num F}.
Local Open Scope num_scope.

(** The features of one type, in list order. *)
Definition features_of_type (t : string) (features : list (Feature F))
  : list (Feature F) :=
  filter (fun f => String.eqb (feature_type f) t) features.

(** What [_group_features_by_type] has built after a prefix of the list. *)
Definition grouped (prefix : list (Feature F))
  (groups : list (string * list (Feature F))) : Prop :=
  NoDup (map fst groups)
  /\ (forall t g, In (t, g) groups ->
        g = features_of_type t prefix /\ g <> [])
  /\ (forall f, In f prefix -> In (feature_type f) (map fst groups)).

(** The confidence a pattern of a given type is built with; linear patterns
    compute theirs. *)
Definition fixed_confidence (p : FeaturePattern F) : Prop :=
  match pattern_type p with
  | LINEAR => True
  | CIRCULAR => confidence p = dec 9 1
  | GRID => confidence p = dec 8 1
  | MIRROR => confidence p = dec 85 2
  | _ => False
  end.

(** What every pattern a detector builds from the group [g] satisfies. *)
Definition pattern_ok (g : list (Feature F)) (p : FeaturePattern F) : Prop :=
  pattern_count p = List.length (feature_ids p)
  /\ 2 <= List.length (feature_ids p)
  /\ incl (feature_ids p) (map (@feature_id F) g)
  /\ fixed_confidence p.

(** The invariant of the [i] loop of [detect_mirror_patterns]. *)
Definition mirror_inv (n : nat) (st : list (nat * nat) * list nat) : Prop :=
  NoDup (snd st)
  /\ (forall x, In x (snd st) -> x < n)
  /\ snd st = flat_map (fun pair : nat * nat => [fst pair; snd pair]) (fst st).
End PatternVocabulary.

(** ** Vocabulary of the exact statements *)

Section ExactVocabulary.
Local Open Scope R_scope.

(** Squared distance of two points in the xy-plane. *)
Definition planar_dist2 (p c : Point R) : R :=
  (coord p 0 - coord c 0) * (coord p 0 - coord c 0)
  + (coord p 1 - coord c 1) * (coord p 1 - coord c 1).

(** The point at parameter [t] on the line through [a] along [d]. *)
Definition point_on_line (a d : Point R) (t : R) : Point R :=
  (coord a 0 + t * coord d 0, coord a 1 + t * coord d 1,
   coord a 2 + t * coord d 2).

(** What the code reports for a pair mirrored across one plane. *)
Definition mirror_pair_pattern (f1 f2 : Feature R) (plane_name : string)
  : FeaturePattern R :=
  {| pattern_type := MIRROR;
     feature_ids := [feature_id f1; feature_id f2];
     pattern_count := 2;
     spacing := 0;
     angle := 0;
     center := None;
     direction := Some (DirPlane plane_name);
     confidence := 85 / 100 |}.

End ExactVocabulary.

(** ** GeometryAnalyzer, the other methods ([FBM/geometry_analyzer.py]) *)

Section GeometryAnalyzer.
Context {F : Type} {N : Num F}.
Local Open Scope num_scope.

Definition THIN_WALL_THRESHOLD : F := dec 15 1.   (* 1.5 *)
Definition MIN_DRAFT_ANGLE : F := fromZ 1.        (* 1.0 *)

(** [detect_undercuts]: the loop leaves at the first planar face whose
    normal points downward. *)
Fixpoint detect_undercuts (shape : Shape F) : bool :=
  match shape with
  | [] => false
  | Plane normal :: rest =>
      if coord normal 2 <! opp (dec 3 1) then true else detect_undercuts rest
  | _ :: rest => detect_undercuts rest
  end.

(** [bbox.Get()]: xmin, ymin, zmin, xmax, ymax, zmax. *)
Definition Bbox : Type := (F * F * F * F * F * F)%type.

(** [min(xs)] on a non-empty list: the first minimal element. *)
Definition py_min_list (xs : list F) : F :=
  match xs with
  | [] => fromZ 0
  | x :: t => fold_left (fun m y => if y <! m then y else m) t x
  end.

(** [analyze_wall_thickness] on the bounding box of the shape. *)
Definition analyze_wall_thickness (bbox : Bbox) : bool * F :=
  let '(xmin, ymin, zmin, xmax, ymax, zmax) := bbox in
  let dimensions := [xmax -! xmin; ymax -! ymin; zmax -! zmin] in
  let min_dimension := py_min_list dimensions in
  let has_thin_walls := min_dimension <! THIN_WALL_THRESHOLD in
  (has_thin_walls, min_dimension).

(** The counters [(top_facing, side_facing, bottom_facing)] after the loop
    of [calculate_accessibility_score]. *)
Fixpoint count_orientations (shape : Shape F) (acc : Z * Z * Z)
  : Z * Z * Z :=
  match shape with
  | [] => acc
  | Plane normal :: rest =>
      let '(top_facing, side_facing, bottom_facing) := acc in
      let z_comp := fabs (coord normal 2) in
      if dec 9 1 <! z_comp then
        if fromZ 0 <! coord normal 2
        then count_orientations rest
               ((top_facing + 1)%Z, side_facing, bottom_facing)
        else count_orientations rest
               (top_facing, side_facing, (bottom_facing + 1)%Z)
      else if z_comp <! dec 3 1 then
        count_orientations rest
          (top_facing, (side_facing + 1)%Z, bottom_facing)
      else count_orientations rest acc
  | _ :: rest => count_orientations rest acc
  end.

(** [calculate_accessibility_score] *)
Definition calculate_accessibility_score (shape : Shape F) : F :=
  let '(top_facing, side_facing, bottom_facing) :=
    count_orientations shape (0, 0, 0)%Z in
  let total_faces := (top_facing + side_facing + bottom_facing)%Z in
  if (0 <? total_faces)%Z
  then (fromZ top_facing +! dec 5 1 *! fromZ side_facing) /! fromZ total_faces
  else fromZ 1.

(** The counters [(planar_count, cylindrical_count, complex_count)] after
    the loop of [calculate_complexity_score]. *)
Fixpoint count_surface_types (shape : Shape F) (acc : Z * Z * Z)
  : Z * Z * Z :=
  match shape with
  | [] => acc
  | face :: rest =>
      let '(planar_count, cylindrical_count, complex_count) := acc in
      match face with
      | Plane _ =>
          count_surface_types rest
            ((planar_count + 1)%Z, cylindrical_count, complex_count)
      | Cylinder _ =>
          count_surface_types rest
            (planar_count, (cylindrical_count + 1)%Z, complex_count)
      | _ =>
          count_surface_types rest
            (planar_count, cylindrical_count, (complex_count + 1)%Z)
      end
  end.

(** [calculate_complexity_score] *)
Definition calculate_complexity_score (shape : Shape F) : F :=
  let score := fromZ 0 in
  let '(planar_count, cylindrical_count, complex_count) :=
    count_surface_types shape (0, 0, 0)%Z in
  let total_faces := (planar_count + cylindrical_count + complex_count)%Z in
  let score :=
    if (0 <? total_faces)%Z then
      let score :=
        score +! (fromZ complex_count /! fromZ total_faces) *! fromZ 5 in
      if (20 <? total_faces)%Z then score +! fromZ 2
      else if (10 <? total_faces)%Z then score +! fromZ 1
      else score
    else score in
  py_min score (fromZ 10).

Record GeometryAnalysis : Type := {
  has_undercuts : bool;
  has_thin_walls : bool;
  min_wall_thickness : F;
  draft_angles : list F;
  accessibility_score : F;
  complexity_score : F;
  manufacturing_risks : list string;
  suggested_strategies : list string
}.

(** The two messages of [identify_risks] that format a float
    ([f"...{x:.1f}..."]), as functions of the float. *)
Variable thin_wall_message : F -> string.
Variable low_draft_message : F -> string.

(** [identify_risks] *)
Definition identify_risks (analysis : GeometryAnalysis) : list string :=
  (if has_undercuts analysis
   then ["Undercuts detected - may require special tooling or multiple setups"]
   else [])
  ++ (if has_thin_walls analysis
      then [thin_wall_message (min_wall_thickness analysis)] else [])
  ++ (if accessibility_score analysis <! dec 5 1
      then ["Poor accessibility - may require 4/5-axis machining"] else [])
  ++ (if fromZ 7 <! complexity_score analysis
      then ["High complexity - extended programming and machining time"]
      else [])
  ++ flat_map (fun angle => if angle <! MIN_DRAFT_ANGLE
                            then [low_draft_message angle] else [])
              (draft_angles analysis).

(** [suggest_strategies] *)
Definition suggest_strategies (analysis : GeometryAnalysis) : list string :=
  (if has_thin_walls analysis
   then ["Use light depth of cut and multiple passes";
         "Consider climb milling to reduce cutting forces";
         "Use sharp tools to minimize deflection"]
   else [])
  ++ (if has_undercuts analysis
      then ["Evaluate if undercuts can be accessed with angled tools";
            "Consider additional setups or part rotation"]
      else [])
  ++ (if fromZ 7 <! complexity_score analysis
      then ["Break into multiple operations with tool changes";
            "Use adaptive clearing for efficient roughing"]
      else [])
  ++ (if accessibility_score analysis <! dec 7 1
      then ["Consider 4-axis or 5-axis machining";
            "Optimize fixture design for better access"]
      else []).

(** [analyze_complete] on the faces and the bounding box of the shape. *)
Definition analyze_complete (shape : Shape F) (bbox : Bbox)
  : GeometryAnalysis :=
  let analysis :=
    {| has_undercuts := detect_undercuts shape;
       has_thin_walls := fst (analyze_wall_thickness bbox);
       min_wall_thickness := snd (analyze_wall_thickness bbox);
       draft_angles := measure_draft_angles shape;
       accessibility_score := calculate_accessibility_score shape;
       complexity_score := calculate_complexity_score shape;
       manufacturing_risks := [];
       suggested_strategies := [] |} in
  let analysis :=
    {| has_undercuts := has_undercuts analysis;
       has_thin_walls := has_thin_walls analysis;
       min_wall_thickness := min_wall_thickness analysis;
       draft_angles := draft_angles analysis;
       accessibility_score := accessibility_score analysis;
       complexity_score := complexity_score analysis;
       manufacturing_risks := identify_risks analysis;
       suggested_strategies := suggested_strategies analysis |} in
  {| has_undercuts := has_undercuts analysis;
     has_thin_walls := has_thin_walls analysis;
     min_wall_thickness := min_wall_thickness analysis;
     draft_angles := draft_angles analysis;
     accessibility_score := accessibility_score analysis;
     complexity_score := complexity_score analysis;
     manufacturing_risks := manufacturing_risks analysis;
     suggested_strategies := suggest_strategies analysis |}.
End GeometryAnalyzer.

Arguments Bbox : clear implicits.
Arguments GeometryAnalysis : clear implicits.

(** ** AdvancedFeatureRecognitionEngine, the other recognisers
    ([FBM/FBM_advanced.py]) *)

Section AdvancedRecognition.
Context {F : Type} {N : Num F}.
Local Open Scope num_scope.

(** [max(a, b)]. *)
Definition py_max2 (a b : F) : F := if a <! b then b else a.

(** The curve of an edge: its [GetType()] tag. *)
Inductive Curve : Type := Line | Circle | Helix | OtherCurve.

(** [_looks_like_thread] *)
Definition _looks_like_thread (edge : Curve) : bool := false.

(** [_estimate_thread_diameter], [_estimate_thread_depth],
    [_estimate_thread_pitch]: the placeholder constants. *)
Definition _estimate_thread_diameter (edge : Curve) : F := fromZ 6.
Definition _estimate_thread_depth (edge : Curve) : F := fromZ 10.
Definition _estimate_thread_pitch (edge : Curve) : F := fromZ 1.

(** The dict [thread_specs], in insertion order. *)
Definition thread_specs : list ((F * F) * string) :=
  [((fromZ 3, dec 5 1), "M3x0.5");
   ((fromZ 4, dec 7 1), "M4x0.7");
   ((fromZ 5, dec 8 1), "M5x0.8");
   ((fromZ 6, fromZ 1), "M6x1.0");
   ((fromZ 8, dec 125 2), "M8x1.25");
   ((fromZ 10, dec 15 1), "M10x1.5");
   ((fromZ 12, dec 175 2), "M12x1.75")].

(** The test of line 403 for one entry of the table. *)
Definition thread_matches (diameter pitch : F) (entry : (F * F) * string)
  : bool :=
  (fabs (diameter -! fst (fst entry)) <! dec 5 1)
  && (fabs (pitch -! snd (fst entry)) <! dec 2 1).

(** The fallback label [f"M{diameter:.0f}x{pitch:.1f}"], as a function of
    the two floats it formats. *)
Variable thread_label : F -> F -> string.

(** [_classify_thread] *)
Definition _classify_thread (diameter pitch : F) : string :=
  match find (thread_matches diameter pitch) thread_specs with
  | Some entry => snd entry
  | None => thread_label diameter pitch
  end.

(** The fields [recognize_threaded_holes] sets. *)
Record ThreadedHole : Type := {
  th_feature_id : Z;
  th_feature_type : string;
  th_geometry : list (string * Curve);
  th_diameter : F;
  th_depth : F;
  th_thread_pitch : F;
  th_thread_type : string;
  th_confidence_score : F;
  th_complexity_rating : Z;
  th_manufacturing_notes : list string;
  th_surface_finish_required : string
}.

(** [recognize_threaded_holes] over the edges of the shape, threading
    [self.feature_counter]. *)
Fixpoint recognize_threaded_holes (edges : list Curve) (feature_counter : Z)
  : list ThreadedHole * Z :=
  match edges with
  | [] => ([], feature_counter)
  | edge :: rest =>
      if (match edge with Helix => true | _ => false end)
         || _looks_like_thread edge
      then
        let diameter := _estimate_thread_diameter edge in
        let depth := _estimate_thread_depth edge in
        let pitch := _estimate_thread_pitch edge in
        let feature :=
          {| th_feature_id := feature_counter;
             th_feature_type := "Threaded Hole";
             th_geometry := [("edge", edge)];
             th_diameter := diameter;
             th_depth := depth;
             th_thread_pitch := pitch;
             th_thread_type := _classify_thread diameter pitch;
             th_confidence_score := dec 85 2;
             th_complexity_rating := 6;
             th_manufacturing_notes := ["Requires thread milling or tapping"];
             th_surface_finish_required := "Standard" |} in
        let '(threaded_holes, c) :=
          recognize_threaded_holes rest (feature_counter + 1)%Z in
        (feature :: threaded_holes, c)
      else recognize_threaded_holes rest feature_counter
  end.

(** A face with the queries the recognisers make beyond the surface type:
    the direction of its [Axis()], the z of its [Location()], its area
    ([GProp_GProps.Mass()]) and its bounding box. *)
Record Face : Type := {
  face_surface : Surface F;
  face_axis : Point F;
  face_location_z : F;
  face_area : F;
  face_bbox : Bbox F
}.

(** [_are_coaxial] on the axis directions of two cylinders. *)
Definition _are_coaxial (cyl1 cyl2 : Face) : bool :=
  let dir1 := face_axis cyl1 in
  let dir2 := face_axis cyl2 in
  let dot_product :=
    fabs (coord dir1 0 *! coord dir2 0 +! coord dir1 1 *! coord dir2 1
          +! coord dir1 2 *! coord dir2 2) in
  dec 99 2 <! dot_product.

(** The fields [recognize_counterbores] sets. *)
Record Counterbore : Type := {
  cb_feature_id : Z;
  cb_feature_type : string;
  cb_geometry : list (string * Face);
  cb_diameter : F;
  cb_shoulder_diameter : F;
  cb_shoulder_depth : F;
  cb_confidence_score : F;
  cb_complexity_rating : Z;
  cb_manufacturing_notes : list string
}.

(** The list [cylindrical_faces] of [(face, radius)] (the cylinder itself is
    the face). *)
Definition cylindrical_faces (faces : list Face) : list (Face * F) :=
  flat_map (fun face => match face_surface face with
                        | Cylinder radius => [(face, radius)]
                        | _ => []
                        end) faces.

(** The body of the [j] loop of [recognize_counterbores] for one pair. *)
Definition counterbore_candidate (feature_counter : Z)
  (c1 c2 : Face * F) : option Counterbore :=
  let '(face1, r1) := c1 in
  let '(face2, r2) := c2 in
  if _are_coaxial face1 face2 && (dec 5 1 <! fabs (r1 -! r2)) then
    let larger_r := py_max2 r1 r2 in
    let smaller_r := py_min r1 r2 in
    Some {| cb_feature_id := feature_counter;
            cb_feature_type := "Counterbore Hole";
            cb_geometry := [("face1", face1); ("face2", face2)];
            cb_diameter := fromZ 2 *! smaller_r;
            cb_shoulder_diameter := fromZ 2 *! larger_r;
            cb_shoulder_depth := fromZ 5;
            cb_confidence_score := dec 9 1;
            cb_complexity_rating := 4;
            cb_manufacturing_notes :=
              ["Two-step drilling operation required"] |}
  else None.

(** The cylinders after the first of a list, each paired with the first: the
    [i] loop with its [j] loop, on the state [(counterbores, counter)]. *)
Fixpoint counterbores_from (cyls : list (Face * F))
  (st : list Counterbore * Z) : list Counterbore * Z :=
  match cyls with
  | [] => st
  | c1 :: rest =>
      let '(counterbores, feature_counter) := st in
      match first_some (counterbore_candidate feature_counter c1) rest with
      | Some feature =>
          counterbores_from rest
            (counterbores ++ [feature], (feature_counter + 1)%Z)
      | None => counterbores_from rest st
      end
  end.

(** [recognize_counterbores] *)
Definition recognize_counterbores (faces : list Face) (feature_counter : Z)
  : list Counterbore * Z :=
  counterbores_from (cylindrical_faces faces) ([], feature_counter).

(** The fields [recognize_bosses] sets. *)
Record Boss : Type := {
  boss_feature_id : Z;
  boss_feature_type : string;
  boss_geometry : list (string * Face);
  boss_width : F;
  boss_length : F;
  boss_height : F;
  boss_area : F;
  boss_confidence_score : F;
  boss_complexity_rating : Z;
  boss_manufacturing_notes : list string
}.

(** The planar faces larger than 1000 ([base_faces]) and the other planar
    faces ([raised_faces]). *)
Definition is_planar (face : Face) : bool :=
  match face_surface face with Plane _ => true | _ => false end.

Definition base_faces (faces : list Face) : list Face :=
  filter (fun face => is_planar face && (fromZ 1000 <! face_area face)) faces.

Definition raised_faces (faces : list Face) : list Face :=
  filter (fun face => is_planar face
                      && negb (fromZ 1000 <! face_area face)) faces.

(** Lines 284-315 for a raised face and the base below it; [None] is the
    [ZeroDivisionError] of line 295. *)
Definition boss_of (feature_counter : Z) (raised_face base_face : Face)
  : option Boss :=
  let '(xmin, ymin, zmin, xmax, ymax, zmax) := face_bbox raised_face in
  let width := xmax -! xmin in
  let length := ymax -! ymin in
  let height := face_location_z raised_face -! face_location_z base_face in
  let divisor := py_min width length +! dec 1 3 in
  if eqb divisor (fromZ 0) then None
  else
    let aspect_ratio := py_max2 width length /! divisor in
    let boss_type :=
      if aspect_ratio <! dec 15 1 then "Circular Boss"
      else "Rectangular Boss" in
    Some {| boss_feature_id := feature_counter;
            boss_feature_type := boss_type;
            boss_geometry :=
              [("top_face", raised_face); ("base_face", base_face)];
            boss_width := width;
            boss_length := length;
            boss_height := height;
            boss_area := face_area raised_face;
            boss_confidence_score := dec 75 2;
            boss_complexity_rating := 5;
            boss_manufacturing_notes :=
              ["Boss feature - machine around to leave protrusion";
               "Consider face milling base, then profiling around boss"] |}.

(** The loop over the raised faces, on the state [(bosses, counter)]; the
    inner loop stops at the first base more than 1.0 below. *)
Fixpoint bosses_from (raised bases : list Face) (st : list Boss * Z)
  : option (list Boss * Z) :=
  match raised with
  | [] => Some st
  | raised_face :: rest =>
      let '(bosses, feature_counter) := st in
      match find (fun base_face =>
                    face_location_z base_face +! fromZ 1
                    <! face_location_z raised_face) bases with
      | Some base_face =>
          match boss_of feature_counter raised_face base_face with
          | Some feature =>
              bosses_from rest bases
                (bosses ++ [feature], (feature_counter + 1)%Z)
          | None => None
          end
      | None => bosses_from rest bases st
      end
  end.

(** [recognize_bosses]; [None] when it raises. *)
Definition recognize_bosses (faces : list Face) (feature_counter : Z)
  : option (list Boss * Z) :=
  bosses_from (raised_faces faces) (base_faces faces) ([], feature_counter).

(** A pocket as [recognize_t_slots] reads it: a handle for its geometry, its
    width and its depth. *)
Record Pocket : Type := {
  pocket_geometry : nat;
  pocket_width : F;
  pocket_depth : F
}.

(** [_forms_t_slot_pattern] *)
Definition _forms_t_slot_pattern (pocket1 pocket2 : Pocket) : bool :=
  let w1 := pocket_width pocket1 in
  let w2 := pocket_width pocket2 in
  if (fromZ 0 <! w1) && (fromZ 0 <! w2) then
    let ratio := py_max2 w1 w2 /! py_min w1 w2 in
    (dec 15 1 <! ratio) && (ratio <! fromZ 3)
  else false.

(** The fields [recognize_t_slots] sets. *)
Record TSlot : Type := {
  ts_feature_id : Z;
  ts_feature_type : string;
  ts_geometry : list (string * nat);
  ts_width : F;
  ts_slot_width : F;
  ts_head_width : F;
  ts_slot_depth : F;
  ts_confidence_score : F;
  ts_complexity_rating : Z;
  ts_manufacturing_notes : list string;
  ts_alternative_strategies : list string
}.

(** The body of the [j] loop of [recognize_t_slots] for one pair. *)
Definition t_slot_candidate (feature_counter : Z) (p1 p2 : Pocket)
  : option TSlot :=
  if _forms_t_slot_pattern p1 p2 then
    let p1_width := pocket_width p1 in
    let p2_width := pocket_width p2 in
    let slot_width := py_min p1_width p2_width in
    let head_width := py_max2 p1_width p2_width in
    Some {| ts_feature_id := feature_counter;
            ts_feature_type := "T-Slot";
            ts_geometry := [("pocket1", pocket_geometry p1);
                            ("pocket2", pocket_geometry p2)];
            ts_width := slot_width;
            ts_slot_width := slot_width;
            ts_head_width := head_width;
            ts_slot_depth := py_max2 (pocket_depth p1) (pocket_depth p2);
            ts_confidence_score := dec 8 1;
            ts_complexity_rating := 7;
            ts_manufacturing_notes :=
              ["T-slot requires special T-slot cutter";
               "Mill narrow slot first, then widen bottom with T-cutter"];
            ts_alternative_strategies :=
              ["Could use multiple setups with end mills if T-cutter unavailable"]
         |}
  else None.

(** The [i] loop with its [j] loop, on the state [(t_slots, counter)]. *)
Fixpoint t_slots_from (pockets : list Pocket) (st : list TSlot * Z)
  : list TSlot * Z :=
  match pockets with
  | [] => st
  | p1 :: rest =>
      let '(t_slots, feature_counter) := st in
      match first_some (t_slot_candidate feature_counter p1) rest with
      | Some feature =>
          t_slots_from rest (t_slots ++ [feature], (feature_counter + 1)%Z)
      | None => t_slots_from rest st
      end
  end.

(** [recognize_t_slots] on the pockets [self.recognize_pockets()] returned
    and the counter it left. *)
Definition recognize_t_slots (pockets : list Pocket) (feature_counter : Z)
  : list TSlot * Z :=
  t_slots_from pockets ([], feature_counter).

(** Lines 504-511 of [recognize_all_advanced_features]: the [pattern_id] of
    each feature, initially [None], after the loop over the patterns; one
    iteration for the pattern of index [i]. *)
Definition assign_pattern_id (all_features : list (Feature F))
  (pattern_ids : list (option nat)) (i : nat) (pattern : FeaturePattern F)
  : list (option nat) :=
  map (fun fp : Feature F * option nat =>
         if memZ (feature_id (fst fp)) (feature_ids pattern)
         then Some i else snd fp)
      (combine all_features pattern_ids).

(** The bounding boxes of the small planar faces are boxes. *)
Definition raised_boxes_ok (faces : list Face) : Prop :=
  forall face, In face (raised_faces faces) ->
    let '(xmin, ymin, zmin, xmax, ymax, zmax) := face_bbox face in
    (xmax <! xmin) = false /\ (ymax <! ymin) = false.

(** The ids [c, c+1, ..., c+n-1]. *)
Definition ids_from (c : Z) (n : nat) : list Z :=
  map (fun k => (c + Z.of_nat k)%Z) (seq 0 n).

Definition assign_pattern_ids (patterns : list (FeaturePattern F))
  (all_features : list (Feature F)) : list (option nat) :=
  fold_left (fun pattern_ids ip => assign_pattern_id all_features pattern_ids
                                     (fst ip) (snd ip))
            (enumerate patterns)
            (map (fun _ => None) all_features).
End AdvancedRecognition.

Arguments ThreadedHole : clear implicits.
Arguments Face : clear implicits.
Arguments Counterbore : clear implicits.
Arguments Boss : clear implicits.
Arguments Pocket : clear implicits.
Arguments TSlot : clear implicits.

(** ** FeatureClassifier.multi_criteria_decision and MachinabilityScorer
    ([FBM/advanced_algorithms.py]) *)

Section Scoring.
Context {F : Type} {N : Num F}.
Local Open Scope num_scope.

(** A [feature: any] as the two functions read it: each attribute is
    present ([hasattr]) or not. *)
Record AnyFeature : Type := {
  any_depth : option F;
  any_diameter : option F;
  any_width : option F;
  any_area : option F;
  any_tolerance : option string;
  any_accessibility : option string
}.

(** [multi_criteria_decision]: the dict [criteria_scores], in insertion
    order (lines 145-168). *)
Definition criteria_scores (feature : AnyFeature) : list (string * F) :=
  [("cylindrical",
    match any_diameter feature with
    | Some diameter => if fromZ 0 <! diameter then fromZ 1 else fromZ 0
    | None => fromZ 0
    end)]
  ++ match any_depth feature, any_width feature with
     | Some depth, Some width =>
         [("deep", if width <! depth then fromZ 1 else fromZ 0)]
     | _, _ => []
     end
  ++ match any_area feature with
     | Some area =>
         [("large", if fromZ 1000 <! area then fromZ 1
                    else if fromZ 100 <! area then dec 5 1
                    else fromZ 0)]
     | None => []
     end.

(** The result dict of [multi_criteria_decision]. *)
Record Decision : Type := {
  dec_criteria_scores : list (string * F);
  weighted_score : F;
  decision : string
}.

(** [multi_criteria_decision] *)
Definition multi_criteria_decision (feature : AnyFeature)
    (criteria_weights : list (string * F)) : Decision :=
  let scores := criteria_scores feature in
  let weighted :=
    fold_left (fun weighted_score cs =>
                 let weight :=
                   match dict_get (fst cs) criteria_weights with
                   | Some w => w
                   | None => dec 33 2
                   end in
                 weighted_score +! snd cs *! weight)
              scores (fromZ 0) in
  {| dec_criteria_scores := scores;
     weighted_score := weighted;
     decision := if dec 6 1 <! weighted then "accept" else "uncertain" |}.

(** [needle in hay] for strings. *)
Fixpoint str_in (needle hay : string) : bool :=
  String.prefix needle hay
  || match hay with
     | EmptyString => false
     | String _ rest => str_in needle rest
     end.

(** [s.lower()] on the ASCII letters; no other character lowers to a letter
    of "hard", the only word looked for in the result. *)
Definition lower_char (c : Ascii.ascii) : Ascii.ascii :=
  let n := Ascii.nat_of_ascii c in
  if (65 <=? n)%nat && (n <=? 90)%nat then Ascii.ascii_of_nat (n + 32) else c.

Fixpoint lower (s : string) : string :=
  match s with
  | EmptyString => EmptyString
  | String c rest => String (lower_char c) (lower rest)
  end.

(** [_get_difficulty_label] *)
Definition _get_difficulty_label (score : F) : string :=
  if score <! fromZ 3 then "Easy"
  else if score <! fromZ 5 then "Moderate"
  else if score <! fromZ 7 then "Difficult"
  else "Very Difficult".

(** One [if ...: score += amount; factors.append(factor)]. *)
Definition bump (condition : bool) (amount : F) (factor : string)
    (st : F * list string) : F * list string :=
  if condition then (fst st +! amount, snd st ++ [factor]) else st.

(** The result dict of [score_feature]. *)
Record Machinability : Type := {
  ms_score : F;
  ms_difficulty : string;
  ms_factors : list string
}.

(** [score_feature] *)
Definition score_feature (feature : AnyFeature) (material_hardness : string)
    : Machinability :=
  let st := (fromZ 1, []) in
  let st :=
    bump match any_depth feature, any_diameter feature with
         | Some depth, Some diameter => diameter *! fromZ 3 <! depth
         | _, _ => false
         end (fromZ 2) "Deep feature (L/D > 3)" st in
  let st :=
    bump match any_diameter feature with
         | Some diameter => diameter <! fromZ 3
         | None => false
         end (dec 15 1) "Small diameter (< 3mm)" st in
  let st :=
    bump (str_in "HRC" material_hardness
          || str_in "hard" (lower material_hardness))
         (fromZ 2) "Hard material" st in
  let st :=
    bump match any_tolerance feature with
         | Some tolerance => String.eqb tolerance "Precision"
         | None => false
         end (fromZ 1) "Tight tolerance" st in
  let st :=
    bump match any_accessibility feature with
         | Some accessibility =>
             String.eqb accessibility "Bottom"
             || String.eqb accessibility "Multi-axis"
         | None => false
         end (dec 15 1) "Poor accessibility" st in
  let '(score, factors) := st in
  {| ms_score := py_min score (fromZ 10);
     ms_difficulty := _get_difficulty_label score;
     ms_factors := factors |}.
End Scoring.

Arguments AnyFeature : clear implicits.
Arguments Decision : clear implicits.
Arguments Machinability : clear implicits.

(** ** Inputs of the runs *)

(** What [recognize_all_patterns] reports on scenario D. *)
Definition scenario_D_linear : FeaturePattern PrimFloat.float :=
  {| pattern_type := LINEAR;
     feature_ids := [1; 2]%Z;
     pattern_count := 2;
     spacing := float_of_Z 20;
     angle := float_of_Z 0;
     center := None;
     direction := Some (DirVec (fpt (-1) 0 0));
     confidence := float_of_Z 1 |}.

Definition scenario_D_mirror : FeaturePattern PrimFloat.float :=
  {| pattern_type := MIRROR;
     feature_ids := [1; 2]%Z;
     pattern_count := 2;
     spacing := float_of_Z 0;
     angle := float_of_Z 0;
     center := None;
     direction := Some (DirPlane "YZ");
     confidence := fratio 85 100 |}.

(** Four holes on the corners of a square of side 10, and the grid pattern
    reported on them. *)
Definition square_grid : list (Feature PrimFloat.float) :=
  [hole_at 1 (fpt 0 0 0); hole_at 2 (fpt 10 0 0);
   hole_at 3 (fpt 0 10 0); hole_at 4 (fpt 10 10 0)].

Definition square_grid_pattern : FeaturePattern PrimFloat.float :=
  {| pattern_type := GRID;
     feature_ids := [1; 2; 3; 4]%Z;
     pattern_count := 4;
     spacing := float_of_Z 10;
     angle := float_of_Z 0;
     center := None;
     direction := None;
     confidence := fratio 8 10 |}.

(** A vertical cylindrical face of radius [r]. *)
Definition vertical_cylinder (r : R) : Face R :=
  {| face_surface := Cylinder r;
     face_axis := (0, 0, 1)%R;
     face_location_z := 0%R;
     face_area := 0%R;
     face_bbox := (0, 0, 0, 0, 0, 0)%R |}.

(** A horizontal planar face at height [z] with the given area, over the
    square [0,10] x [0,10]. *)
Definition horizontal_plane (z area : R) : Face R :=
  {| face_surface := Plane (0, 0, 1)%R;
     face_axis := (0, 0, 1)%R;
     face_location_z := z;
     face_area := area;
     face_bbox := (0, 0, z, 10, 10, z)%R |}.

(** The same over binary64. *)
Definition horizontal_plane_f (z area : Z) : Face PrimFloat.float :=
  {| face_surface := Plane (fpt 0 0 1);
     face_axis := fpt 0 0 1;
     face_location_z := float_of_Z z;
     face_area := float_of_Z area;
     face_bbox := (float_of_Z 0, float_of_Z 0, float_of_Z z,
                   float_of_Z 10, float_of_Z 10, float_of_Z z) |}.

(** A pocket of the given width and depth. *)
Definition pocket_of (g : nat) (width depth : R) : Pocket R :=
  {| pocket_geometry := g; pocket_width := width; pocket_depth := depth |}.

(** A deep, narrow hole of precision tolerance reached from the bottom. *)
Definition deep_precision_hole : AnyFeature PrimFloat.float :=
  {| any_depth := Some (float_of_Z 10);
     any_diameter := Some (float_of_Z 2);
     any_width := Some (float_of_Z 2);
     any_area := Some (float_of_Z 2000);
     any_tolerance := Some "Precision";
     any_accessibility := Some "Bottom" |}.

(** * Properties *)

(** ** Facts that hold for every arithmetic *)

Section Generic.
Context {F : Type} {N : Num F}.
Local Open Scope num_scope.

(** C4 (amended): [measure_draft_angles] returns one entry per conical
    face, in face order, and the entry is the cone's semi-angle converted
    to degrees (not twice it). *)
Theorem C4_draft_angles_are_semi_angles (shape : Shape F) :
  measure_draft_angles shape = map degrees (cone_semi_angles shape)
  /\ List.length (measure_draft_angles shape)
     = List.length (cone_semi_angles shape).
Proof.
  assert (E : measure_draft_angles shape
              = map degrees (cone_semi_angles shape)).
  { induction shape as [|s rest IH]; [reflexivity|].
    destruct s; simpl; rewrite IH; reflexivity. }
  split; [exact E|].
  rewrite E. apply length_map.
Qed.

Lemma countersinks_geometry (shape : Shape F) (c : Z) :
  map (@adv_geometry F) (fst (recognize_countersinks shape c))
  = map (fun s => [("cone", s)])
        (filter (fun s => match s with
                          | Cone a _ => countersink_angle_ok a
                          | _ => false
                          end) shape).
Proof.
  revert c. induction shape as [|s rest IH]; intro c; [reflexivity|].
  destruct s; simpl; try apply IH.
  unfold countersink_angle_ok.
  destruct ((fromZ 75 <! full_angle semi_angle)
            && (full_angle semi_angle <! fromZ 125)).
  - specialize (IH (c + 1)%Z).
    destruct (recognize_countersinks rest (c + 1)) as [cs c'].
    simpl in *. rewrite IH. reflexivity.
  - apply IH.
Qed.

(** C7 (amended): [recognize_countersinks] emits a countersink feature for
    a conical face if and only if the cone's full angle is strictly
    between 75 and 125 degrees. *)
Theorem C7_countersink_iff_strictly_inside (shape : Shape F) (counter : Z)
    (semi_angle ref_radius : F) :
  In (Cone semi_angle ref_radius) shape ->
  ((exists f, In f (fst (recognize_countersinks shape counter))
              /\ adv_geometry f = [("cone", Cone semi_angle ref_radius)])
   <-> ((fromZ 75 <! full_angle semi_angle) = true
        /\ (full_angle semi_angle <! fromZ 125) = true)).
Proof.
  intro Hin.
  pose proof (countersinks_geometry shape counter) as G.
  split.
  - intros [f [Hf Hg]].
    apply (in_map (@adv_geometry F)) in Hf. rewrite G, Hg in Hf.
    apply in_map_iff in Hf. destruct Hf as [s [Hs Hs']].
    injection Hs as ->. apply filter_In in Hs'. destruct Hs' as [_ Hok].
    apply andb_true_iff in Hok. exact Hok.
  - intros [H1 H2].
    assert (Hg : In [("cone", Cone semi_angle ref_radius)]
                    (map (@adv_geometry F)
                         (fst (recognize_countersinks shape counter)))).
    { rewrite G. apply in_map_iff. eexists. split; [reflexivity|].
      apply filter_In. split; [exact Hin|].
      unfold countersink_angle_ok. rewrite H1, H2. reflexivity. }
    apply in_map_iff in Hg. destruct Hg as [f [Hf1 Hf2]].
    exists f. split; assumption.
Qed.

(** With a distance that is not below the threshold, no pair is related. *)
Lemma relate_nil (i j : nat) (feat1 feat2 : Feature F) :
  (fromZ 10 <! fromZ 5) = false -> relate i feat1 j feat2 = [].
Proof.
  intro H. unfold relate, _calculate_distance, proximity_threshold,
    _check_containment, _check_overlap.
  destruct (j <=? i); [reflexivity|]. rewrite H. reflexivity.
Qed.

Lemma flat_map_nil {A B} (f : A -> list B) (l : list A) :
  (forall x, In x l -> f x = []) -> flat_map f l = [].
Proof.
  induction l as [|x l IH]; intro H; [reflexivity|].
  simpl. rewrite (H x (or_introl eq_refl)), IH; [reflexivity|].
  intros y Hy. apply H. right. exact Hy.
Qed.

Lemma analyze_adjacency_nil (features : list (Feature F)) :
  (fromZ 10 <! fromZ 5) = false -> analyze_adjacency features = [].
Proof.
  intro H. unfold analyze_adjacency.
  apply flat_map_nil. intros [i feat1] _.
  apply flat_map_nil. intros [j feat2] _.
  apply relate_nil. exact H.
Qed.

Lemma clusters_without_relationships (features : list (Feature F))
    (st : list (list Z) * list Z) :
  fst (fold_left (clusters_step []) features st) = fst st.
Proof.
  revert st. induction features as [|f fs IH]; intro st; [reflexivity|].
  simpl. rewrite IH. destruct st as [clusters visited].
  unfold clusters_step. destruct (memZ (feature_id f) visited); reflexivity.
Qed.

Lemma find_feature_clusters_nil (features : list (Feature F)) :
  (fromZ 10 <! fromZ 5) = false -> find_feature_clusters features = [].
Proof.
  intro H. unfold find_feature_clusters.
  rewrite (analyze_adjacency_nil features H).
  apply clusters_without_relationships.
Qed.

(** Line 406: a (nearly) collinear triple has no circle centre, and the
    triple loop goes on to the next triple. *)
Lemma collinear_has_no_center (p1 p2 p3 : Point F) :
  (fabs (circle_det p1 p2 p3) <! dec 1 3) = true ->
  _calculate_circle_center_3d p1 p2 p3 = None.
Proof.
  unfold circle_det, _calculate_circle_center_3d. cbv zeta.
  intros ->. reflexivity.
Qed.

Lemma collinear_triple_skipped (features : list (Feature F))
  (centers : list (Point F)) (i j k : nat) :
  (fabs (circle_det (center_at centers i) (center_at centers j)
                    (center_at centers k)) <! dec 1 3) = true ->
  circular_candidate features centers i j k = None.
Proof.
  intro H. unfold circular_candidate.
  rewrite (collinear_has_no_center _ _ _ H). reflexivity.
Qed.
End Generic.

(** ** Features without a centre *)

Section Centerless.
Context {F : Type} {N : Num F}.
Local Open Scope num_scope.

Lemma center_at_map (features : list (Feature F)) (i : nat) (f : Feature F) :
  nth_error features i = Some f ->
  center_at (map _get_feature_center features) i = _get_feature_center f.
Proof.
  intro H. unfold center_at. apply nth_error_nth.
  rewrite nth_error_map, H. reflexivity.
Qed.

Lemma centerless_center (f : Feature F) :
  centerless f -> _get_feature_center f = (fromZ 0, fromZ 0, fromZ 0).
Proof.
  unfold centerless, _get_feature_center. intros ->. reflexivity.
Qed.

(** Line 135: a pair closer than 0.1 is skipped. *)
Lemma linear_candidate_too_close (features : list (Feature F))
    (centers : list (Point F)) (used : list nat) (i j : nat) :
  (pair_spacing (center_at centers i) (center_at centers j) <! dec 1 1)
  = true ->
  linear_candidate features centers used i j = None.
Proof.
  unfold pair_spacing, linear_candidate. cbv zeta.
  intros ->. reflexivity.
Qed.

Lemma first_some_none {A B} (f : A -> option B) (l : list A) :
  (forall x, In x l -> f x = None) -> first_some f l = None.
Proof.
  induction l as [|x l IH]; intro H; [reflexivity|].
  simpl. rewrite (H x (or_introl eq_refl)). apply IH.
  intros y Hy. apply H. right. exact Hy.
Qed.

Lemma in_range (a b x : nat) : In x (range a b) <-> a <= x < b.
Proof. unfold range. rewrite in_seq. lia. Qed.

Hypothesis origin_too_close :
  (pair_spacing (fromZ 0, fromZ 0, fromZ 0) (fromZ 0, fromZ 0, fromZ 0)
   <! dec 1 1) = true.

Lemma centerless_pair_skipped (features : list (Feature F))
    (used : list nat) (i j : nat) (fi fj : Feature F) :
  nth_error features i = Some fi -> nth_error features j = Some fj ->
  centerless fi -> centerless fj ->
  linear_candidate features (map _get_feature_center features) used i j
  = None.
Proof.
  intros Hi Hj Ci Cj. apply linear_candidate_too_close.
  rewrite (center_at_map _ _ _ Hi), (center_at_map _ _ _ Hj).
  rewrite (centerless_center _ Ci), (centerless_center _ Cj).
  exact origin_too_close.
Qed.

Lemma centerless_group_no_linear (features : list (Feature F)) :
  (forall f, In f features -> centerless f) ->
  detect_linear_patterns features = [].
Proof.
  intro Hall. unfold detect_linear_patterns.
  destruct (List.length features <? MIN_PATTERN_COUNT); [reflexivity|].
  cbv zeta.
  assert (Hstep : forall l st,
             (forall i, In i l -> i < List.length features) ->
             fold_left
               (linear_step features (map _get_feature_center features))
               l st = st).
  { induction l as [|i l IH]; intros st Hl; [reflexivity|].
    simpl.
    assert (E : linear_step features (map _get_feature_center features)
                  st i = st).
    { destruct st as [patterns used]. unfold linear_step.
      destruct (mem i used); [reflexivity|].
      unfold linear_scan. rewrite first_some_none; [reflexivity|].
      intros j Hj. destruct (mem j used); [reflexivity|].
      apply in_range in Hj.
      destruct (nth_error features i) as [fi|] eqn:Ei.
      2:{ apply nth_error_None in Ei.
          specialize (Hl i (or_introl eq_refl)). lia. }
      destruct (nth_error features j) as [fj|] eqn:Ej.
      2:{ apply nth_error_None in Ej. lia. }
      apply (centerless_pair_skipped _ _ _ _ fi fj Ei Ej);
        apply Hall; eapply nth_error_In; eassumption. }
    rewrite E. apply IH. intros k Hk. apply Hl. right. exact Hk. }
  rewrite Hstep; [reflexivity|].
  intros i Hi. apply in_range in Hi. lia.
Qed.
End Centerless.

(** ** Membership of features in patterns *)

Section Disjoint.
Context {F : Type} {N : Num F}.
Local Open Scope num_scope.

Lemma mem_In (x : nat) (l : list nat) : mem x l = true <-> In x l.
Proof.
  unfold mem. rewrite existsb_exists. split.
  - intros [y [Hy E]]. apply Nat.eqb_eq in E. subst. exact Hy.
  - intro H. exists x. split; [exact H | apply Nat.eqb_refl].
Qed.

Lemma mem_not_In (x : nat) (l : list nat) : mem x l = false <-> ~ In x l.
Proof.
  rewrite <- mem_In. destruct (mem x l); split; intro H;
    try reflexivity; try discriminate; try (intro; discriminate).
  exfalso. apply H. reflexivity.
Qed.

Lemma insert_by_perm {A} (key : A -> F) (x : A) (l : list A) :
  Permutation (insert_by key x l) (x :: l).
Proof.
  induction l as [|y l IH]; simpl; [reflexivity|].
  destruct (key x <! key y)%num; [reflexivity|].
  rewrite IH. apply perm_swap.
Qed.

Lemma sort_by_perm {A} (key : A -> F) (l : list A) :
  Permutation (sort_by key l) l.
Proof.
  unfold sort_by.
  assert (G : forall acc,
             Permutation (fold_left (fun a x => insert_by key x a) l acc)
                         (acc ++ l)).
  { induction l as [|x l IH]; intro acc; simpl.
    - rewrite app_nil_r. reflexivity.
    - rewrite IH, insert_by_perm. apply Permutation_middle. }
  apply (G []).
Qed.

Lemma first_some_some {A B} (f : A -> option B) (l : list A) (r : B) :
  first_some f l = Some r -> exists x, In x l /\ f x = Some r.
Proof.
  induction l as [|x l IH]; simpl; [discriminate|].
  destruct (f x) as [r'|] eqn:E.
  - intro H. injection H as <-. exists x. split; [left; reflexivity | exact E].
  - intro H. destruct (IH H) as [y [Hy Hf]]. exists y. split; [right|]; assumption.
Qed.

Lemma linear_members_NoDup (features : list (Feature F))
    (centers : list (Point F)) (used : list nat) (i j : nat)
    (direction : Point F) (sp : F) :
  i <> j -> NoDup (linear_members features centers used i j direction sp).
Proof.
  intro Hij. unfold linear_members. apply NoDup_app.
  - constructor; [simpl; intros [H|[]]; congruence|].
    constructor; [intros []|constructor].
  - apply NoDup_filter. apply seq_NoDup.
  - intros x Hx Hf. apply filter_In in Hf. destruct Hf as [_ Hf].
    apply andb_true_iff in Hf. destruct Hf as [Hf _].
    apply negb_true_iff, orb_false_iff in Hf. destruct Hf as [Hf _].
    apply mem_not_In in Hf. contradiction.
Qed.

Lemma linear_members_In (features : list (Feature F))
    (centers : list (Point F)) (used : list nat) (i j : nat)
    (direction : Point F) (sp : F) (x : nat) :
  In x (linear_members features centers used i j direction sp) ->
  x = i \/ x = j \/ (x < List.length features /\ ~ In x used).
Proof.
  unfold linear_members. intro H. apply in_app_or in H. destruct H as [H|H].
  - simpl in H. destruct H as [H|[H|[]]]; auto.
  - right. right. apply filter_In in H. destruct H as [Hr Hf].
    apply in_seq in Hr.
    apply andb_true_iff in Hf. destruct Hf as [Hf _].
    apply negb_true_iff, orb_false_iff in Hf. destruct Hf as [_ Hf].
    apply mem_not_In in Hf. split; [lia | exact Hf].
Qed.

Lemma linear_verify_spec (features : list (Feature F))
    (centers : list (Point F)) (i : nat) (direction : Point F)
    (members pf : list nat) (p : FeaturePattern F) :
  linear_verify features centers i direction members = Some (p, pf) ->
  Permutation pf members
  /\ feature_ids p = map (id_at features) pf
  /\ pattern_type p = LINEAR.
Proof.
  unfold linear_verify.
  destruct (MIN_PATTERN_COUNT <=? List.length members); [|discriminate].
  cbv zeta.
  match goal with |- (if ?c then _ else _) = _ -> _ => destruct c end;
    [|discriminate].
  intro H. injection H as <- <-.
  split; [apply sort_by_perm|]. split; reflexivity.
Qed.

Lemma linear_scan_spec (features : list (Feature F))
    (centers : list (Point F)) (used : list nat) (i : nat)
    (p : FeaturePattern F) (pf : list nat) :
  linear_scan features centers used i = Some (p, pf) ->
  i < List.length features -> ~ In i used ->
  NoDup pf
  /\ (forall x, In x pf -> x < List.length features /\ ~ In x used)
  /\ feature_ids p = map (id_at features) pf
  /\ pattern_type p = LINEAR.
Proof.
  intros H Hi Hu. unfold linear_scan in H.
  apply first_some_some in H. destruct H as [j [Hj H]].
  apply in_seq in Hj.
  destruct (mem j used) eqn:Mj; [discriminate|].
  apply mem_not_In in Mj.
  unfold linear_candidate in H. cbv zeta in H.
  match type of H with (if ?c then _ else _) = _ => destruct c end;
    [discriminate|].
  apply linear_verify_spec in H. destruct H as [Hp [Hids Ht]].
  split.
  - apply (Permutation_NoDup (Permutation_sym Hp)).
    apply linear_members_NoDup. lia.
  - split; [|split; assumption].
    intros x Hx. apply (Permutation_in _ Hp) in Hx.
    apply linear_members_In in Hx.
    destruct Hx as [-> | [-> | Hx]]; [split; assumption | split; [lia|assumption] | exact Hx].
Qed.

Lemma linear_step_inv (features : list (Feature F))
    (centers : list (Point F)) (st : list (FeaturePattern F) * list nat)
    (i : nat) :
  i < List.length features ->
  linear_inv features st ->
  linear_inv features (linear_step features centers st i).
Proof.
  intros Hi Hinv. destruct st as [patterns used]. unfold linear_step.
  destruct (mem i used) eqn:Mi; [exact Hinv|].
  apply mem_not_In in Mi.
  destruct (linear_scan features centers used i) as [[p pf]|] eqn:S;
    [|exact Hinv].
  destruct (linear_scan_spec _ _ _ _ _ _ S Hi Mi) as [Hnd [Hin [Hids Ht]]].
  destruct Hinv as [I1 [I2 [I3 I4]]]. simpl in *.
  unfold linear_inv. simpl. repeat split.
  - apply NoDup_app; [exact I1 | exact Hnd |].
    intros x Hx Hx'. apply Hin in Hx'. tauto.
  - intros x Hx. apply in_app_or in Hx. destruct Hx as [Hx|Hx];
      [apply I2 | apply Hin]; exact Hx.
  - rewrite !map_app, concat_app, I3. simpl. rewrite app_nil_r, Hids.
    reflexivity.
  - apply Forall_app. split; [exact I4|]. constructor; [exact Ht|constructor].
Qed.

Lemma detect_linear_patterns_inv (features : list (Feature F)) :
  exists used,
    linear_inv features (detect_linear_patterns features, used).
Proof.
  unfold detect_linear_patterns.
  destruct (List.length features <? MIN_PATTERN_COUNT).
  - exists []. repeat split; simpl; try constructor. intros x [].
  - cbv zeta.
    assert (G : forall l st,
               (forall i, In i l -> i < List.length features) ->
               linear_inv features st ->
               linear_inv features
                 (fold_left
                    (linear_step features (map _get_feature_center features))
                    l st)).
    { induction l as [|i l IH]; intros st Hl Hst; [exact Hst|].
      simpl. apply IH.
      - intros k Hk. apply Hl. right. exact Hk.
      - apply linear_step_inv; [apply Hl; left; reflexivity | exact Hst]. }
    specialize (G (range 0 (List.length features)) ([], [])).
    destruct (fold_left _ _ _) as [patterns used].
    exists used. apply G.
    + intros i Hi. apply in_seq in Hi. lia.
    + repeat split; simpl; try constructor. intros x [].
Qed.

(** [pf] after the loop over [m] of lines 218-224. *)
Lemma circular_members_ok (n : nat) (test : nat -> bool) (l pf : list nat) :
  NoDup pf -> (forall x, In x pf -> x < n) -> (forall x, In x l -> x < n) ->
  let pf' := fold_left (fun pf m => if mem m pf then pf
                                    else if test m then pf ++ [m] else pf)
                       l pf in
  NoDup pf' /\ (forall x, In x pf' -> x < n).
Proof.
  revert pf. induction l as [|m l IH]; intros pf Hnd Hb Hl; simpl.
  - split; assumption.
  - assert (Hl' : forall x, In x l -> x < n)
      by (intros x Hx; apply Hl; right; exact Hx).
    destruct (mem m pf) eqn:M; [apply IH; assumption|].
    destruct (test m); [|apply IH; assumption].
    apply mem_not_In in M. apply IH; [| |exact Hl'].
    + apply NoDup_app; [exact Hnd | constructor; [intros []|constructor] |].
      intros x Hx [<-|[]]. contradiction.
    + intros x Hx. apply in_app_or in Hx. destruct Hx as [Hx|[<-|[]]];
        [apply Hb; exact Hx | apply Hl; left; reflexivity].
Qed.

Lemma ids_at_distinct_indices_nil (t : PatternType)
    (features : list (Feature F)) :
  ids_at_distinct_indices t features [].
Proof. exists []. repeat split; simpl; try constructor. intros x []. Qed.

Lemma detect_linear_patterns_ids (features : list (Feature F)) :
  ids_at_distinct_indices LINEAR features (detect_linear_patterns features).
Proof.
  destruct (detect_linear_patterns_inv features) as [used H].
  exists used. exact H.
Qed.

Lemma detect_circular_patterns_ids (features : list (Feature F)) :
  ids_at_distinct_indices CIRCULAR features
    (detect_circular_patterns features).
Proof.
  unfold detect_circular_patterns.
  destruct (List.length features <? 3);
    [apply ids_at_distinct_indices_nil|].
  cbv zeta.
  destruct (first_some _ _) as [p|] eqn:E;
    [|apply ids_at_distinct_indices_nil].
  apply first_some_some in E. destruct E as [i [Hi E]].
  apply first_some_some in E. destruct E as [j [Hj E]].
  apply first_some_some in E. destruct E as [k [Hk E]].
  apply in_seq in Hi, Hj, Hk.
  unfold circular_candidate in E.
  destruct (_calculate_circle_center_3d _ _ _) as [cc|]; [|discriminate].
  cbv zeta in E.
  match type of E with
  | context [fold_left ?f ?l ?a] =>
      pose proof (circular_members_ok (List.length features)
                    (fun m => fabs (dist3 (center_at
                       (map _get_feature_center features) m) cc
                       -! dist3 (center_at
                       (map _get_feature_center features) i) cc)
                       <! POSITION_TOLERANCE)%num l a) as M;
      cbv zeta in M; set (pf := fold_left f l a) in *
  end.
  destruct (3 <=? List.length pf); [|discriminate].
  injection E as <-.
  destruct M as [M1 M2].
  - constructor; [simpl; intros [H|[H|[]]]; lia|].
    constructor; [simpl; intros [H|[]]; lia|].
    constructor; [intros []|constructor].
  - simpl. intros x [<-|[<-|[<-|[]]]]; lia.
  - intros x Hx. apply in_seq in Hx. lia.
  - exists pf. repeat split; try assumption.
    + simpl. rewrite app_nil_r. reflexivity.
    + constructor; [reflexivity|constructor].
Qed.

Lemma detect_grid_patterns_ids (features : list (Feature F)) :
  ids_at_distinct_indices GRID features (detect_grid_patterns features).
Proof.
  unfold detect_grid_patterns.
  destruct (List.length features <? 4);
    [apply ids_at_distinct_indices_nil|].
  cbv zeta.
  repeat match goal with
         | |- ids_at_distinct_indices _ _ (match ?x with _ => _ end) =>
             destruct x; try apply ids_at_distinct_indices_nil
         | |- ids_at_distinct_indices _ _ (if ?x then _ else _) =>
             destruct x; try apply ids_at_distinct_indices_nil
         end.
  all: exists (range 0 (List.length features)); repeat split.
  all: try (apply seq_NoDup).
  all: try (intros x Hx; apply in_seq in Hx; lia).
  all: try (simpl; rewrite app_nil_r; reflexivity).
  all: constructor; [reflexivity|constructor].
Qed.

Lemma detect_mirror_patterns_type (features : list (Feature F)) :
  Forall (fun p => pattern_type p = MIRROR) (detect_mirror_patterns features).
Proof.
  unfold detect_mirror_patterns.
  destruct (List.length features <? 2); [constructor|].
  cbv zeta. apply Forall_flat_map. apply Forall_forall.
  intros [plane_name flip_axis] _.
  destruct (1 <=? _); constructor; [reflexivity|constructor].
Qed.

Lemma patterns_of_type_same (t : PatternType)
    (patterns : list (FeaturePattern F)) :
  Forall (fun p => pattern_type p = t) patterns ->
  patterns_of_type t patterns = patterns.
Proof.
  unfold patterns_of_type. induction 1 as [|p ps Hp _ IH]; [reflexivity|].
  simpl. rewrite Hp, IH. destruct t; reflexivity.
Qed.

Lemma patterns_of_type_other (t t' : PatternType)
    (patterns : list (FeaturePattern F)) :
  PatternType_eqb t' t = false ->
  Forall (fun p => pattern_type p = t') patterns ->
  patterns_of_type t patterns = [].
Proof.
  intro Ht. unfold patterns_of_type.
  induction 1 as [|p ps Hp _ IH]; [reflexivity|].
  simpl. rewrite Hp, Ht. exact IH.
Qed.

Lemma ids_at_distinct_indices_type (t : PatternType)
    (features : list (Feature F)) (patterns : list (FeaturePattern F)) :
  ids_at_distinct_indices t features patterns ->
  Forall (fun p => pattern_type p = t) patterns.
Proof. intros [used [_ [_ [_ H]]]]. exact H. Qed.

Lemma group_patterns_of_type (t : PatternType)
    (feature_list : list (Feature F)) :
  single_detector t ->
  ids_at_distinct_indices t feature_list
    (patterns_of_type t (group_patterns feature_list)).
Proof.
  intro Ht. unfold group_patterns.
  destruct (List.length feature_list <? MIN_PATTERN_COUNT);
    [apply ids_at_distinct_indices_nil|].
  pose proof (detect_linear_patterns_ids feature_list) as L.
  pose proof (detect_circular_patterns_ids feature_list) as C.
  pose proof (detect_grid_patterns_ids feature_list) as G.
  pose proof (detect_mirror_patterns_type feature_list) as M.
  pose proof (ids_at_distinct_indices_type _ _ _ L) as TL.
  pose proof (ids_at_distinct_indices_type _ _ _ C) as TC.
  pose proof (ids_at_distinct_indices_type _ _ _ G) as TG.
  unfold patterns_of_type. rewrite !filter_app.
  fold (patterns_of_type t (detect_linear_patterns feature_list)).
  fold (patterns_of_type t (detect_circular_patterns feature_list)).
  fold (patterns_of_type t (detect_grid_patterns feature_list)).
  fold (patterns_of_type t (detect_mirror_patterns feature_list)).
  destruct Ht as [-> | [-> | ->]].
  - rewrite (patterns_of_type_same _ _ TL).
    rewrite (patterns_of_type_other LINEAR CIRCULAR _ eq_refl TC).
    rewrite (patterns_of_type_other LINEAR GRID _ eq_refl TG).
    rewrite (patterns_of_type_other LINEAR MIRROR _ eq_refl M).
    rewrite !app_nil_r. exact L.
  - rewrite (patterns_of_type_same _ _ TC).
    rewrite (patterns_of_type_other CIRCULAR LINEAR _ eq_refl TL).
    rewrite (patterns_of_type_other CIRCULAR GRID _ eq_refl TG).
    rewrite (patterns_of_type_other CIRCULAR MIRROR _ eq_refl M).
    rewrite !app_nil_r. exact C.
  - rewrite (patterns_of_type_same _ _ TG).
    rewrite (patterns_of_type_other GRID LINEAR _ eq_refl TL).
    rewrite (patterns_of_type_other GRID CIRCULAR _ eq_refl TC).
    rewrite (patterns_of_type_other GRID MIRROR _ eq_refl M).
    rewrite !app_nil_r. exact G.
Qed.

Lemma id_at_nth (features : list (Feature F)) (i : nat) :
  id_at features i = nth i (map (@feature_id F) features) 0%Z.
Proof.
  unfold id_at. revert i. induction features as [|f fs IH]; intros [|i];
    simpl; try reflexivity. apply IH.
Qed.

(** With distinct feature ids, ids at distinct indices are distinct ids of
    the group. *)
Lemma ids_at_distinct_indices_NoDup (t : PatternType)
    (features : list (Feature F)) (patterns : list (FeaturePattern F)) :
  NoDup (map (@feature_id F) features) ->
  ids_at_distinct_indices t features patterns ->
  NoDup (List.concat (map (@feature_ids F) patterns))
  /\ incl (List.concat (map (@feature_ids F) patterns))
          (map (@feature_id F) features).
Proof.
  intros Hnd [used [U1 [U2 [U3 _]]]]. rewrite U3. split.
  - clear U3. induction used as [|x used IH]; [constructor|].
    simpl. inversion U1 as [|? ? Hx Hu]; subst. constructor.
    + intro Hin. apply in_map_iff in Hin. destruct Hin as [y [Hy Hyin]].
      rewrite !id_at_nth in Hy.
      apply (proj1 (NoDup_nth _ 0%Z) Hnd) in Hy.
      * subst. contradiction.
      * rewrite length_map. apply U2. right. exact Hyin.
      * rewrite length_map. apply U2. left. reflexivity.
    + apply IH; [exact Hu|]. intros y Hy. apply U2. right. exact Hy.
  - intros z Hz. apply in_map_iff in Hz. destruct Hz as [x [<- Hx]].
    rewrite id_at_nth. apply nth_In. rewrite length_map. apply U2. exact Hx.
Qed.

Lemma group_append_perm (feature : Feature F)
    (groups : list (string * list (Feature F))) :
  Permutation (List.concat (map snd (group_append feature groups)))
              (feature :: List.concat (map snd groups)).
Proof.
  induction groups as [|[t fs] rest IH]; simpl; [reflexivity|].
  destruct (String.eqb (feature_type feature) t); simpl.
  - rewrite <- app_assoc. simpl. symmetry. apply Permutation_middle.
  - rewrite IH. symmetry. apply Permutation_middle.
Qed.

Lemma group_features_perm (features : list (Feature F)) :
  Permutation (List.concat (map snd (_group_features_by_type features)))
              features.
Proof.
  unfold _group_features_by_type.
  assert (G : forall groups,
             Permutation
               (List.concat
                  (map snd (fold_left (fun gs f => group_append f gs)
                                      features groups)))
               (List.concat (map snd groups) ++ features)).
  { induction features as [|f fs IH]; intro groups; simpl.
    - rewrite app_nil_r. reflexivity.
    - rewrite IH, group_append_perm. simpl. apply Permutation_middle. }
  apply (G []).
Qed.

Lemma NoDup_flat_map_sub {A B} (f g : A -> list B) (l : list A) :
  NoDup (flat_map g l) ->
  (forall x, In x l -> NoDup (f x) /\ incl (f x) (g x)) ->
  NoDup (flat_map f l).
Proof.
  induction l as [|x l IH]; intros Hg Hf; simpl; [constructor|].
  simpl in Hg.
  destruct (Hf x (or_introl eq_refl)) as [Hx1 Hx2].
  apply NoDup_app.
  - exact Hx1.
  - apply IH; [apply (NoDup_app_remove_l _ _ Hg)|].
    intros y Hy. apply Hf. right. exact Hy.
  - intros b Hb Hb'.
    apply in_flat_map in Hb'. destruct Hb' as [y [Hy Hby]].
    assert (Hbg : In b (flat_map g l)).
    { apply in_flat_map. exists y. split; [exact Hy|].
      apply (proj2 (Hf y (or_intror Hy))). exact Hby. }
    apply Hx2 in Hb.
    revert Hg Hb Hbg. generalize (g x) (flat_map g l). clear.
    intros l1 l2 Hnd H1 H2. induction l1 as [|a l1 IH]; [destruct H1|].
    simpl in Hnd. inversion Hnd as [|? ? Ha Hnd']; subst.
    destruct H1 as [->|H1].
    + apply Ha. apply in_or_app. right. exact H2.
    + apply IH; assumption.
Qed.

Lemma ids_of_flat_map {A} (h : A -> list (FeaturePattern F)) (l : list A) :
  List.concat (map (@feature_ids F) (flat_map h l))
  = flat_map (fun x => List.concat (map (@feature_ids F) (h x))) l.
Proof.
  induction l as [|x l IH]; [reflexivity|].
  simpl. rewrite map_app, concat_app, IH. reflexivity.
Qed.

Lemma patterns_of_type_flat_map {A} (t : PatternType)
    (h : A -> list (FeaturePattern F)) (l : list A) :
  patterns_of_type t (flat_map h l)
  = flat_map (fun x => patterns_of_type t (h x)) l.
Proof.
  unfold patterns_of_type. induction l as [|x l IH]; [reflexivity|].
  simpl. rewrite filter_app, IH. reflexivity.
Qed.

Lemma pattern_occurrences_le (id : Z) (patterns : list (FeaturePattern F)) :
  pattern_occurrences id patterns
  <= count_occ Z.eq_dec (List.concat (map (@feature_ids F) patterns)) id.
Proof.
  unfold pattern_occurrences.
  induction patterns as [|p ps IH]; [simpl; lia|].
  simpl. rewrite count_occ_app.
  destruct (memZ id (feature_ids p)) eqn:M; simpl; [|lia].
  assert (Hin : In id (feature_ids p)).
  { unfold memZ in M. apply existsb_exists in M.
    destruct M as [y [Hy E]]. apply Z.eqb_eq in E. subst. exact Hy. }
  apply (count_occ_In Z.eq_dec) in Hin. lia.
Qed.

(** C2 (amended): for every feature list with pairwise distinct ids and
    each of the pattern types linear, circular and grid, each feature id
    occurs in the [feature_ids] of at most one returned pattern of that
    type.  (Patterns of different types, and mirror patterns among
    themselves, may share ids.) *)
Theorem C2_one_pattern_per_type (features : list (Feature F))
    (t : PatternType) (id : Z) :
  NoDup (map (@feature_id F) features) ->
  single_detector t ->
  NoDup (List.concat
           (map (@feature_ids F)
                (patterns_of_type t (recognize_all_patterns features))))
  /\ pattern_occurrences id
       (patterns_of_type t (recognize_all_patterns features)) <= 1.
Proof.
  intros Hnd Ht.
  assert (G : NoDup (List.concat
                       (map (@feature_ids F)
                            (patterns_of_type t
                               (recognize_all_patterns features))))).
  { unfold recognize_all_patterns.
    rewrite patterns_of_type_flat_map, ids_of_flat_map.
    apply (NoDup_flat_map_sub _
             (fun group : string * list (Feature F) =>
                map (@feature_id F) (snd group))).
    - rewrite flat_map_concat_map, <- map_map, <- concat_map.
      apply (Permutation_NoDup
               (Permutation_map _
                  (Permutation_sym (group_features_perm features)))).
      exact Hnd.
    - intros [ty g] Hg. simpl.
      apply ids_at_distinct_indices_NoDup with (t := t).
      + assert (P : Permutation
                      (map (@feature_id F)
                           (List.concat
                              (map snd (_group_features_by_type features))))
                      (map (@feature_id F) features))
          by (apply Permutation_map, group_features_perm).
        apply (Permutation_NoDup (Permutation_sym P)) in Hnd.
        rewrite concat_map, map_map in Hnd.
        apply in_split in Hg. destruct Hg as [l1 [l2 E]].
        rewrite E, map_app, concat_app in Hnd. simpl in Hnd.
        apply NoDup_app_remove_l in Hnd.
        apply NoDup_app_remove_r in Hnd. exact Hnd.
      + apply group_patterns_of_type. exact Ht. }
  split; [exact G|].
  apply (Nat.le_trans _ _ _ (pattern_occurrences_le id _)).
  apply NoDup_count_occ. exact G.
Qed.
End Disjoint.

(** ** Comparisons on the reals *)

(** [a < b] on the reals, as a proposition. *)
Lemma Rltb_true (a b : R) : Rltb a b = true <-> (a < b)%R.
Proof.
  unfold Rltb. destruct (Rlt_dec a b); split; intro H;
    try reflexivity; try assumption; try discriminate; contradiction.
Qed.

Lemma Rltb_false (a b : R) : Rltb a b = false <-> (b <= a)%R.
Proof.
  unfold Rltb. destruct (Rlt_dec a b); split; intro H;
    try reflexivity; try discriminate; lra.
Qed.

Lemma Reqb_false (a b : R) : a <> b -> Reqb a b = false.
Proof.
  intro H. unfold Reqb. destruct (Req_dec_T a b); [contradiction|reflexivity].
Qed.

(** C8: for every feature list [analyze_adjacency] returns the empty list
    and [find_feature_clusters] returns no cluster, since the distance
    metric is the constant 10.0, never below the threshold 5.0, and the
    containment and overlap checks return False; in binary64 and over the
    reals. *)
Theorem C8_no_relationship_ever :
  (forall features : list (Feature PrimFloat.float),
      analyze_adjacency features = []
      /\ find_feature_clusters features = []
      /\ forall f1 f2 : Feature PrimFloat.float,
           ltb (_calculate_distance f1 f2) proximity_threshold = false
           /\ _check_containment f1 f2 = false
           /\ _check_overlap f1 f2 = false)
  /\ (forall features : list (Feature R),
         analyze_adjacency features = []
         /\ find_feature_clusters features = []).
Proof.
  assert (Hf : @ltb _ float_num (fromZ 10) (fromZ 5) = false)
    by (vm_compute; reflexivity).
  assert (Hr : @ltb _ real_num (fromZ 10) (fromZ 5) = false)
    by (apply Rltb_false; simpl; lra).
  split; intro features.
  - split; [apply analyze_adjacency_nil; exact Hf|].
    split; [apply find_feature_clusters_nil; exact Hf|].
    intros f1 f2. split; [exact Hf | split; reflexivity].
  - split; [apply analyze_adjacency_nil | apply find_feature_clusters_nil];
      exact Hr.
Qed.

(** C10: a feature whose geometry dict has no ['center'] key gets the centre
    (0,0,0); for two such features of a group the computed spacing is 0,
    below the 0.1 minimum, so the pair [(i, j)] is skipped and yields no
    linear pattern, and a group made of such features only yields no linear
    pattern at all (binary64). *)
Theorem C10_centerless_pair_is_skipped
    (features : list (Feature PrimFloat.float)) (used : list nat)
    (i j : nat) (fi fj : Feature PrimFloat.float) :
  nth_error features i = Some fi -> nth_error features j = Some fj ->
  centerless fi -> centerless fj ->
  _get_feature_center fi = fpt 0 0 0
  /\ _get_feature_center fj = fpt 0 0 0
  /\ pair_spacing (_get_feature_center fi) (_get_feature_center fj)
     = float_of_Z 0
  /\ ltb (pair_spacing (_get_feature_center fi) (_get_feature_center fj))
         (dec 1 1) = true
  /\ linear_candidate features (map _get_feature_center features) used i j
     = None
  /\ ((forall f, In f features -> centerless f) ->
      detect_linear_patterns features = []).
Proof.
  intros Hi Hj Ci Cj.
  assert (H0 : @ltb _ float_num
                 (pair_spacing (fromZ 0, fromZ 0, fromZ 0)
                               (fromZ 0, fromZ 0, fromZ 0)) (dec 1 1) = true)
    by (vm_compute; reflexivity).
  rewrite (centerless_center _ Ci), (centerless_center _ Cj).
  split; [reflexivity|]. split; [reflexivity|].
  split; [vm_compute; reflexivity|].
  split; [exact H0|].
  split.
  - exact (centerless_pair_skipped H0 features used i j fi fj Hi Hj Ci Cj).
  - apply centerless_group_no_linear. exact H0.
Qed.

(** A run of C10: two bosses without a centre. *)
Lemma C10_witness :
  linear_candidate [bare 7 "Circular Boss"; bare 8 "Circular Boss"]
    (map _get_feature_center
         [bare 7 "Circular Boss"; bare 8 "Circular Boss"]) [] 0 1
  = (None : option (FeaturePattern PrimFloat.float * list nat))
  /\ detect_linear_patterns
       [bare 7 "Circular Boss"; bare 8 "Circular Boss"]
     = ([] : list (FeaturePattern PrimFloat.float)).
Proof.
  destruct (C10_centerless_pair_is_skipped
              [bare 7 "Circular Boss"; bare 8 "Circular Boss"] [] 0 1
              (bare 7 "Circular Boss") (bare 8 "Circular Boss")
              eq_refl eq_refl eq_refl eq_refl)
    as [_ [_ [_ [_ [Hpair Hgroup]]]]].
  split; [exact Hpair|].
  apply Hgroup. intros f [<-|[<-|[]]]; reflexivity.
Defined.

(** ** Exact arithmetic: the code read over the reals *)

Section Exact.
Local Open Scope R_scope.

Lemma dec_real (m : Z) (k : nat) :
  @dec R real_num m k = IZR m / IZR (10 ^ Z.of_nat k).
Proof. reflexivity. Qed.

Lemma sum_sq_nonneg (a b c : R) : 0 <= a * a + b * b + c * c.
Proof.
  pose proof (Rle_0_sqr a). pose proof (Rle_0_sqr b).
  pose proof (Rle_0_sqr c). unfold Rsqr in *. lra.
Qed.

(** *** Fuzzy memberships *)

Lemma hole_membership_mono (a1 a2 : R) :
  a1 <= a2 -> hole_membership a1 <= hole_membership a2.
Proof.
  intro H. unfold hole_membership. simpl. unfold Rltb.
  repeat destruct Rlt_dec; lra.
Qed.

Lemma pocket_membership_anti (a1 a2 : R) :
  a1 <= a2 -> pocket_membership a2 <= pocket_membership a1.
Proof.
  intro H. unfold pocket_membership. rewrite !dec_real. simpl.
  unfold Rltb. repeat destruct Rlt_dec; lra.
Qed.

Lemma aspect_ratio_positive_diameter (p : list (string * PropVal R)) :
  0 < num_of (dict_get_default "diameter" (PInt 1) p) ->
  aspect_ratio p
  = Some (num_of (dict_get_default "depth" (PInt 0) p)
          / (num_of (dict_get_default "diameter" (PInt 1) p) + 1 / 1000)).
Proof.
  intro H. unfold aspect_ratio. cbv zeta.
  assert (E : @eqb R real_num
                (add (num_of (dict_get_default "diameter" (PInt 1) p))
                     (dec 1 3)) (fromZ 0) = false).
  { apply Reqb_false. rewrite dec_real. simpl. lra. }
  rewrite E. reflexivity.
Qed.

(** C6: for a fixed positive diameter the aspect ratio is defined (no
    division by zero), the hole membership [fuzzy_classify] computes is
    non-decreasing in the depth and the pocket membership is non-increasing
    in the depth (exact arithmetic). *)
Theorem C6_fuzzy_monotone (p1 p2 : list (string * PropVal R))
    (diameter depth1 depth2 : R) :
  num_of (dict_get_default "diameter" (PInt 1) p1) = diameter ->
  num_of (dict_get_default "diameter" (PInt 1) p2) = diameter ->
  num_of (dict_get_default "depth" (PInt 0) p1) = depth1 ->
  num_of (dict_get_default "depth" (PInt 0) p2) = depth2 ->
  0 < diameter -> depth1 <= depth2 ->
  exists a1 a2,
    aspect_ratio p1 = Some a1 /\ aspect_ratio p2 = Some a2
    /\ fuzzy_classify p1 <> None /\ fuzzy_classify p2 <> None
    /\ memberships a1 = [("hole", hole_membership a1);
                         ("pocket", pocket_membership a1)]
    /\ hole_membership a1 <= hole_membership a2
    /\ pocket_membership a2 <= pocket_membership a1.
Proof.
  intros D1 D2 E1 E2 Hpos Hle.
  assert (A1 := aspect_ratio_positive_diameter p1).
  assert (A2 := aspect_ratio_positive_diameter p2).
  rewrite D1, E1 in A1. rewrite D2, E2 in A2.
  specialize (A1 Hpos). specialize (A2 Hpos).
  exists (depth1 / (diameter + 1 / 1000)), (depth2 / (diameter + 1 / 1000)).
  assert (Hm : depth1 / (diameter + 1 / 1000)
               <= depth2 / (diameter + 1 / 1000)).
  { unfold Rdiv. apply Rmult_le_compat_r; [|exact Hle].
    left. apply Rinv_0_lt_compat. lra. }
  split; [exact A1|]. split; [exact A2|].
  split; [unfold fuzzy_classify; rewrite A1; discriminate|].
  split; [unfold fuzzy_classify; rewrite A2; discriminate|].
  split; [reflexivity|].
  split; [apply hole_membership_mono | apply pocket_membership_anti];
    exact Hm.
Qed.

(** A run of C6: diameter 10, depths 15 and 25. *)
Lemma C6_witness :
  exists a1 a2,
    aspect_ratio [("depth", PFloat 15); ("diameter", PFloat 10)] = Some a1
    /\ aspect_ratio [("depth", PFloat 25); ("diameter", PFloat 10)] = Some a2
    /\ hole_membership a1 <= hole_membership a2
    /\ pocket_membership a2 <= pocket_membership a1.
Proof.
  destruct (C6_fuzzy_monotone
              [("depth", PFloat 15); ("diameter", PFloat 10)]
              [("depth", PFloat 25); ("diameter", PFloat 10)]
              10 15 25 eq_refl eq_refl eq_refl eq_refl
              ltac:(lra) ltac:(lra))
    as [a1 [a2 [H1 [H2 [_ [_ [_ [H3 H4]]]]]]]].
  exists a1, a2. repeat split; assumption.
Defined.

(** *** Two features *)

Lemma pair_spacing_euclid (a b : Point R) : pair_spacing a b = euclid a b.
Proof. destruct a as [[x1 y1] z1], b as [[x2 y2] z2]. reflexivity. Qed.

Lemma dist3_euclid (a b : Point R) : dist3 b a = euclid a b.
Proof.
  destruct a as [[x1 y1] z1], b as [[x2 y2] z2].
  unfold dist3, euclid, py_sum, sq. simpl. f_equal. ring.
Qed.

Lemma euclid_sqr (a b : Point R) :
  euclid a b * euclid a b
  = (coord b 0 - coord a 0) * (coord b 0 - coord a 0)
    + (coord b 1 - coord a 1) * (coord b 1 - coord a 1)
    + (coord b 2 - coord a 2) * (coord b 2 - coord a 2).
Proof.
  destruct a as [[x1 y1] z1], b as [[x2 y2] z2]. unfold euclid. simpl.
  apply sqrt_sqrt. apply sum_sq_nonneg.
Qed.

Lemma sort_by_two {A} (key : A -> R) (a b : A) :
  sort_by key [a; b] = if (key b <! key a)%num then [b; a] else [a; b].
Proof. reflexivity. Qed.

Lemma linear_verify_two (f1 f2 : Feature R) (c1 c2 : Point R) :
  0 < euclid c1 c2 ->
  linear_verify [f1; f2] [c1; c2] 0 (unit_direction c1 c2) [0%nat; 1%nat]
  = Some ({| pattern_type := LINEAR;
             feature_ids := [feature_id f1; feature_id f2];
             pattern_count := 2;
             spacing := euclid c1 c2;
             angle := 0;
             center := None;
             direction := Some (DirVec (unit_direction c1 c2));
             confidence := 1 |}, [0%nat; 1%nat]).
Proof.
  intro Hd. unfold unit_direction.
  pose proof (euclid_sqr c1 c2) as Hs.
  unfold linear_verify.
  change (MIN_PATTERN_COUNT <=? List.length [0%nat; 1%nat])%nat with true.
  cbv iota.
  rewrite sort_by_two.
  change (center_at [c1; c2] 0) with c1.
  change (center_at [c1; c2] 1) with c2.
  set (s := euclid c1 c2) in *.
  set (dx := coord c2 0 - coord c1 0) in *.
  set (dy := coord c2 1 - coord c1 1) in *.
  set (dz := coord c2 2 - coord c1 2) in *.
  assert (K : (_distance_along_line c1 (dx / s, dy / s, dz / s) c2
               <! _distance_along_line c1 (dx / s, dy / s, dz / s) c1)%num
              = false).
  { apply (proj2 (Rltb_false _ _)). unfold _distance_along_line. simpl.
    fold dx dy dz.
    replace ((coord c1 0 - coord c1 0) * (dx / s)
             + (coord c1 1 - coord c1 1) * (dy / s)
             + (coord c1 2 - coord c1 2) * (dz / s)) with 0 by ring.
    replace (dx * (dx / s) + dy * (dy / s) + dz * (dz / s))
      with ((dx * dx + dy * dy + dz * dz) / s) by (field; lra).
    apply Rmult_le_pos;
      [apply sum_sq_nonneg | left; apply Rinv_0_lt_compat; exact Hd]. }
  rewrite K. cbv zeta.
  change (consecutive_spacings [c1; c2] [0%nat; 1%nat]) with [dist3 c2 c1].
  rewrite dist3_euclid. fold s.
  assert (Eavg : (py_sum [s] /! fromZ (Z.of_nat (List.length [s])))%num = s).
  { unfold py_sum. simpl. field. }
  rewrite Eavg.
  change (py_max (map (fun s0 : R => fabs (s0 -! s)%num) [s]))
    with (Rabs (s - s)).
  replace (s - s) with 0 by ring. rewrite Rabs_R0.
  assert (T : (0 <! POSITION_TOLERANCE)%num = true).
  { apply (proj2 (Rltb_true _ _)). unfold POSITION_TOLERANCE.
    rewrite dec_real. simpl. lra. }
  rewrite T.
  replace (fromZ 1 -! 0 /! s)%num with 1 by (simpl; unfold Rdiv; ring).
  reflexivity.
Qed.


(** *** Six features on a circle *)

Lemma on_circle (cx cy cz theta : R) (k : nat) :
  (coord (hexagon_point cx cy cz theta k) 0 - cx)
  * (coord (hexagon_point cx cy cz theta k) 0 - cx)
  + (coord (hexagon_point cx cy cz theta k) 1 - cy)
    * (coord (hexagon_point cx cy cz theta k) 1 - cy) = 400.
Proof.
  simpl. pose proof (sin2_cos2 (theta + INR k * (PI / 3))) as H.
  unfold Rsqr in H.
  set (c := cos _) in *. set (s := sin _) in *.
  replace ((cx + 20 * c - cx) * (cx + 20 * c - cx) + (cy + 20 * s - cy) * (cy + 20 * s - cy)) with (400 * (s * s + c * c)) by ring.
  rewrite H. ring.
Qed.

Lemma dist3_on_circle (cx cy cz : R) (p : Point R) :
  (coord p 0 - cx) * (coord p 0 - cx) + (coord p 1 - cy) * (coord p 1 - cy) = 400 ->
  coord p 2 = cz ->
  dist3 p (cx, cy, cz) = 20.
Proof.
  destruct p as [[x y] z]. simpl. intros H ->.
  unfold dist3, py_sum, sq. simpl.
  replace (0 + (x - cx) * (x - cx) + (y - cy) * (y - cy) + (cz - cz) * (cz - cz))
    with (20 * 20) by lra.
  apply sqrt_square. lra.
Qed.

Lemma circle_center_of_three (cx cy r2 : R) (p1 p2 p3 : Point R) :
  (coord p1 0 - cx) * (coord p1 0 - cx) + (coord p1 1 - cy) * (coord p1 1 - cy) = r2 ->
  (coord p2 0 - cx) * (coord p2 0 - cx) + (coord p2 1 - cy) * (coord p2 1 - cy) = r2 ->
  (coord p3 0 - cx) * (coord p3 0 - cx) + (coord p3 1 - cy) * (coord p3 1 - cy) = r2 ->
  1 / 1000 <= Rabs (2 * (coord p1 0 * (coord p2 1 - coord p3 1)
                         + coord p2 0 * (coord p3 1 - coord p1 1)
                         + coord p3 0 * (coord p1 1 - coord p2 1))) ->
  _calculate_circle_center_3d p1 p2 p3
  = Some (cx, cy, (coord p1 2 + coord p2 2 + coord p3 2) / 3).
Proof.
  destruct p1 as [[x1 y1] z1], p2 as [[x2 y2] z2], p3 as [[x3 y3] z3].
  simpl. intros H1 H2 H3 Hd.
  unfold _calculate_circle_center_3d. simpl coord. cbv zeta.
  set (d := (fromZ 2 *! (x1 *! (y2 -! y3) +! x2 *! (y3 -! y1) +! x3 *! (y1 -! y2)))%num) in *.
  assert (Ed : d = 2 * (x1 * (y2 - y3) + x2 * (y3 - y1) + x3 * (y1 - y2))) by reflexivity.
  rewrite <- Ed in Hd.
  assert (C : (fabs d <! dec 1 3)%num = false).
  { apply (proj2 (Rltb_false _ _)). rewrite dec_real. simpl. lra. }
  rewrite C.
  assert (Hnz : d <> 0).
  { intro Z. rewrite Z, Rabs_R0 in Hd. lra. }
  assert (E1 : x1 * x1 + y1 * y1 = r2 - cx * cx - cy * cy + 2 * cx * x1 + 2 * cy * y1) by lra.
  assert (E2 : x2 * x2 + y2 * y2 = r2 - cx * cx - cy * cy + 2 * cx * x2 + 2 * cy * y2) by lra.
  assert (E3 : x3 * x3 + y3 * y3 = r2 - cx * cx - cy * cy + 2 * cx * x3 + 2 * cy * y3) by lra.
  unfold sq. simpl add. simpl mul. simpl sub. simpl div. simpl fromZ.
  rewrite E1, E2, E3.
  apply f_equal. apply f_equal2; [apply f_equal2|];
    [rewrite Ed; rewrite Ed in Hnz; field; intro Z; apply Hnz; lra ..
    |reflexivity].
Qed.

Lemma INR_lit (k : nat) : INR k = IZR (Z.of_nat k).
Proof. apply INR_IZR_INZ. Qed.

Lemma hexagon_det (cx cy cz theta : R) :
  let p := hexagon_point cx cy cz theta in
  2 * (coord (p 0%nat) 0 * (coord (p 1%nat) 1 - coord (p 2%nat) 1)
       + coord (p 1%nat) 0 * (coord (p 2%nat) 1 - coord (p 0%nat) 1)
       + coord (p 2%nat) 0 * (coord (p 0%nat) 1 - coord (p 1%nat) 1))
  = 400 * sqrt 3.
Proof.
  cbv zeta. unfold hexagon_point, coord.
  rewrite !INR_lit. simpl Z.of_nat.
  replace (theta + 0 * (PI / 3)) with theta by ring.
  replace (theta + 1 * (PI / 3)) with (theta + PI / 3) by ring.
  rewrite !cos_plus, !sin_plus.
  rewrite cos_PI3, sin_PI3, cos_2PI3, sin_2PI3.
  pose proof (sin2_cos2 theta) as H. unfold Rsqr in H.
  set (c := cos theta) in *. set (s := sin theta) in *.
  set (q := sqrt 3).
  replace (2 * _) with (400 * q * (s * s + c * c)) by field.
  rewrite H. ring.
Qed.

Lemma sqrt3_ge_1 : 1 <= sqrt 3.
Proof.
  rewrite <- sqrt_1 at 1. apply sqrt_le_1_alt. lra.
Qed.

Lemma detect_circular_hexagon (features : list (Feature R))
    (cx cy cz theta : R) :
  map _get_feature_center features
  = map (hexagon_point cx cy cz theta) (seq 0 6) ->
  detect_circular_patterns features = [hexagon_pattern features cx cy cz].
Proof.
  intro H.
  assert (L : List.length features = 6%nat).
  { rewrite <- (length_map _get_feature_center), H. reflexivity. }
  destruct features as [|f0 [|f1 [|f2 [|f3 [|f4 [|f5 [|]]]]]]];
    try discriminate L. clear L.
  unfold detect_circular_patterns.
  change (List.length [f0; f1; f2; f3; f4; f5] <? 3)%nat with false.
  cbv iota zeta. rewrite H.
  change (List.length [f0; f1; f2; f3; f4; f5]) with 6%nat.
  change (range 0 6) with [0;1;2;3;4;5]%nat.
  unfold first_some at 1.
  change (range (0 + 1) 6) with [1;2;3;4;5]%nat.
  unfold first_some at 1.
  change (range (1 + 1) 6) with [2;3;4;5]%nat.
  unfold first_some at 1.
  set (P := hexagon_point cx cy cz theta).
  assert (O : forall k, dist3 (P k) (cx, cy, cz) = 20).
  { intro k. apply dist3_on_circle; [apply on_circle | reflexivity]. }
  assert (CC : _calculate_circle_center_3d (P 0%nat) (P 1%nat) (P 2%nat)
               = Some (cx, cy, cz)).
  { rewrite (circle_center_of_three cx cy 400);
      try apply on_circle.
    - simpl. do 3 f_equal. field.
    - unfold P. rewrite (hexagon_det cx cy cz theta).
      pose proof sqrt3_ge_1. rewrite Rabs_right; lra. }
  assert (T : (fabs (20 -! 20) <! POSITION_TOLERANCE)%num = true).
  { apply (proj2 (Rltb_true _ _)). unfold POSITION_TOLERANCE.
    rewrite dec_real. simpl. replace (20 - 20) with 0 by ring.
    rewrite Rabs_R0. lra. }
  assert (C : circular_candidate [f0; f1; f2; f3; f4; f5]
                (map P (seq 0 6)) 0 1 2
              = Some (hexagon_pattern [f0; f1; f2; f3; f4; f5] cx cy cz)).
  { unfold circular_candidate.
    change (center_at (map P (seq 0 6)) 0) with (P 0%nat).
    change (center_at (map P (seq 0 6)) 1) with (P 1%nat).
    change (center_at (map P (seq 0 6)) 2) with (P 2%nat).
    rewrite CC. cbv zeta.
    change (List.length [f0; f1; f2; f3; f4; f5]) with 6%nat.
    change (range 0 6) with [0;1;2;3;4;5]%nat.
    unfold fold_left.
    change (mem 0 [0; 1; 2]%nat) with true.
    change (mem 1 [0; 1; 2]%nat) with true.
    change (mem 2 [0; 1; 2]%nat) with true.
    cbv iota.
    change (mem 3 [0; 1; 2]%nat) with false. cbv iota.
    change (center_at (map P (seq 0 6)) 3) with (P 3%nat).
    rewrite !O, T.
    change (mem 4 ([0; 1; 2] ++ [3])%nat) with false. cbv iota.
    change (center_at (map P (seq 0 6)) 4) with (P 4%nat).
    rewrite !O, T.
    change (mem 5 (([0; 1; 2] ++ [3]) ++ [4])%nat) with false. cbv iota.
    change (center_at (map P (seq 0 6)) 5) with (P 5%nat).
    rewrite !O, T.
    change ((([0; 1; 2] ++ [3]) ++ [4]) ++ [5])%nat with [0;1;2;3;4;5]%nat.
    change (3 <=? List.length [0; 1; 2; 3; 4; 5])%nat with true.
    change (0 <? List.length [0; 1; 2; 3; 4; 5])%nat with true.
    cbv iota. unfold hexagon_pattern.
    replace (fromZ 360 /! fromZ (Z.of_nat (List.length [0; 1; 2; 3; 4; 5]%nat)))%num
      with 60 by (simpl; lra).
    reflexivity. }
  rewrite C. reflexivity.
Qed.

(** C5 (amended): six same-type features whose centres lie on a circle of
    radius 20 at 60-degree increments in a plane of constant z (the plane
    the planar formula works in) yield exactly one circular pattern: the
    first triple (0,1,2) fits and ends the search, the pattern has all six
    ids, angle 360/6 = 60 and confidence 0.9 -- over the reals for every
    centre and start angle, and in binary64 for the circle around the
    origin; a triple whose determinant is below 0.001 in absolute value is
    skipped, in every arithmetic. *)
Theorem C5_scenario_B_circular :
  (forall (features : list (Feature R)) (cx cy cz theta : R),
      map _get_feature_center features
      = map (hexagon_point cx cy cz theta) (seq 0 6) ->
      detect_circular_patterns features
      = [hexagon_pattern features cx cy cz])
  /\ map (fun p => (pattern_type p, feature_ids p, pattern_count p,
                    angle p, confidence p))
         (detect_circular_patterns scenario_B)
     = [(CIRCULAR, [1; 2; 3; 4; 5; 6]%Z, 6%nat, float_of_Z 60, dec 9 1)]
  /\ (forall (F : Type) (N : Num F) (features : list (Feature F))
             (centers : list (Point F)) (i j k : nat),
         (fabs (circle_det (center_at centers i) (center_at centers j)
                           (center_at centers k)) <! dec 1 3)%num = true ->
         _calculate_circle_center_3d (center_at centers i)
           (center_at centers j) (center_at centers k) = None
         /\ circular_candidate features centers i j k = None).
Proof.
  split; [exact detect_circular_hexagon|].
  split; [vm_compute; reflexivity|].
  intros F N features centers i j k H. split.
  - apply collinear_has_no_center. exact H.
  - apply collinear_triple_skipped. exact H.
Qed.

(** A run of C5: the hexagon around the origin starting at angle 0, and the
    collinear triple (0,1,2) of scenario A. *)
Lemma C5_witness :
  detect_circular_patterns hexagon_holes
  = [hexagon_pattern hexagon_holes 0 0 0]
  /\ circular_candidate scenario_A (map _get_feature_center scenario_A)
       0 1 2 = None.
Proof.
  split.
  - exact (proj1 C5_scenario_B_circular hexagon_holes 0 0 0 0 eq_refl).
  - refine (proj2 (proj2 (proj2 C5_scenario_B_circular) _ _ scenario_A
                     (map _get_feature_center scenario_A) 0%nat 1%nat 2%nat
                     _)).
    vm_compute. reflexivity.
Defined.
End Exact.

(** ** Concrete runs in binary64 *)

(** C3: on four same-type features centred at (0,0,0), (10,0,0), (20,0,0),
    (30,0,0), [detect_linear_patterns] returns exactly one pattern; it is
    linear, has the four ids, spacing 10.0 and confidence 1.0 > 0.95. *)
Theorem C3_scenario_A_linear :
  detect_linear_patterns scenario_A
  = [{| pattern_type := LINEAR;
        feature_ids := [1; 2; 3; 4]%Z;
        pattern_count := 4;
        spacing := float_of_Z 10;
        angle := float_of_Z 0;
        center := None;
        direction := Some (DirVec (fpt 1 0 0));
        confidence := float_of_Z 1 |}]
  /\ ltb (dec 95 2) (float_of_Z 1) = true.
Proof. split; vm_compute; reflexivity. Qed.

(** C1: on four same-type holes at x = 0, 0.125, 0.25, 1 the recogniser
    returns a linear pattern whose confidence is negative (about -0.25): the
    three spacings 0.125, 0.125, 0.75 deviate from their mean 1/3 by at most
    5/12 < 0.5, and 1 - (5/12)/(1/3) < 0. *)
Theorem C1_linear_confidence_negative :
  exists p,
    nth_error (recognize_all_patterns uneven_row) 0 = Some p
    /\ pattern_type p = LINEAR
    /\ feature_ids p = [1; 2; 3; 4]%Z
    /\ ltb (confidence p) (float_of_Z 0) = true.
Proof.
  exists {| pattern_type := LINEAR;
            feature_ids := [1; 2; 3; 4]%Z;
            pattern_count := 4;
            spacing := fratio 6004799503160661 18014398509481984;
            angle := float_of_Z 0;
            center := None;
            direction := Some (DirVec (fpt 1 0 0));
            confidence := fratio (-4503599627370500) 18014398509481984 |}.
  split; [vm_compute; reflexivity|].
  split; [reflexivity|]. split; [reflexivity|].
  vm_compute; reflexivity.
Qed.

(** C2, as stated, fails: on the two holes at (10,5,0) and (-10,5,0) the
    recogniser returns a linear and a mirror pattern, and feature 1 is a
    member of both. *)
Lemma C2_counterexample :
  pattern_occurrences 1 (recognize_all_patterns scenario_D) = 2
  /\ map (@pattern_type _) (recognize_all_patterns scenario_D)
     = [LINEAR; MIRROR].
Proof. split; vm_compute; reflexivity. Qed.

(** C4, as stated, fails: for one cone of semi-angle 0.75 rad the entry is
    the semi-angle in degrees (about 42.97), not twice it. *)
Lemma C4_counterexample :
  measure_draft_angles [Cone (fratio 3 4) (float_of_Z 3)]
  <> map (fun a => mul (fromZ 2) (degrees a))
         (cone_semi_angles [Cone (fratio 3 4) (float_of_Z 3)]).
Proof.
  intro H.
  apply (f_equal (fun l => match l with
                           | [x] => PrimFloat.ltb x (float_of_Z 50)
                           | _ => false
                           end)) in H.
  vm_compute in H. discriminate H.
Qed.

(** C7, as stated, fails at the boundary: a cone whose full angle is the
    double 75.0 lies in [75,125] and no countersink is emitted for it. *)
Lemma C7_counterexample :
  full_angle semi_angle_75 = float_of_Z 75
  /\ recognize_countersinks [Cone semi_angle_75 (float_of_Z 3)] 0 = ([], 0%Z).
Proof. split; vm_compute; reflexivity. Qed.

(** C5, as stated, fails: the six centres of scenario B turned into the
    xz-plane lie on a circle of radius 20 at 60-degree increments, every
    determinant is 0 and no pattern is returned; around the centre
    (1e9, 0, 0) the first fit keeps only its own three features and the
    pattern has three ids and angle 120 (binary64). *)
Lemma C5_counterexample :
  detect_circular_patterns scenario_B_xz = []
  /\ map (fun p => (pattern_type p, feature_ids p, pattern_count p, angle p))
         (detect_circular_patterns far_hexagon)
     = [(CIRCULAR, [1; 2; 3]%Z, 3%nat, float_of_Z 120)].
Proof. split; vm_compute; reflexivity. Qed.


(** A run of C7: a cone of semi-angle 0.75 rad (full angle about 85.9
    degrees) is emitted. *)
Lemma C7_witness :
  exists f,
    In f (fst (recognize_countersinks [Cone (fratio 3 4) (float_of_Z 3)] 0))
    /\ adv_geometry f = [("cone", Cone (fratio 3 4) (float_of_Z 3))].
Proof.
  apply (proj2 (C7_countersink_iff_strictly_inside
                  [Cone (fratio 3 4) (float_of_Z 3)] 0
                  (fratio 3 4) (float_of_Z 3) (or_introl eq_refl))).
  split; vm_compute; reflexivity.
Defined.

(** Two features without a centre can still be members of one linear
    pattern, when another pair seeds it: at (-0.25,0,0), (0,0,0), (0,0,0)
    the spacings are 0.25 and 0, within 0.5 of their mean. *)
Lemma centerless_features_can_be_members :
  map (@feature_ids _)
      (detect_linear_patterns
         [hole_at 1 (fratio (-1) 4, float_of_Z 0, float_of_Z 0);
          bare 2 "Through Hole"; bare 3 "Through Hole"])
  = [[1; 2; 3]%Z].
Proof. vm_compute. reflexivity. Qed.

(** A run of C2 (amended): the two holes of scenario D and the linear
    patterns. *)
Lemma C2_witness :
  pattern_occurrences 1
    (patterns_of_type LINEAR (recognize_all_patterns scenario_D)) <= 1.
Proof.
  refine (proj2 (C2_one_pattern_per_type scenario_D LINEAR 1%Z _ _)).
  - simpl. constructor; [intros [H|[]]; discriminate H|].
    constructor; [intros []|constructor].
  - left. reflexivity.
Defined.

(** Mirror patterns are outside the amended C2: on [uneven_row] the three
    mirror planes each report the pair of features 1 and 2. *)
Lemma mirror_patterns_share_ids :
  pattern_occurrences 1
    (patterns_of_type MIRROR (recognize_all_patterns uneven_row)) = 3.
Proof. vm_compute. reflexivity. Qed.

(** * Further properties of the recognisers *)

(** ** Patterns: shape of the result *)

Section PatternFacts.
Context {F : Type} {N : Num F}.
Local Open Scope num_scope.

Lemma features_of_type_snoc (t : string) (prefix : list (Feature F))
  (f : Feature F) :
  features_of_type t (prefix ++ [f])
  = features_of_type t prefix
    ++ (if String.eqb (feature_type f) t then [f] else []).
Proof. unfold features_of_type. rewrite filter_app. reflexivity. Qed.

Lemma group_append_keys (feature : Feature F)
  (groups : list (string * list (Feature F))) :
  map fst (group_append feature groups)
  = if existsb (String.eqb (feature_type feature)) (map fst groups)
    then map fst groups
    else map fst groups ++ [feature_type feature].
Proof.
  induction groups as [|[t g] rest IH]; [reflexivity|].
  simpl. destruct (String.eqb (feature_type feature) t) eqn:E; simpl.
  - reflexivity.
  - rewrite IH. destruct (existsb _ (map fst rest)); reflexivity.
Qed.

Lemma group_append_In (feature : Feature F)
  (groups : list (string * list (Feature F))) (t : string)
  (g : list (Feature F)) :
  NoDup (map fst groups) ->
  In (t, g) (group_append feature groups) ->
  (t <> feature_type feature /\ In (t, g) groups)
  \/ (t = feature_type feature
      /\ ((exists g0, In (t, g0) groups /\ g = g0 ++ [feature])
          \/ (~ In t (map fst groups) /\ g = [feature]))).
Proof.
  induction groups as [|[t' g'] rest IH]; intros Hnd Hin.
  - simpl in Hin. destruct Hin as [Hin|[]]. injection Hin as <- <-.
    right. split; [reflexivity|]. right. split; [intros []|reflexivity].
  - simpl in Hnd. inversion Hnd as [|? ? Hnot Hnd']; subst.
    simpl in Hin.
    destruct (String.eqb (feature_type feature) t') eqn:E.
    + apply String.eqb_eq in E. subst t'.
      destruct Hin as [Hin|Hin].
      * injection Hin as <- <-. right. split; [reflexivity|].
        left. exists g'. split; [left; reflexivity|reflexivity].
      * left. split.
        -- intros ->. apply Hnot. apply in_map_iff.
           exists (feature_type feature, g). split; [reflexivity|exact Hin].
        -- right. exact Hin.
    + apply String.eqb_neq in E.
      destruct Hin as [Hin|Hin].
      * injection Hin as <- <-. left. split; [congruence|left; reflexivity].
      * destruct (IH Hnd' Hin) as [[H1 H2]|[H1 [[g0 [H2 H3]]|[H2 H3]]]].
        -- left. split; [exact H1|right; exact H2].
        -- right. split; [exact H1|]. left. exists g0.
           split; [right; exact H2|exact H3].
        -- right. split; [exact H1|]. right. split; [|exact H3].
           simpl. intros [H|H]; [subst; congruence|contradiction].
Qed.

Lemma existsb_eqb_In (t : string) (l : list string) :
  existsb (String.eqb t) l = true <-> In t l.
Proof.
  rewrite existsb_exists. split.
  - intros [x [Hx E]]. apply String.eqb_eq in E. subst. exact Hx.
  - intro H. exists t. split; [exact H|apply String.eqb_refl].
Qed.

Lemma grouped_step (prefix : list (Feature F))
  (groups : list (string * list (Feature F))) (f : Feature F) :
  grouped prefix groups -> grouped (prefix ++ [f]) (group_append f groups).
Proof.
  intros [Hnd [Hg Hk]]. split; [|split].
  - rewrite group_append_keys.
    destruct (existsb _ _) eqn:E; [exact Hnd|].
    apply NoDup_app; [exact Hnd| |].
    + constructor; [intros []|constructor].
    + intros x Hx [<-|[]].
      apply existsb_eqb_In in Hx. congruence.
  - intros t g Hin. rewrite features_of_type_snoc.
    destruct (group_append_In f groups t g Hnd Hin)
      as [[H1 H2]|[H1 [[g0 [H2 H3]]|[H2 H3]]]].
    + destruct (Hg t g H2) as [E1 E2].
      assert (E : String.eqb (feature_type f) t = false)
        by (apply String.eqb_neq; congruence).
      rewrite E, app_nil_r. split; assumption.
    + destruct (Hg t g0 H2) as [E1 E2]. subst t.
      rewrite String.eqb_refl. subst g. rewrite E1.
      split; [reflexivity|]. intro Z. apply app_eq_nil in Z.
      destruct Z as [_ Z]. discriminate Z.
    + subst t. rewrite String.eqb_refl. subst g.
      assert (E : features_of_type (feature_type f) prefix = []).
      { unfold features_of_type.
        destruct (filter _ prefix) as [|x l] eqn:Ef; [reflexivity|].
        assert (Hx : In x (filter (fun f0 => String.eqb (feature_type f0)
                                               (feature_type f)) prefix))
          by (rewrite Ef; left; reflexivity).
        apply filter_In in Hx. destruct Hx as [Hx1 Hx2].
        apply String.eqb_eq in Hx2. exfalso. apply H2.
        rewrite <- Hx2. apply Hk. exact Hx1. }
      rewrite E. split; [reflexivity|discriminate].
  - intros x Hx. rewrite group_append_keys.
    apply in_app_or in Hx.
    destruct (existsb _ _) eqn:E.
    + destruct Hx as [Hx|[<-|[]]]; [apply Hk; exact Hx|].
      apply existsb_eqb_In. exact E.
    + apply in_or_app. destruct Hx as [Hx|[<-|[]]];
        [left; apply Hk; exact Hx | right; left; reflexivity].
Qed.

Lemma group_features_grouped (features : list (Feature F)) :
  grouped features (_group_features_by_type features).
Proof.
  unfold _group_features_by_type.
  assert (G : forall (rest prefix : list (Feature F))
                    (groups : list (string * list (Feature F))),
             grouped prefix groups ->
             grouped (prefix ++ rest)
               (fold_left (fun gs f => group_append f gs) rest groups)).
  { induction rest as [|f rest IH]; intros prefix groups H; simpl.
    - rewrite app_nil_r. exact H.
    - replace (prefix ++ f :: rest) with ((prefix ++ [f]) ++ rest)
        by (rewrite <- app_assoc; reflexivity).
      apply IH. apply grouped_step. exact H. }
  apply (G features [] []).
  split; [constructor|]. split; [intros t g []|intros f []].
Qed.

Lemma id_at_In (g : list (Feature F)) (i : nat) :
  i < List.length g -> In (id_at g i) (map (@feature_id F) g).
Proof.
  intro H. rewrite id_at_nth. apply nth_In. rewrite length_map. exact H.
Qed.

Lemma ids_at_incl (g : list (Feature F)) (idxs : list nat) :
  (forall x, In x idxs -> x < List.length g) ->
  incl (map (id_at g) idxs) (map (@feature_id F) g).
Proof.
  intros H z Hz. apply in_map_iff in Hz. destruct Hz as [x [<- Hx]].
  apply id_at_In. apply H. exact Hx.
Qed.

Lemma linear_verify_ok (g : list (Feature F)) (centers : list (Point F))
  (i : nat) (direction : Point F) (members pf : list nat)
  (p : FeaturePattern F) :
  linear_verify g centers i direction members = Some (p, pf) ->
  (forall x, In x members -> x < List.length g) ->
  pattern_ok g p.
Proof.
  intros H Hb.
  pose proof (linear_verify_spec _ _ _ _ _ _ _ H) as [Hp [Hids Ht]].
  unfold linear_verify in H.
  destruct (MIN_PATTERN_COUNT <=? List.length members) eqn:Hlen;
    [|discriminate].
  apply Nat.leb_le in Hlen. cbv zeta in H.
  match type of H with (if ?c then _ else _) = _ => destruct c end;
    [|discriminate].
  injection H as <- <-.
  unfold pattern_ok, fixed_confidence. simpl.
  split; [reflexivity|]. split; [|split; [|exact I]].
  - rewrite length_map, (Permutation_length Hp). exact Hlen.
  - apply ids_at_incl. intros x Hx.
    apply Hb. apply (Permutation_in _ Hp). exact Hx.
Qed.

Lemma linear_scan_ok (g : list (Feature F)) (centers : list (Point F))
  (used : list nat) (i : nat) (p : FeaturePattern F) (pf : list nat) :
  linear_scan g centers used i = Some (p, pf) ->
  i < List.length g ->
  pattern_ok g p.
Proof.
  intros H Hi. unfold linear_scan in H.
  apply first_some_some in H. destruct H as [j [Hj H]].
  apply in_seq in Hj.
  destruct (mem j used); [discriminate|].
  unfold linear_candidate in H. cbv zeta in H.
  match type of H with (if ?c then _ else _) = _ => destruct c end;
    [discriminate|].
  apply linear_verify_ok in H; [exact H|].
  intros x Hx. apply linear_members_In in Hx.
  destruct Hx as [-> | [-> | [Hx _]]]; [exact Hi | lia | exact Hx].
Qed.

Lemma detect_linear_patterns_ok (g : list (Feature F)) :
  Forall (pattern_ok g) (detect_linear_patterns g).
Proof.
  unfold detect_linear_patterns.
  destruct (List.length g <? MIN_PATTERN_COUNT); [constructor|].
  cbv zeta.
  assert (G : forall l st,
             (forall i, In i l -> i < List.length g) ->
             Forall (pattern_ok g) (fst st) ->
             Forall (pattern_ok g)
               (fst (fold_left (linear_step g (map _get_feature_center g))
                               l st))).
  { induction l as [|i l IH]; intros st Hl Hst; [exact Hst|].
    simpl. apply IH; [intros k Hk; apply Hl; right; exact Hk|].
    destruct st as [patterns used]. unfold linear_step.
    destruct (mem i used); [exact Hst|].
    destruct (linear_scan _ _ used i) as [[p pf]|] eqn:S; [|exact Hst].
    simpl. apply Forall_app. split; [exact Hst|].
    constructor; [|constructor].
    apply (linear_scan_ok _ _ _ _ _ _ S). apply Hl. left. reflexivity. }
  apply G; [|constructor].
  intros i Hi. apply in_seq in Hi. lia.
Qed.

Lemma detect_circular_patterns_ok (g : list (Feature F)) :
  Forall (pattern_ok g) (detect_circular_patterns g).
Proof.
  pose proof (detect_circular_patterns_ids g) as [used [U1 [U2 [U3 U4]]]].
  revert U3 U4. unfold detect_circular_patterns.
  destruct (List.length g <? 3); [constructor|].
  cbv zeta.
  destruct (first_some _ _) as [p|] eqn:E; [|constructor].
  intros U3 _. constructor; [|constructor].
  simpl in U3. rewrite app_nil_r in U3.
  apply first_some_some in E. destruct E as [i [_ E]].
  apply first_some_some in E. destruct E as [j [_ E]].
  apply first_some_some in E. destruct E as [k [_ E]].
  unfold circular_candidate in E.
  destruct (_calculate_circle_center_3d _ _ _) as [cc|]; [|discriminate].
  cbv zeta in E.
  match type of E with
  | context [fold_left ?f ?l ?a] => set (pf := fold_left f l a) in *
  end.
  destruct (3 <=? List.length pf) eqn:Hlen; [|discriminate].
  apply Nat.leb_le in Hlen.
  injection E as <-. simpl in U3.
  unfold pattern_ok, fixed_confidence. simpl.
  split; [reflexivity|]. split; [rewrite length_map; lia|].
  split; [|reflexivity].
  rewrite U3. apply ids_at_incl. exact U2.
Qed.

Lemma detect_grid_patterns_all (g : list (Feature F)) (p : FeaturePattern F) :
  In p (detect_grid_patterns g) ->
  feature_ids p = map (@feature_id F) g
  /\ pattern_count p = List.length g
  /\ 4 <= List.length g
  /\ pattern_type p = GRID
  /\ confidence p = dec 8 1.
Proof.
  unfold detect_grid_patterns.
  destruct (List.length g <? 4) eqn:L; [intros []|].
  apply Nat.ltb_ge in L. cbv zeta.
  assert (E : map (id_at g) (range 0 (List.length g))
              = map (@feature_id F) g).
  { unfold range. rewrite Nat.sub_0_r.
    apply nth_ext with (d := 0%Z) (d' := 0%Z).
    - rewrite !length_map, length_seq. reflexivity.
    - intros n Hn. rewrite length_map, length_seq in Hn.
      rewrite <- id_at_nth.
      rewrite (nth_indep _ 0%Z (id_at g 0)) by
        (rewrite length_map, length_seq; exact Hn).
      rewrite map_nth, seq_nth by exact Hn. reflexivity. }
  repeat match goal with
         | |- In _ (match ?x with _ => _ end) -> _ => destruct x
         | |- In _ (if ?x then _ else _) -> _ => destruct x
         end.
  all: intro H.
  all: try (destruct H; fail).
  all: destruct H as [<-|[]]; simpl; rewrite E, ?length_map;
    repeat split; try reflexivity; exact L.
Qed.

Lemma detect_grid_patterns_ok (g : list (Feature F)) :
  Forall (pattern_ok g) (detect_grid_patterns g).
Proof.
  apply Forall_forall. intros p Hp.
  destruct (detect_grid_patterns_all g p Hp) as [E1 [E2 [E3 [E4 E5]]]].
  unfold pattern_ok, fixed_confidence.
  rewrite E1, E2, E4, length_map.
  split; [reflexivity|]. split; [lia|]. split; [apply incl_refl|exact E5].
Qed.

Lemma mirror_step_inv (n : nat) (centers : list (Point F)) (flip_axis : nat)
  (st : list (nat * nat) * list nat) (i : nat) :
  i < n -> mirror_inv n st ->
  mirror_inv n (mirror_step n centers flip_axis st i).
Proof.
  intros Hi [I1 [I2 I3]]. destruct st as [pairs used]. simpl in *.
  unfold mirror_step.
  destruct (mem i used) eqn:Mi; [repeat split; assumption|].
  apply mem_not_In in Mi.
  destruct (first_some _ _) as [j|] eqn:E; [|repeat split; assumption].
  apply first_some_some in E. destruct E as [j' [Hj E]].
  apply in_seq in Hj.
  destruct (mem j' used) eqn:Mj; [discriminate|].
  apply mem_not_In in Mj.
  match type of E with (if ?c then _ else _) = _ => destruct c end;
    [|discriminate].
  injection E as <-.
  unfold mirror_inv. simpl. split; [|split].
  - apply NoDup_app; [exact I1| |].
    + constructor; [intros [H|[]]; lia|].
      constructor; [intros []|constructor].
    + intros x Hx [<-|[<-|[]]]; contradiction.
  - intros x Hx. apply in_app_or in Hx.
    destruct Hx as [Hx|[<-|[<-|[]]]]; [apply I2; exact Hx | exact Hi | lia].
  - rewrite flat_map_app, <- I3. simpl. reflexivity.
Qed.

Lemma mirror_fold_inv (n : nat) (centers : list (Point F)) (flip_axis : nat) :
  mirror_inv n
    (fold_left (mirror_step n centers flip_axis) (range 0 n) ([], [])).
Proof.
  assert (G : forall l st,
             (forall i, In i l -> i < n) -> mirror_inv n st ->
             mirror_inv n (fold_left (mirror_step n centers flip_axis) l st)).
  { induction l as [|i l IH]; intros st Hl Hst; [exact Hst|].
    simpl. apply IH; [intros k Hk; apply Hl; right; exact Hk|].
    apply mirror_step_inv; [apply Hl; left; reflexivity|exact Hst]. }
  apply G.
  - intros i Hi. apply in_seq in Hi. lia.
  - split; [constructor|]. split; [intros x []|reflexivity].
Qed.

(** A mirror pattern lists the ids at the indices of its pairs, and no
    index twice. *)
Lemma detect_mirror_patterns_members (g : list (Feature F))
  (p : FeaturePattern F) :
  In p (detect_mirror_patterns g) ->
  exists pairs : list (nat * nat),
    pairs <> []
    /\ feature_ids p
       = map (id_at g)
             (flat_map (fun pair : nat * nat => [fst pair; snd pair]) pairs)
    /\ NoDup (flat_map (fun pair : nat * nat => [fst pair; snd pair]) pairs)
    /\ (forall x, In x (flat_map (fun pair : nat * nat =>
                                    [fst pair; snd pair]) pairs) ->
                  x < List.length g)
    /\ pattern_count p = List.length (feature_ids p)
    /\ pattern_type p = MIRROR
    /\ confidence p = dec 85 2.
Proof.
  unfold detect_mirror_patterns.
  destruct (List.length g <? 2); [intros []|].
  cbv zeta. intro H. apply in_flat_map in H.
  destruct H as [[plane_name flip_axis] [_ H]].
  pose proof (mirror_fold_inv (List.length g)
                (map _get_feature_center g) flip_axis) as [I1 [I2 I3]].
  cbv zeta in H.
  destruct (fold_left _ _ _) as [pairs used].
  cbn [fst snd] in H, I1, I2, I3.
  destruct (1 <=? List.length pairs) eqn:L; [|destruct H].
  destruct H as [<-|[]]. cbn [feature_ids pattern_count pattern_type confidence].
  exists pairs. subst used.
  split; [intros ->; discriminate L|].
  split.
  { clear. induction pairs as [|[a b] l IH]; [reflexivity|].
    simpl. rewrite IH. reflexivity. }
  repeat split; assumption.
Qed.

Lemma detect_mirror_patterns_ok (g : list (Feature F)) :
  Forall (pattern_ok g) (detect_mirror_patterns g).
Proof.
  apply Forall_forall. intros p Hp.
  destruct (detect_mirror_patterns_members g p Hp)
    as [pairs [Hne [Hids [_ [Hb [Hc [Ht Hconf]]]]]]].
  unfold pattern_ok, fixed_confidence. rewrite Ht.
  split; [exact Hc|]. split; [|split; [|exact Hconf]].
  - rewrite Hids, length_map.
    destruct pairs as [|[a b] l]; [contradiction|]. simpl. lia.
  - rewrite Hids. apply ids_at_incl. exact Hb.
Qed.

Lemma group_patterns_ok (g : list (Feature F)) :
  Forall (pattern_ok g) (group_patterns g).
Proof.
  unfold group_patterns.
  destruct (List.length g <? MIN_PATTERN_COUNT); [constructor|].
  repeat (apply Forall_app; split).
  - apply detect_linear_patterns_ok.
  - apply detect_circular_patterns_ok.
  - apply detect_grid_patterns_ok.
  - apply detect_mirror_patterns_ok.
Qed.

Lemma features_of_type_ids_incl (t : string) (features : list (Feature F)) :
  incl (map (@feature_id F) (features_of_type t features))
       (map (@feature_id F) features).
Proof.
  intros z Hz. apply in_map_iff in Hz. destruct Hz as [f [<- Hf]].
  apply in_map. apply filter_In in Hf. exact (proj1 Hf).
Qed.

(** Every returned pattern comes from the group of one feature type. *)
Lemma recognize_all_patterns_In (features : list (Feature F))
  (p : FeaturePattern F) :
  In p (recognize_all_patterns features) ->
  exists t, In p (group_patterns (features_of_type t features)).
Proof.
  unfold recognize_all_patterns. intro H. apply in_flat_map in H.
  destruct H as [[t g] [Hg Hp]]. simpl in Hp.
  destruct (group_features_grouped features) as [_ [G _]].
  destruct (G t g Hg) as [-> _]. exists t. exact Hp.
Qed.

(** X1: every feature id of a returned pattern is the id of an input feature,
    and the features of one pattern all have the same type. *)
Theorem patterns_reference_features_of_one_type
  (features : list (Feature F)) (p : FeaturePattern F) :
  In p (recognize_all_patterns features) ->
  exists t,
    incl (feature_ids p) (map (@feature_id F) (features_of_type t features))
    /\ incl (feature_ids p) (map (@feature_id F) features).
Proof.
  intro H. destruct (recognize_all_patterns_In _ _ H) as [t Ht].
  exists t.
  pose proof (proj1 (Forall_forall _ _) (group_patterns_ok _) p Ht)
    as [_ [_ [Hincl _]]].
  split; [exact Hincl|].
  intros z Hz. apply (features_of_type_ids_incl t). apply Hincl. exact Hz.
Qed.

(** X2: every returned pattern has at least two feature ids, and its
    [pattern_count] is their number. *)
Theorem patterns_have_two_members (features : list (Feature F))
  (p : FeaturePattern F) :
  In p (recognize_all_patterns features) ->
  pattern_count p = List.length (feature_ids p)
  /\ 2 <= List.length (feature_ids p).
Proof.
  intro H. destruct (recognize_all_patterns_In _ _ H) as [t Ht].
  pose proof (proj1 (Forall_forall _ _) (group_patterns_ok _) p Ht)
    as [H1 [H2 _]].
  split; assumption.
Qed.

(** X3: every returned pattern is linear, circular, grid or mirror, and the
    confidence of a circular, grid or mirror pattern is the constant 0.9,
    0.8 or 0.85. *)
Theorem pattern_types_and_fixed_confidences (features : list (Feature F))
  (p : FeaturePattern F) :
  In p (recognize_all_patterns features) ->
  (pattern_type p = LINEAR
   \/ (pattern_type p = CIRCULAR /\ confidence p = dec 9 1)
   \/ (pattern_type p = GRID /\ confidence p = dec 8 1)
   \/ (pattern_type p = MIRROR /\ confidence p = dec 85 2)).
Proof.
  intro H. destruct (recognize_all_patterns_In _ _ H) as [t Ht].
  pose proof (proj1 (Forall_forall _ _) (group_patterns_ok _) p Ht)
    as [_ [_ [_ Hc]]].
  unfold fixed_confidence in Hc.
  destruct (pattern_type p); try contradiction; auto.
Qed.

Lemma features_of_type_unique (t : string) (features : list (Feature F)) :
  NoDup (map (@feature_type F) features) ->
  List.length (features_of_type t features) <= 1.
Proof.
  unfold features_of_type.
  induction features as [|f fs IH]; intro Hnd; [simpl; lia|].
  simpl in Hnd. inversion Hnd as [|? ? Hnot Hnd']; subst.
  simpl. destruct (String.eqb (feature_type f) t) eqn:E.
  - apply String.eqb_eq in E. subst t.
    assert (Z : filter (fun f0 => String.eqb (feature_type f0)
                                    (feature_type f)) fs = []).
    { destruct (filter _ fs) as [|x l] eqn:Ef; [reflexivity|].
      assert (Hx : In x (filter (fun f0 => String.eqb (feature_type f0)
                                             (feature_type f)) fs))
        by (rewrite Ef; left; reflexivity).
      apply filter_In in Hx. destruct Hx as [Hx1 Hx2].
      apply String.eqb_eq in Hx2. exfalso. apply Hnot.
      rewrite <- Hx2. apply in_map. exact Hx1. }
    rewrite Z. simpl. lia.
  - apply IH. exact Hnd'.
Qed.

(** X4: when no two features have the same type, no pattern is returned; in
    particular for the empty list and for a single feature. *)
Theorem no_shared_type_no_pattern (features : list (Feature F)) :
  NoDup (map (@feature_type F) features) ->
  recognize_all_patterns features = [].
Proof.
  intro Hnd.
  destruct (recognize_all_patterns features) as [|p ps] eqn:E;
    [reflexivity|].
  assert (Hp : In p (recognize_all_patterns features))
    by (rewrite E; left; reflexivity).
  destruct (recognize_all_patterns_In _ _ Hp) as [t Ht].
  pose proof (features_of_type_unique t features Hnd) as L.
  unfold group_patterns in Ht.
  destruct (List.length (features_of_type t features) <? MIN_PATTERN_COUNT)
    eqn:C; [destruct Ht|].
  apply Nat.ltb_ge in C. unfold MIN_PATTERN_COUNT in C. lia.
Qed.

Lemma group_patterns_of_type_In (t : PatternType) (g : list (Feature F))
  (p : FeaturePattern F) :
  In p (group_patterns g) -> pattern_type p = t ->
  match t with
  | LINEAR => In p (detect_linear_patterns g)
  | CIRCULAR => In p (detect_circular_patterns g)
  | GRID => In p (detect_grid_patterns g)
  | MIRROR => In p (detect_mirror_patterns g)
  | _ => False
  end.
Proof.
  unfold group_patterns.
  destruct (List.length g <? MIN_PATTERN_COUNT); [intros []|].
  intros H Ht.
  pose proof (ids_at_distinct_indices_type _ _ _
                (detect_linear_patterns_ids g)) as TL.
  pose proof (ids_at_distinct_indices_type _ _ _
                (detect_circular_patterns_ids g)) as TC.
  pose proof (ids_at_distinct_indices_type _ _ _
                (detect_grid_patterns_ids g)) as TG.
  pose proof (detect_mirror_patterns_type g) as TM.
  rewrite Forall_forall in TL, TC, TG, TM.
  subst t.
  apply in_app_or in H. destruct H as [H|H].
  { rewrite (TL p H). exact H. }
  apply in_app_or in H. destruct H as [H|H].
  { rewrite (TC p H). exact H. }
  apply in_app_or in H. destruct H as [H|H].
  { rewrite (TG p H). exact H. }
  rewrite (TM p H). exact H.
Qed.

(** X5: a grid pattern lists every feature of its type, in list order,
    whether or not the features lie on a grid; there are at least four. *)
Theorem grid_pattern_lists_whole_group (features : list (Feature F))
  (p : FeaturePattern F) :
  In p (recognize_all_patterns features) -> pattern_type p = GRID ->
  exists t,
    feature_ids p = map (@feature_id F) (features_of_type t features)
    /\ 4 <= List.length (features_of_type t features).
Proof.
  intros H Ht. destruct (recognize_all_patterns_In _ _ H) as [t Hg].
  exists t.
  pose proof (group_patterns_of_type_In GRID _ p Hg Ht) as Hd. simpl in Hd.
  destruct (detect_grid_patterns_all _ p Hd) as [E1 [_ [E3 _]]].
  split; assumption.
Qed.

(** X6: a mirror pattern lists an even number of ids, two per matched pair,
    and, when the feature ids are pairwise distinct, no id twice. *)
Theorem mirror_pattern_pairs (features : list (Feature F))
  (p : FeaturePattern F) :
  In p (recognize_all_patterns features) -> pattern_type p = MIRROR ->
  (exists k, 1 <= k /\ List.length (feature_ids p) = 2 * k)
  /\ (NoDup (map (@feature_id F) features) -> NoDup (feature_ids p)).
Proof.
  intros H Ht. destruct (recognize_all_patterns_In _ _ H) as [t Hg].
  pose proof (group_patterns_of_type_In MIRROR _ p Hg Ht) as Hd.
  simpl in Hd.
  destruct (detect_mirror_patterns_members _ p Hd)
    as [pairs [Hne [Hids [Hnd [Hb _]]]]].
  split.
  - exists (List.length pairs). split.
    + destruct pairs; [contradiction|simpl; lia].
    + rewrite Hids, length_map. clear.
      induction pairs as [|[a b] l IH]; [reflexivity|]. simpl. lia.
  - intro Hids_nd.
    assert (Hg_nd : NoDup (map (@feature_id F) (features_of_type t features))).
    { unfold features_of_type. clear - Hids_nd.
      induction features as [|f fs IH]; [constructor|].
      simpl in Hids_nd. inversion Hids_nd as [|? ? Hnot Hnd']; subst.
      simpl. destruct (String.eqb (feature_type f) t); [|apply IH; exact Hnd'].
      simpl. constructor; [|apply IH; exact Hnd'].
      intro Hin. apply Hnot. apply in_map_iff in Hin.
      destruct Hin as [x [Hx1 Hx2]]. apply filter_In in Hx2.
      rewrite <- Hx1. apply in_map. exact (proj1 Hx2). }
    assert (I : ids_at_distinct_indices MIRROR (features_of_type t features)
                  [p]).
    { exists (flat_map (fun pair : nat * nat => [fst pair; snd pair]) pairs).
      repeat split; try assumption.
      - simpl. rewrite app_nil_r. exact Hids.
      - constructor; [exact Ht|constructor]. }
    pose proof (ids_at_distinct_indices_NoDup _ _ _ Hg_nd I) as [Hn _].
    simpl in Hn. rewrite app_nil_r in Hn. exact Hn.
Qed.
End PatternFacts.
Section PatternExact.
Local Open Scope R_scope.

(** X7: when [_calculate_circle_center_3d] returns a centre, the three points
    are at the same distance from it in the xy-plane, its z is the mean of
    the three z, and the determinant was at least 0.001 in absolute value
    (exact arithmetic). *)
Theorem circle_center_is_equidistant (p1 p2 p3 c : Point R) :
  _calculate_circle_center_3d p1 p2 p3 = Some c ->
  planar_dist2 p1 c = planar_dist2 p2 c
  /\ planar_dist2 p2 c = planar_dist2 p3 c
  /\ coord c 2 = (coord p1 2 + coord p2 2 + coord p3 2) / 3
  /\ 1 / 1000 <= Rabs (circle_det p1 p2 p3).
Proof.
  destruct p1 as [[x1 y1] z1], p2 as [[x2 y2] z2], p3 as [[x3 y3] z3].
  unfold _calculate_circle_center_3d. simpl coord. cbv zeta.
  set (d := (fromZ 2 *! (x1 *! (y2 -! y3) +! x2 *! (y3 -! y1)
                         +! x3 *! (y1 -! y2)))%num).
  assert (Ed : d = 2 * (x1 * (y2 - y3) + x2 * (y3 - y1) + x3 * (y1 - y2)))
    by reflexivity.
  change (circle_det (x1, y1, z1) (x2, y2, z2) (x3, y3, z3)) with d.
  destruct (fabs d <! dec 1 3)%num eqn:C; [discriminate|].
  apply (proj1 (Rltb_false _ _)) in C. rewrite dec_real in C. simpl in C.
  assert (Hnz : d <> 0).
  { intro Z. rewrite Z, Rabs_R0 in C. lra. }
  intro H. injection H as <-. unfold planar_dist2. simpl coord.
  assert (Hnz' : x1 * (y2 - y3) + x2 * (y3 - y1) + x3 * (y1 - y2) <> 0)
    by (intro Z; apply Hnz; rewrite Ed, Z; ring).
  split; [|split; [|split; [reflexivity|exact C]]];
    unfold sq; simpl add; simpl mul; simpl sub; simpl div; simpl fromZ;
    rewrite Ed; field; exact Hnz'.
Qed.


(** X8: for a unit direction every point [line_point + t * direction] passes
    [_is_on_line], whatever the spacing argument, and
    [_distance_along_line] gives [t] back (exact arithmetic). *)
Theorem points_of_the_line_are_on_it (a d : Point R) (spacing t : R) :
  coord d 0 * coord d 0 + coord d 1 * coord d 1 + coord d 2 * coord d 2 = 1 ->
  _is_on_line a d spacing (point_on_line a d t) = true
  /\ _distance_along_line a d (point_on_line a d t) = t.
Proof.
  destruct a as [[ax ay] az], d as [[dx dy] dz]. simpl coord. intro U.
  assert (P : _distance_along_line (ax, ay, az) (dx, dy, dz)
                (point_on_line (ax, ay, az) (dx, dy, dz) t) = t).
  { unfold _distance_along_line, point_on_line. simpl.
    replace ((ax + t * dx - ax) * dx + (ay + t * dy - ay) * dy
             + (az + t * dz - az) * dz)
      with (t * (dx * dx + dy * dy + dz * dz)) by ring.
    rewrite U. ring. }
  split; [|exact P].
  unfold _is_on_line. cbv zeta.
  unfold _distance_along_line in P. cbv zeta in P. rewrite P.
  apply (proj2 (Rltb_true _ _)).
  unfold point_on_line, sq, POSITION_TOLERANCE. rewrite dec_real. simpl.
  replace ((ax + t * dx - (ax + t * dx)) * (ax + t * dx - (ax + t * dx))
           + (ay + t * dy - (ay + t * dy)) * (ay + t * dy - (ay + t * dy))
           + (az + t * dz - (az + t * dz)) * (az + t * dz - (az + t * dz)))
    with 0 by ring.
  rewrite sqrt_0. lra.
Qed.

Lemma dist3_self (p : Point R) : dist3 p p = 0.
Proof.
  destruct p as [[x y] z]. unfold dist3, py_sum, sq. simpl.
  replace (0 + (x - x) * (x - x) + (y - y) * (y - y) + (z - z) * (z - z))
    with 0 by ring.
  apply sqrt_0.
Qed.

Lemma mirror_fold_two (c1 c2 : Point R) (flip_axis : nat) :
  (dist3 c2 (flip flip_axis c1) <! POSITION_TOLERANCE)%num = true ->
  fold_left (mirror_step 2 [c1; c2] flip_axis) [0%nat; 1%nat] ([], [])
  = ([(0%nat, 1%nat)], [0%nat; 1%nat]).
Proof.
  intro H. unfold fold_left.
  unfold mirror_step at 2. change (mem 0 []) with false. cbv iota.
  change (range (0 + 1) 2) with [1%nat].
  unfold first_some. change (mem 1 []) with false. cbv iota.
  change (center_at [c1; c2] 0) with c1.
  change (center_at [c1; c2] 1) with c2.
  rewrite H. cbv iota.
  unfold mirror_step. change (mem 1 ([] ++ [0; 1])%nat) with true.
  reflexivity.
Qed.

(** X9: two features whose centres are mirror images of one another across a
    coordinate plane are reported as a mirror pattern of that plane, with
    the two ids, count 2 and confidence 0.85 (exact arithmetic). *)
Theorem mirrored_pair_is_reported (f1 f2 : Feature R)
  (plane_name : string) (flip_axis : nat) :
  In (plane_name, flip_axis) mirror_planes ->
  _get_feature_center f2 = flip flip_axis (_get_feature_center f1) ->
  In (mirror_pair_pattern f1 f2 plane_name)
     (detect_mirror_patterns [f1; f2]).
Proof.
  intros Hplane Hc.
  unfold detect_mirror_patterns.
  change (List.length [f1; f2] <? 2)%nat with false. cbv iota zeta.
  apply in_flat_map. exists (plane_name, flip_axis). split; [exact Hplane|].
  cbv beta iota zeta.
  change (map _get_feature_center [f1; f2])
    with [_get_feature_center f1; _get_feature_center f2].
  change (range 0 (List.length [f1; f2])) with [0%nat; 1%nat].
  change (List.length [f1; f2]) with 2%nat.
  rewrite mirror_fold_two.
  - left. unfold mirror_pair_pattern. rewrite dec_real. reflexivity.
  - rewrite Hc, dist3_self. apply (proj2 (Rltb_true _ _)).
    unfold POSITION_TOLERANCE. rewrite dec_real. simpl. lra.
Qed.
End PatternExact.

Section LinearCandidates.
Context {F : Type} {N : Num F}.
Lemma detect_linear_patterns_In (g : list (Feature F))
  (p : FeaturePattern F) :
  In p (detect_linear_patterns g) ->
  exists used i j pf,
    i < j /\ j < List.length g
    /\ linear_candidate g (map _get_feature_center g) used i j
       = Some (p, pf).
Proof.
  unfold detect_linear_patterns.
  destruct (List.length g <? MIN_PATTERN_COUNT); [intros []|].
  cbv zeta.
  set (Q := fun p : FeaturePattern F =>
              exists used i j pf,
                i < j /\ j < List.length g
                /\ linear_candidate g (map _get_feature_center g) used i j
                   = Some (p, pf)).
  assert (G : forall l st,
             Forall Q (fst st) ->
             Forall Q
               (fst (fold_left (linear_step g (map _get_feature_center g))
                               l st))).
  { induction l as [|i l IH]; intros st Hst; [exact Hst|].
    simpl. apply IH.
    destruct st as [patterns used]. unfold linear_step.
    destruct (mem i used); [exact Hst|].
    destruct (linear_scan _ _ used i) as [[p' pf]|] eqn:S; [|exact Hst].
    simpl. apply Forall_app. split; [exact Hst|].
    constructor; [|constructor].
    unfold linear_scan in S. apply first_some_some in S.
    destruct S as [j [Hj S]]. apply in_seq in Hj.
    destruct (mem j used); [discriminate|].
    exists used, i, j, pf. split; [lia|]. split; [lia|exact S]. }
  intro H. specialize (G (range 0 (List.length g)) ([], [])
                         (Forall_nil _)).
  rewrite Forall_forall in G. exact (G p H).
Qed.
End LinearCandidates.

Section LinearExact.
Local Open Scope R_scope.


Lemma euclid_nonneg (a b : Point R) : 0 <= euclid a b.
Proof.
  destruct a as [[x1 y1] z1], b as [[x2 y2] z2]. apply sqrt_pos.
Qed.

Lemma euclid_sym (a b : Point R) : euclid a b = euclid b a.
Proof.
  destruct a as [[x1 y1] z1], b as [[x2 y2] z2]. unfold euclid.
  f_equal. ring.
Qed.

Lemma euclid_self (a : Point R) : euclid a a = 0.
Proof.
  destruct a as [[x y] z]. unfold euclid.
  replace ((x - x) * (x - x) + (y - y) * (y - y) + (z - z) * (z - z))
    with 0 by ring.
  apply sqrt_0.
Qed.

(** Cauchy-Schwarz in three dimensions. *)
Lemma dot_le_norms (u1 u2 u3 v1 v2 v3 : R) :
  u1 * v1 + u2 * v2 + u3 * v3
  <= sqrt (u1 * u1 + u2 * u2 + u3 * u3) * sqrt (v1 * v1 + v2 * v2 + v3 * v3).
Proof.
  set (A := u1 * u1 + u2 * u2 + u3 * u3).
  set (B := v1 * v1 + v2 * v2 + v3 * v3).
  set (P := u1 * v1 + u2 * v2 + u3 * v3).
  assert (HA : 0 <= A) by apply sum_sq_nonneg.
  assert (HB : 0 <= B) by apply sum_sq_nonneg.
  destruct (Rle_dec P 0) as [Hneg|Hpos].
  - apply Rle_trans with 0; [exact Hneg|].
    apply Rmult_le_pos; apply sqrt_pos.
  - assert (HP : 0 <= P) by lra.
    rewrite <- sqrt_mult by assumption.
    rewrite <- (sqrt_square P HP).
    apply sqrt_le_1_alt.
    assert (L : A * B - P * P
                = (u1 * v2 - u2 * v1) * (u1 * v2 - u2 * v1)
                  + (u1 * v3 - u3 * v1) * (u1 * v3 - u3 * v1)
                  + (u2 * v3 - u3 * v2) * (u2 * v3 - u3 * v2))
      by (unfold A, B, P; ring).
    pose proof (sum_sq_nonneg (u1 * v2 - u2 * v1) (u1 * v3 - u3 * v1)
                  (u2 * v3 - u3 * v2)).
    lra.
Qed.

Lemma euclid_triangle (a b c : Point R) :
  euclid a c <= euclid a b + euclid b c.
Proof.
  destruct a as [[x1 y1] z1], b as [[x2 y2] z2], c as [[x3 y3] z3].
  unfold euclid.
  set (u1 := x2 - x1). set (u2 := y2 - y1). set (u3 := z2 - z1).
  set (v1 := x3 - x2). set (v2 := y3 - y2). set (v3 := z3 - z2).
  replace (x3 - x1) with (u1 + v1) by (unfold u1, v1; ring).
  replace (y3 - y1) with (u2 + v2) by (unfold u2, v2; ring).
  replace (z3 - z1) with (u3 + v3) by (unfold u3, v3; ring).
  set (A := u1 * u1 + u2 * u2 + u3 * u3).
  set (B := v1 * v1 + v2 * v2 + v3 * v3).
  pose proof (dot_le_norms u1 u2 u3 v1 v2 v3) as CS. fold A B in CS.
  assert (HA : 0 <= A) by apply sum_sq_nonneg.
  assert (HB : 0 <= B) by apply sum_sq_nonneg.
  assert (S : 0 <= sqrt A + sqrt B)
    by (pose proof (sqrt_pos A); pose proof (sqrt_pos B); lra).
  rewrite <- (sqrt_square (sqrt A + sqrt B) S).
  apply sqrt_le_1_alt.
  replace ((sqrt A + sqrt B) * (sqrt A + sqrt B))
    with (sqrt A * sqrt A + sqrt B * sqrt B + 2 * (sqrt A * sqrt B)) by ring.
  rewrite (sqrt_sqrt A HA), (sqrt_sqrt B HB).
  unfold A, B in *. lra.
Qed.

(** [sum] over the reals is the sum. *)
Lemma py_sum_real (l : list R) : py_sum l = fold_right Rplus 0 l.
Proof.
  unfold py_sum. simpl fromZ.
  assert (G : forall acc, fold_left add l acc = acc + fold_right Rplus 0 l).
  { induction l as [|x l IH]; intro acc; simpl; [ring|].
    rewrite IH. ring. }
  rewrite G. ring.
Qed.

Lemma consecutive_spacings_nonneg (centers : list (Point R))
  (l : list nat) :
  0 <= fold_right Rplus 0 (consecutive_spacings centers l).
Proof.
  induction l as [|x l IH]; [simpl; lra|].
  destruct l as [|y r]; [simpl; lra|].
  change (consecutive_spacings centers (x :: y :: r))
    with (dist3 (center_at centers y) (center_at centers x)
          :: consecutive_spacings centers (y :: r)).
  cbn [fold_right]. rewrite dist3_euclid.
  pose proof (euclid_nonneg (center_at centers x) (center_at centers y)).
  lra.
Qed.

(** The path through the sorted members is at least as long as the distance
    of any two of them. *)
Lemma path_at_least_distance (centers : list (Point R)) (l : list nat) :
  forall a b, In a l -> In b l ->
    euclid (center_at centers a) (center_at centers b)
    <= fold_right Rplus 0 (consecutive_spacings centers l).
Proof.
  assert (Hhd : forall l x b, In b (x :: l) ->
            euclid (center_at centers x) (center_at centers b)
            <= fold_right Rplus 0 (consecutive_spacings centers (x :: l))).
  { clear l. induction l as [|y r IH]; intros x b Hb.
    - destruct Hb as [<-|[]]. rewrite euclid_self. simpl. lra.
    - destruct Hb as [<-|Hb].
      + rewrite euclid_self. apply consecutive_spacings_nonneg.
      + specialize (IH y b Hb).
        change (consecutive_spacings centers (x :: y :: r))
          with (dist3 (center_at centers y) (center_at centers x)
                :: consecutive_spacings centers (y :: r)).
        cbn [fold_right]. rewrite dist3_euclid.
        pose proof (euclid_triangle (center_at centers x)
                      (center_at centers y) (center_at centers b)).
        lra. }
  induction l as [|x l IH]; intros a b Ha Hb; [destruct Ha|].
  destruct Ha as [<-|Ha].
  - apply Hhd. exact Hb.
  - destruct Hb as [<-|Hb].
    + rewrite euclid_sym. apply Hhd. right. exact Ha.
    + specialize (IH a b Ha Hb).
      destruct l as [|y r]; [destruct Ha|].
      change (consecutive_spacings centers (x :: y :: r))
        with (dist3 (center_at centers y) (center_at centers x)
              :: consecutive_spacings centers (y :: r)).
      cbn [fold_right]. rewrite dist3_euclid.
      pose proof (euclid_nonneg (center_at centers x) (center_at centers y)).
      lra.
Qed.

Lemma py_max_ge_head (x : R) (t : list R) : x <= py_max (x :: t).
Proof.
  unfold py_max.
  assert (G : forall t m, m <= fold_left (fun m y => if (m <! y)%num
                                                      then y else m) t m).
  { clear. induction t as [|y t IH]; intro m; simpl; [lra|].
    destruct (Rltb m y) eqn:E.
    - apply Rltb_true in E. apply Rle_trans with y; [lra|apply IH].
    - apply IH. }
  apply G.
Qed.

Lemma consecutive_spacings_length (centers : list (Point R)) (l : list nat) :
  List.length (consecutive_spacings centers l) = (List.length l - 1)%nat.
Proof.
  induction l as [|x l IH]; [reflexivity|].
  destruct l as [|y r]; [reflexivity|].
  change (consecutive_spacings centers (x :: y :: r))
    with (dist3 (center_at centers y) (center_at centers x)
          :: consecutive_spacings centers (y :: r)).
  simpl List.length in *. rewrite IH. lia.
Qed.

Lemma linear_verify_values (g : list (Feature R)) (centers : list (Point R))
  (i : nat) (dir : Point R) (members pf : list nat) (p : FeaturePattern R) :
  linear_verify g centers i dir members = Some (p, pf) ->
  exists sorted,
    Permutation sorted members
    /\ (2 <= List.length members)%nat
    /\ pattern_count p = List.length sorted
    /\ spacing p
       = py_sum (consecutive_spacings centers sorted)
         / INR (List.length (consecutive_spacings centers sorted))
    /\ confidence p
       = 1 - py_max (map (fun s => Rabs (s - spacing p))
                         (consecutive_spacings centers sorted))
             / spacing p.
Proof.
  unfold linear_verify.
  destruct (MIN_PATTERN_COUNT <=? List.length members)%nat eqn:L;
    [|discriminate].
  apply Nat.leb_le in L. cbv zeta.
  match goal with |- (if ?c then _ else _) = _ -> _ => destruct c end;
    [|discriminate].
  intro H. injection H as <- <-.
  eexists. split; [apply sort_by_perm|]. split; [exact L|].
  cbn [spacing confidence pattern_count].
  split; [apply length_map|].
  split; simpl; rewrite <- INR_IZR_INZ; reflexivity.
Qed.

(** X10: every linear pattern returned has a positive average spacing, so the
    division by it never meets zero: its spacings sum to at least 0.1; and
    its confidence is at most 1 (exact arithmetic). *)
Theorem linear_spacing_positive_confidence_at_most_1
  (features : list (Feature R)) (p : FeaturePattern R) :
  In p (detect_linear_patterns features) ->
  1 / 10 <= spacing p * INR (pattern_count p - 1)
  /\ 0 < spacing p
  /\ confidence p <= 1.
Proof.
  intro H. apply detect_linear_patterns_In in H.
  destruct H as [used [i [j [pf [Hij [Hj H]]]]]].
  unfold linear_candidate in H.
  cbv zeta in H.
  match type of H with
  | (if (?s <! _)%num then _ else _) = _ =>
      change s with (pair_spacing
                       (center_at (map _get_feature_center features) i)
                       (center_at (map _get_feature_center features) j)) in H
  end.
  rewrite pair_spacing_euclid in H.
  match type of H with
  | (if ?c then _ else _) = _ => destruct c eqn:C
  end; [discriminate|].
  apply (proj1 (Rltb_false _ _)) in C. rewrite dec_real in C. simpl in C.
  match type of H with
  | linear_verify _ ?cs _ _ ?m = _ =>
      assert (Hi_in : In i m) by (left; reflexivity);
      assert (Hj_in : In j m) by (right; left; reflexivity)
  end.
  apply linear_verify_values in H.
  destruct H as [sorted [Hperm [L [Hcount [Hsp Hconf]]]]].
  apply (Permutation_in _ (Permutation_sym Hperm)) in Hi_in, Hj_in.
  pose proof (path_at_least_distance (map _get_feature_center features)
                sorted i j Hi_in Hj_in) as Hpath.
  set (spacings := consecutive_spacings
                     (map _get_feature_center features) sorted) in *.
  assert (Hlen : List.length spacings = (List.length sorted - 1)%nat)
    by apply consecutive_spacings_length.
  assert (Hsorted : (2 <= List.length sorted)%nat).
  { rewrite (Permutation_length Hperm). exact L. }
  assert (Hn : 1 <= INR (List.length spacings)).
  { rewrite Hlen. change 1 with (INR 1). apply le_INR. lia. }
  assert (Hsum : 1 / 10 <= py_sum spacings)
    by (rewrite py_sum_real; lra).
  assert (Havg : 0 < spacing p).
  { rewrite Hsp. apply Rdiv_lt_0_compat; lra. }
  split; [|split; [exact Havg|]].
  - rewrite Hcount, <- Hlen, Hsp.
    replace (py_sum spacings / INR (List.length spacings)
             * INR (List.length spacings))
      with (py_sum spacings) by (field; lra).
    exact Hsum.
  - rewrite Hconf.
    destruct spacings as [|s0 rest] eqn:Es; [simpl in Hn; lra|].
    simpl map.
    match goal with
    | |- 1 - py_max (?x :: ?t) / _ <= _ =>
        pose proof (py_max_ge_head x t) as Hmax;
        set (mx := py_max (x :: t)) in *
    end.
    assert (Hmx : 0 <= mx).
    { eapply Rle_trans; [|exact Hmax]. apply Rabs_pos. }
    assert (0 <= mx / spacing p).
    { apply Rmult_le_pos; [exact Hmx|].
      left. apply Rinv_0_lt_compat. exact Havg. }
    lra.
Qed.
Lemma detect_linear_two (f1 f2 : Feature R) :
  1 / 10 <= euclid (_get_feature_center f1) (_get_feature_center f2) ->
  detect_linear_patterns [f1; f2] = [pair_pattern f1 f2].
Proof.
  intro Hd. unfold pair_pattern.
  set (c1 := _get_feature_center f1) in *.
  set (c2 := _get_feature_center f2) in *.
  assert (C : linear_candidate [f1; f2] [c1; c2] [] 0 1
              = linear_verify [f1; f2] [c1; c2] 0 (unit_direction c1 c2)
                  [0%nat; 1%nat]).
  { unfold linear_candidate.
    change (center_at [c1; c2] 0) with c1.
    change (center_at [c1; c2] 1) with c2.
    fold (pair_spacing c1 c2). rewrite pair_spacing_euclid.
    assert (Hc : (euclid c1 c2 <! dec 1 1)%num = false).
    { apply (proj2 (Rltb_false _ _)). rewrite dec_real. simpl. lra. }
    rewrite Hc. reflexivity. }
  rewrite linear_verify_two in C by lra.
  unfold detect_linear_patterns.
  change (List.length [f1; f2] <? MIN_PATTERN_COUNT)%nat with false.
  cbv iota zeta.
  change (map _get_feature_center [f1; f2]) with [c1; c2].
  change (range 0 (List.length [f1; f2])) with [0%nat; 1%nat].
  unfold fold_left.
  unfold linear_step at 2. change (mem 0 []) with false. cbv iota.
  unfold linear_scan.
  change (range (0 + 1) (List.length [f1; f2])) with [1%nat].
  unfold first_some. change (mem 1 []) with false. cbv iota.
  rewrite C. reflexivity.
Qed.
End LinearExact.

Section DominantSpacing.
Local Open Scope R_scope.

(** The invariant of [spacing_groups]: every member of a group is one of
    the spacings and lies within the tolerance of the group's key, which is
    a spacing too. *)
Lemma group_add_inv (P : R -> list R -> Prop) (s : R)
    (groups groups' : list (R * list R)) :
  (forall key members, P key members -> Rabs (s - key) < 5 / 10 ->
                       P key (members ++ [s])) ->
  Forall (fun g => P (fst g) (snd g)) groups ->
  group_add s groups = Some groups' ->
  Forall (fun g => P (fst g) (snd g)) groups'.
Proof.
  intros HP. revert groups'.
  induction groups as [|[key members] rest IH]; intros groups' Hg;
    [discriminate|].
  cbn [group_add]. inversion Hg as [|x l Hx Hl]; subst.
  destruct (ltb (fabs (sub s key)) POSITION_TOLERANCE) eqn:E.
  - intro H. injection H as <-. constructor; [|exact Hl].
    simpl. apply HP; [exact Hx|].
    unfold POSITION_TOLERANCE in E. rewrite dec_real in E. simpl in E.
    apply Rltb_true in E. lra.
  - destruct (group_add s rest) as [rest'|]; [|discriminate].
    intro H. injection H as <-. constructor; [exact Hx|].
    apply IH; [exact Hl|reflexivity].
Qed.

Lemma dict_set_inv (P : R -> list R -> Prop) (k : R) (v : list R)
    (groups : list (R * list R)) :
  P k v ->
  Forall (fun g => P (fst g) (snd g)) groups ->
  Forall (fun g => P (fst g) (snd g)) (dict_set k v groups).
Proof.
  intros Hv. induction groups as [|[k' v'] rest IH]; intro Hg;
    cbn [dict_set].
  - constructor; [exact Hv|constructor].
  - inversion Hg as [|x l Hx Hl]; subst.
    change (@eqb R real_num k k') with (Reqb k k'). unfold Reqb.
    destruct (Req_dec_T k k') as [<-|_].
    + constructor; [exact Hv|exact Hl].
    + constructor; [exact Hx|apply IH; exact Hl].
Qed.

Lemma longest_In (groups : list (list R)) :
  longest groups = [] \/ In (longest groups) groups.
Proof.
  destruct groups as [|g t]; [left; reflexivity|]. right. simpl.
  assert (G : forall (t : list (list R)) (m : list R), In (fold_left
                                (fun m y => if (List.length m <? List.length y)%nat
                                            then y else m) t m) (m :: t)).
  { clear. induction t as [|y t IH]; intro m; simpl.
    - left. reflexivity.
    - destruct (IH (if (List.length m <? List.length y)%nat then y else m))
        as [H|H].
      + destruct (List.length m <? List.length y)%nat.
        * right. left. exact H.
        * left. exact H.
      + right. right. exact H. }
  apply G.
Qed.

Lemma sum_near_key (key : R) (members : list R) :
  (forall m, In m members -> Rabs (m - key) < 5 / 10) ->
  Rabs (fold_right Rplus 0 members - INR (List.length members) * key)
  <= INR (List.length members) * (5 / 10)
  /\ (members <> [] ->
      Rabs (fold_right Rplus 0 members - INR (List.length members) * key)
      < INR (List.length members) * (5 / 10)).
Proof.
  induction members as [|m rest IH]; intro H.
  - simpl. rewrite Rmult_0_l, Rminus_0_r, Rabs_R0.
    split; [lra|intro C; contradiction C; reflexivity].
  - destruct IH as [IH _]; [intros x Hx; apply H; right; exact Hx|].
    pose proof (H m (or_introl eq_refl)) as Hm.
    assert (B : Rabs (fold_right Rplus 0 (m :: rest)
                      - INR (List.length (m :: rest)) * key)
                < INR (List.length (m :: rest)) * (5 / 10)).
    { cbn [fold_right List.length]. rewrite S_INR.
      replace (m + fold_right Rplus 0 rest - (INR (List.length rest) + 1) * key)
        with ((m - key)
              + (fold_right Rplus 0 rest - INR (List.length rest) * key))
        by ring.
      eapply Rle_lt_trans; [apply Rabs_triang|]. lra. }
    split; [lra|intros _; exact B].
Qed.

Lemma fold_groups_inv (spacings : list R) :
  forall l groups,
    incl l spacings ->
    Forall (fun g => In (fst g) spacings
                     /\ forall m, In m (snd g) -> Rabs (m - fst g) < 5 / 10)
           groups ->
    Forall (fun g => In (fst g) spacings
                     /\ forall m, In m (snd g) -> Rabs (m - fst g) < 5 / 10)
           (fold_left
              (fun groups spacing =>
                 match group_add spacing groups with
                 | Some groups' => groups'
                 | None => dict_set spacing [spacing] groups
                 end) l groups).
Proof.
  induction l as [|s l IH]; intros groups Hl Hg; [exact Hg|].
  simpl. apply IH; [intros x Hx; apply Hl; right; exact Hx|].
  destruct (group_add s groups) as [groups'|] eqn:E.
  - apply (group_add_inv
             (fun key members =>
                In key spacings
                /\ forall m, In m members -> Rabs (m - key) < 5 / 10)
             s groups groups'); [|exact Hg|exact E].
    intros key members [H1 H2] Hs. split; [exact H1|].
    intros m Hm. apply in_app_or in Hm. destruct Hm as [Hm|[<-|[]]].
    + apply H2. exact Hm.
    + exact Hs.
  - apply (dict_set_inv
             (fun key members =>
                In key spacings
                /\ forall m, In m members -> Rabs (m - key) < 5 / 10));
      [|exact Hg].
    split; [apply Hl; left; reflexivity|].
    intros m [<-|[]]. replace (s - s) with 0 by ring. rewrite Rabs_R0. lra.
Qed.

(** X11: a dominant spacing is found only among two or more spacings, and it
    lies within the tolerance 0.5 of one of them: it is the mean of a group
    of spacings that are all within the tolerance of the group's first
    one. *)
Theorem dominant_spacing_is_near_a_spacing (spacings : list R) (s : R) :
  _find_dominant_spacing spacings = Some s ->
  (2 <= List.length spacings)%nat
  /\ exists key, In key spacings /\ Rabs (s - key) < 5 / 10.
Proof.
  unfold _find_dominant_spacing.
  destruct spacings as [|s0 rest] eqn:Es; [discriminate|].
  rewrite <- Es. cbv zeta.
  pose proof (fold_groups_inv spacings spacings [] (incl_refl _)
                (Forall_nil _)) as Hg.
  set (groups := fold_left _ spacings []) in *.
  destruct (2 <=? List.length (longest (map snd groups)))%nat eqn:L;
    [|discriminate].
  apply Nat.leb_le in L. intro H. injection H as <-.
  split.
  - destruct rest as [|s1 rest'].
    + exfalso. subst spacings. subst groups. cbn in L. lia.
    + rewrite Es. simpl. lia.
  - destruct (longest_In (map snd groups)) as [E|Hin].
    + rewrite E in L. simpl in L. lia.
    + apply in_map_iff in Hin. destruct Hin as [[key members] [Hm Hin]].
      simpl in Hm. rewrite <- Hm in *. clear Hm.
      rewrite Forall_forall in Hg. destruct (Hg _ Hin) as [Hk Hnear].
      simpl in Hk, Hnear. exists key. split; [exact Hk|].
      rewrite py_sum_real. change (@fromZ R real_num) with IZR. rewrite <- INR_IZR_INZ.
     
      destruct (sum_near_key key members Hnear) as [_ B].
      assert (Hne : members <> []) by (intro Z; rewrite Z in L; simpl in L; lia).
      specialize (B Hne).
      assert (Hn : 0 < INR (List.length members)).
      { apply lt_0_INR. lia. }
      replace (fold_right Rplus 0 members / INR (List.length members) - key)
        with ((fold_right Rplus 0 members - INR (List.length members) * key)
              / INR (List.length members)) by (field; lra).
      unfold Rdiv at 1. rewrite Rabs_mult.
      rewrite (Rabs_right (/ INR (List.length members)))
        by (left; apply Rinv_0_lt_compat; exact Hn).
      apply Rmult_lt_reg_r with (INR (List.length members)); [exact Hn|].
      rewrite Rmult_assoc, Rinv_l by lra. lra.
Qed.

Lemma fold_one_group (key : R) :
  forall (l members : list R),
    (forall x, In x l -> Rabs (x - key) < 5 / 10) ->
    fold_left
      (fun groups spacing =>
         match group_add spacing groups with
         | Some groups' => groups'
         | None => dict_set spacing [spacing] groups
         end) l [(key, members)]
    = [(key, members ++ l)].
Proof.
  induction l as [|x l IH]; intros members H.
  - rewrite app_nil_r. reflexivity.
  - cbn [fold_left group_add].
    assert (E : ltb (fabs (sub x key)) POSITION_TOLERANCE = true).
    { unfold POSITION_TOLERANCE. rewrite dec_real. apply Rltb_true.
      simpl. specialize (H x (or_introl eq_refl)). lra. }
    rewrite E. rewrite IH.
    + rewrite <- app_assoc. reflexivity.
    + intros y Hy. apply H. right. exact Hy.
Qed.

Lemma one_group_mean (s0 s1 : R) (rest : list R) :
  (forall x, In x (s1 :: rest) -> Rabs (x - s0) < 5 / 10) ->
  _find_dominant_spacing (s0 :: s1 :: rest)
  = Some (fold_right Rplus 0 (s0 :: s1 :: rest)
          / INR (List.length (s0 :: s1 :: rest))).
Proof.
  intro H. unfold _find_dominant_spacing. cbv zeta.
  change (fold_left _ (s0 :: s1 :: rest) [])
    with (fold_left
            (fun groups spacing =>
               match group_add spacing groups with
               | Some groups' => groups'
               | None => dict_set spacing [spacing] groups
               end) (s1 :: rest) [(s0, [s0])]).
  rewrite (fold_one_group s0 (s1 :: rest) [s0] H).
  cbn [map snd longest fold_left app].
  change (2 <=? List.length (s0 :: s1 :: rest))%nat with true. cbv iota.
  rewrite py_sum_real. change (@fromZ R real_num) with IZR.
  rewrite <- INR_IZR_INZ. reflexivity.
Qed.

Lemma sum_of_equal (s0 : R) (l : list R) :
  (forall x, In x l -> x = s0) ->
  fold_right Rplus 0 l = INR (List.length l) * s0.
Proof.
  induction l as [|x l IH]; intro Hl.
  - simpl. ring.
  - cbn [fold_right List.length]. rewrite S_INR.
    rewrite (Hl x (or_introl eq_refl)).
    rewrite IH by (intros y Hy; apply Hl; right; exact Hy). ring.
Qed.

(** X12: when all the spacings after the first lie within the tolerance of
    the first, they form one group and the dominant spacing is the mean of
    all the spacings; equal spacings give that spacing back. *)
Theorem common_spacing_is_dominant (s0 s1 : R) (rest : list R) :
  (forall x, In x (s1 :: rest) -> Rabs (x - s0) < 5 / 10) ->
  _find_dominant_spacing (s0 :: s1 :: rest)
  = Some (fold_right Rplus 0 (s0 :: s1 :: rest)
          / INR (List.length (s0 :: s1 :: rest)))
  /\ ((forall x, In x (s1 :: rest) -> x = s0) ->
      _find_dominant_spacing (s0 :: s1 :: rest) = Some s0).
Proof.
  intro H. pose proof (one_group_mean s0 s1 rest H) as E.
  split; [exact E|].
  intro Heq. rewrite E. f_equal.
  rewrite (sum_of_equal s0 (s0 :: s1 :: rest)).
  - field. apply not_0_INR. simpl. lia.
  - intros x [<-|Hx]; [reflexivity|apply Heq; exact Hx].
Qed.
End DominantSpacing.
(** ** Geometry analysis *)

Section GeometryFacts.
Context {F : Type} {N : Num F}.
Local Open Scope num_scope.

(** X13: [detect_undercuts] answers True exactly when some planar face has a
    normal whose z component is below -0.3; faces of other types and the
    empty shape never count. *)
Theorem detect_undercuts_iff (shape : Shape F) :
  detect_undercuts shape = true
  <-> exists normal, In (Plane normal) shape
                     /\ (coord normal 2 <! opp (dec 3 1)) = true.
Proof.
  induction shape as [|face rest IH]; simpl.
  - split; [discriminate|intros [n [[] _]]].
  - destruct face as [normal| | | | |];
      try (rewrite IH; split;
           [intros [n [H1 H2]]; exists n; split; [right; exact H1|exact H2]
           |intros [n [[H1|H1] H2]];
            [discriminate H1|exists n; split; assumption]]).
    destruct (coord normal 2 <! opp (dec 3 1)) eqn:E.
    + split; [|reflexivity]. intros _. exists normal.
      split; [left; reflexivity|exact E].
    + rewrite IH. split.
      * intros [n [H1 H2]]. exists n. split; [right; exact H1|exact H2].
      * intros [n [[H1|H1] H2]].
        -- injection H1 as <-. congruence.
        -- exists n. split; assumption.
Qed.

Lemma count_orientations_grows (shape : Shape F) (acc : Z * Z * Z) :
  let '(t, s, b) := acc in
  let '(t', s', b') := count_orientations shape acc in
  (t <= t' /\ s <= s' /\ b <= b')%Z.
Proof.
  revert acc. induction shape as [|face rest IH]; intros [[t s] b].
  - simpl. lia.
  - destruct face as [normal| | | | |]; simpl; try apply (IH (t, s, b)).
    destruct (dec 9 1 <! fabs (coord normal 2)).
    + destruct (fromZ 0 <! coord normal 2).
      * specialize (IH ((t + 1)%Z, s, b)).
        destruct (count_orientations rest _) as [[t' s'] b']. lia.
      * specialize (IH (t, s, (b + 1)%Z)).
        destruct (count_orientations rest _) as [[t' s'] b']. lia.
    + destruct (fabs (coord normal 2) <! dec 3 1).
      * specialize (IH (t, (s + 1)%Z, b)).
        destruct (count_orientations rest _) as [[t' s'] b']. lia.
      * apply (IH (t, s, b)).
Qed.

Lemma count_surface_types_grows (shape : Shape F) (acc : Z * Z * Z) :
  let '(p, c, x) := acc in
  let '(p', c', x') := count_surface_types shape acc in
  (p <= p' /\ c <= c' /\ x <= x')%Z.
Proof.
  revert acc. induction shape as [|face rest IH]; intros [[p c] x].
  - simpl. lia.
  - destruct face; simpl;
      match goal with
      | |- context [count_surface_types rest ?a] =>
          specialize (IH a); destruct (count_surface_types rest a)
            as [[p' c'] x']; lia
      end.
Qed.
End GeometryFacts.

Section GeometryExact.
Local Open Scope R_scope.

Lemma ratio_in_unit (n d : R) : 0 < d -> 0 <= n <= d -> 0 <= n / d <= 1.
Proof.
  intros Hd [H0 H1]. split.
  - apply Rmult_le_pos; [exact H0|]. left. apply Rinv_0_lt_compat. exact Hd.
  - apply Rmult_le_reg_r with d; [exact Hd|].
    replace (n / d * d) with n by (field; lra). lra.
Qed.

(** X14: the accessibility score lies in [0,1]. *)
Theorem accessibility_score_in_unit_interval (shape : Shape R) :
  0 <= calculate_accessibility_score shape <= 1.
Proof.
  unfold calculate_accessibility_score.
  pose proof (count_orientations_grows shape (0, 0, 0)%Z) as G.
  destruct (count_orientations shape (0, 0, 0)%Z) as [[t s] b].
  simpl in G. destruct G as [Ht [Hs Hb]].
  destruct (0 <? t + s + b)%Z eqn:E; [|simpl; lra].
  apply Z.ltb_lt in E.
  apply IZR_le in Ht, Hs, Hb. apply IZR_lt in E.
  rewrite !plus_IZR in E.
  apply ratio_in_unit.
  - simpl. rewrite !plus_IZR. exact E.
  - rewrite dec_real. simpl. rewrite !plus_IZR. lra.
Qed.

Lemma complexity_score_at_most_7 (shape : Shape R) :
  0 <= calculate_complexity_score shape <= 7.
Proof.
  unfold calculate_complexity_score. cbv zeta.
  pose proof (count_surface_types_grows shape (0, 0, 0)%Z) as G.
  destruct (count_surface_types shape (0, 0, 0)%Z) as [[p c] x].
  simpl in G. destruct G as [Hp [Hc Hx]].
  assert (M : forall s : R, 0 <= s <= 7 -> 0 <= py_min s (fromZ 10) <= 7).
  { intros s Hs. unfold py_min. simpl.
    destruct (Rltb 10 s) eqn:E; [apply Rltb_true in E; lra|exact Hs]. }
  apply M.
  destruct (0 <? p + c + x)%Z eqn:E; [|simpl; lra].
  apply Z.ltb_lt in E.
  apply IZR_le in Hp, Hc, Hx. apply IZR_lt in E.
  assert (Q : 0 <= IZR x / IZR (p + c + x) <= 1).
  { apply ratio_in_unit; [exact E|]. rewrite !plus_IZR. lra. }
  simpl. set (q := IZR x / IZR (p + c + x)) in *.
  destruct (20 <? p + c + x)%Z; [lra|].
  destruct (10 <? p + c + x)%Z; lra.
Qed.

(** X15: the complexity score lies in [0,7], so the cap at 10 never applies,
    and the analysis of a shape never suggests the two strategies reserved
    for a complexity above 7. *)
Theorem complexity_never_above_7
  (thin_wall_message low_draft_message : R -> string)
  (shape : Shape R) (bbox : Bbox R) :
  0 <= calculate_complexity_score shape <= 7
  /\ ~ In "Break into multiple operations with tool changes"
         (suggested_strategies
            (analyze_complete thin_wall_message low_draft_message
               shape bbox))
  /\ ~ In "Use adaptive clearing for efficient roughing"
         (suggested_strategies
            (analyze_complete thin_wall_message low_draft_message
               shape bbox)).
Proof.
  pose proof (complexity_score_at_most_7 shape) as H.
  split; [exact H|].
  assert (E : (fromZ 7 <! calculate_complexity_score shape)%num = false)
    by (apply (proj2 (Rltb_false _ _)); simpl; lra).
  unfold analyze_complete, suggest_strategies.
  cbn [suggested_strategies has_thin_walls has_undercuts complexity_score
       accessibility_score].
  rewrite E.
  split; intro Hin;
    repeat (apply in_app_or in Hin; destruct Hin as [Hin|Hin]);
    repeat match type of Hin with
           | In _ (if ?c then _ else _) => destruct c
           end;
    simpl in Hin; intuition discriminate.
Qed.

(** X16: [analyze_wall_thickness] returns the smallest of the three extents of
    the bounding box, and reports thin walls exactly when one extent is below
    1.5. *)
Theorem wall_thickness_is_smallest_extent
  (xmin ymin zmin xmax ymax zmax : R) :
  let dx := xmax - xmin in
  let dy := ymax - ymin in
  let dz := zmax - zmin in
  let r := analyze_wall_thickness (xmin, ymin, zmin, xmax, ymax, zmax) in
  snd r <= dx /\ snd r <= dy /\ snd r <= dz
  /\ (snd r = dx \/ snd r = dy \/ snd r = dz)
  /\ (fst r = true <-> dx < 15 / 10 \/ dy < 15 / 10 \/ dz < 15 / 10).
Proof.
  cbv zeta. unfold analyze_wall_thickness, py_min_list, THIN_WALL_THRESHOLD.
  cbn [fst snd fold_left]. rewrite dec_real. simpl.
  set (dx := xmax - xmin). set (dy := ymax - ymin). set (dz := zmax - zmin).
  destruct (Rltb dy dx) eqn:E1;
    [apply Rltb_true in E1|apply Rltb_false in E1];
    match goal with
    | |- context [Rltb dz ?m] =>
        destruct (Rltb dz m) eqn:E2;
        [apply Rltb_true in E2|apply Rltb_false in E2]
    end;
    (split; [lra|]); (split; [lra|]); (split; [lra|]);
    (split; [auto|]);
    rewrite Rltb_true; lra.
Qed.
End GeometryExact.
(** ** The advanced recognisers *)

Section AdvancedFacts.
Context {F : Type} {N : Num F}.
Local Open Scope num_scope.

Lemma ids_from_cons (c : Z) (n : nat) :
  ids_from c (S n) = c :: ids_from (c + 1) n.
Proof.
  unfold ids_from. simpl. f_equal; [lia|].
  rewrite <- seq_shift, map_map. apply map_ext. intro k. lia.
Qed.

Lemma ids_from_snoc (c : Z) (n : nat) :
  ids_from c (S n) = ids_from c n ++ [(c + Z.of_nat n)%Z].
Proof. unfold ids_from. rewrite seq_S, map_app. reflexivity. Qed.

Lemma countersinks_ids (shape : Shape F) (c : Z) :
  map adv_feature_id (fst (recognize_countersinks shape c))
  = ids_from c (List.length (fst (recognize_countersinks shape c)))
  /\ snd (recognize_countersinks shape c)
     = (c + Z.of_nat (List.length (fst (recognize_countersinks shape c))))%Z.
Proof.
  revert c. induction shape as [|face rest IH]; intro c.
  - simpl. split; [reflexivity|lia].
  - destruct face; simpl; try apply IH.
    destruct (_ && _).
    + specialize (IH (c + 1)%Z).
      destruct (recognize_countersinks rest (c + 1)) as [l c'].
      cbn [fst snd] in *. destruct IH as [I1 I2]. split.
      * cbn [map List.length]. rewrite ids_from_cons. simpl. f_equal. exact I1.
      * cbn [List.length]. lia.
    + apply IH.
Qed.

Variable thread_label : F -> F -> string.

Lemma threaded_holes_ids (edges : list Curve) (c : Z) :
  map th_feature_id (fst (recognize_threaded_holes thread_label edges c))
  = ids_from c
      (List.length (fst (recognize_threaded_holes thread_label edges c)))
  /\ snd (recognize_threaded_holes thread_label edges c)
     = (c + Z.of_nat (List.length
                        (fst (recognize_threaded_holes thread_label edges c))))%Z.
Proof.
  revert c. induction edges as [|edge rest IH]; intro c.
  - simpl. split; [reflexivity|lia].
  - simpl. destruct (_ || _).
    + specialize (IH (c + 1)%Z).
      destruct (recognize_threaded_holes thread_label rest (c + 1)) as [l c'].
      cbn [fst snd] in *. destruct IH as [I1 I2]. split.
      * cbn [map List.length]. rewrite ids_from_cons. simpl. f_equal. exact I1.
      * cbn [List.length]. lia.
    + apply IH.
Qed.

(** The holes are the helical edges. *)
Lemma threaded_holes_are_helices (edges : list Curve) (c : Z) :
  map th_geometry (fst (recognize_threaded_holes thread_label edges c))
  = map (fun e => [("edge", e)])
        (filter (fun e => match e with Helix => true | _ => false end) edges)
  /\ Forall (fun h => th_diameter h = fromZ 6 /\ th_depth h = fromZ 10
                      /\ th_thread_pitch h = fromZ 1
                      /\ th_thread_type h
                         = _classify_thread thread_label (fromZ 6) (fromZ 1))
            (fst (recognize_threaded_holes thread_label edges c)).
Proof.
  revert c. induction edges as [|edge rest IH]; intro c.
  - simpl. split; [reflexivity|constructor].
  - simpl. unfold _looks_like_thread. rewrite orb_false_r.
    destruct edge; try apply IH.
    specialize (IH (c + 1)%Z).
    destruct (recognize_threaded_holes thread_label rest (c + 1)) as [l c'].
    cbn [fst snd] in *. destruct IH as [I1 I2]. split.
    + simpl. f_equal. exact I1.
    + constructor; [|exact I2]. simpl. repeat split.
Qed.

(** The state invariant of the pair loops: what is appended carries the
    counter, which grows by one. *)
Lemma counterbore_candidate_id (c : Z) (c1 c2 : Face F * F) f :
  counterbore_candidate c c1 c2 = Some f -> cb_feature_id f = c.
Proof.
  destruct c1 as [f1 r1], c2 as [f2 r2]. unfold counterbore_candidate.
  destruct (_ && _); [|discriminate]. intro H. injection H as <-. reflexivity.
Qed.

Lemma first_some_In {A B} (f : A -> option B) (l : list A) r :
  first_some f l = Some r -> exists x, In x l /\ f x = Some r.
Proof.
  induction l as [|x l IH]; simpl; [discriminate|].
  destruct (f x) eqn:E.
  - intro H. injection H as <-. exists x. split; [left; reflexivity|exact E].
  - intro H. destruct (IH H) as [y [Hy Ey]]. exists y.
    split; [right; exact Hy|exact Ey].
Qed.

Lemma counterbores_from_ids (cyls : list (Face F * F))
    (acc : list (Counterbore F)) (c0 c : Z) :
  map cb_feature_id acc = ids_from c0 (List.length acc) ->
  c = (c0 + Z.of_nat (List.length acc))%Z ->
  let r := counterbores_from cyls (acc, c) in
  map cb_feature_id (fst r) = ids_from c0 (List.length (fst r))
  /\ snd r = (c0 + Z.of_nat (List.length (fst r)))%Z.
Proof.
  revert acc c. induction cyls as [|c1 rest IH]; intros acc c H1 H2.
  - simpl. split; assumption.
  - simpl. destruct (first_some (counterbore_candidate c c1) rest) eqn:E.
    + apply IH.
      * rewrite map_app, length_app. simpl. rewrite Nat.add_1_r, ids_from_snoc.
        rewrite H1. f_equal. f_equal.
        destruct (first_some_In _ _ _ E) as [x [_ Hx]].
        rewrite (counterbore_candidate_id _ _ _ _ Hx). exact H2.
      * rewrite length_app. simpl. lia.
    + apply IH; assumption.
Qed.

Lemma t_slot_candidate_id (c : Z) (p1 p2 : Pocket F) t :
  t_slot_candidate c p1 p2 = Some t -> ts_feature_id t = c.
Proof.
  unfold t_slot_candidate.
  destruct (_forms_t_slot_pattern p1 p2); [|discriminate].
  intro H. injection H as <-. reflexivity.
Qed.

Lemma t_slots_from_ids (pockets : list (Pocket F))
    (acc : list (TSlot F)) (c0 c : Z) :
  map ts_feature_id acc = ids_from c0 (List.length acc) ->
  c = (c0 + Z.of_nat (List.length acc))%Z ->
  let r := t_slots_from pockets (acc, c) in
  map ts_feature_id (fst r) = ids_from c0 (List.length (fst r))
  /\ snd r = (c0 + Z.of_nat (List.length (fst r)))%Z.
Proof.
  revert acc c. induction pockets as [|p1 rest IH]; intros acc c H1 H2.
  - simpl. split; assumption.
  - simpl. destruct (first_some (t_slot_candidate c p1) rest) eqn:E.
    + apply IH.
      * rewrite map_app, length_app. simpl. rewrite Nat.add_1_r, ids_from_snoc.
        rewrite H1. f_equal. f_equal.
        destruct (first_some_In _ _ _ E) as [x [_ Hx]].
        rewrite (t_slot_candidate_id _ _ _ _ Hx). exact H2.
      * rewrite length_app. simpl. lia.
    + apply IH; assumption.
Qed.

Lemma boss_of_id (c : Z) (raised base : Face F) b :
  boss_of c raised base = Some b -> boss_feature_id b = c.
Proof.
  unfold boss_of. destruct (face_bbox raised) as [[[[[x0 y0] z0] x1] y1] z1].
  destruct (eqb _ _); [discriminate|].
  intro H. injection H as <-. reflexivity.
Qed.

Lemma bosses_from_ids (raised bases : list (Face F))
    (acc : list (Boss F)) (c0 c : Z) r :
  map boss_feature_id acc = ids_from c0 (List.length acc) ->
  c = (c0 + Z.of_nat (List.length acc))%Z ->
  bosses_from raised bases (acc, c) = Some r ->
  map boss_feature_id (fst r) = ids_from c0 (List.length (fst r))
  /\ snd r = (c0 + Z.of_nat (List.length (fst r)))%Z.
Proof.
  revert acc c. induction raised as [|f rest IH]; intros acc c H1 H2.
  - simpl. intro H. injection H as <-. split; assumption.
  - simpl. destruct (find _ bases) as [base|].
    + destruct (boss_of c f base) as [b|] eqn:E; [|discriminate].
      apply IH.
      * rewrite map_app, length_app. simpl. rewrite Nat.add_1_r, ids_from_snoc.
        rewrite H1. f_equal. f_equal.
        rewrite (boss_of_id _ _ _ _ E). exact H2.
      * rewrite length_app. simpl. lia.
    + apply IH; assumption.
Qed.

(** X17: every recogniser numbers the features it finds consecutively from
    the counter it starts with and leaves the counter after the last id. *)
Theorem recognisers_number_consecutively (c : Z) :
  (forall shape : Shape F,
      let r := recognize_countersinks shape c in
      map adv_feature_id (fst r) = ids_from c (List.length (fst r))
      /\ snd r = (c + Z.of_nat (List.length (fst r)))%Z)
  /\ (forall edges,
         let r := recognize_threaded_holes thread_label edges c in
         map th_feature_id (fst r) = ids_from c (List.length (fst r))
         /\ snd r = (c + Z.of_nat (List.length (fst r)))%Z)
  /\ (forall faces,
         let r := recognize_counterbores faces c in
         map cb_feature_id (fst r) = ids_from c (List.length (fst r))
         /\ snd r = (c + Z.of_nat (List.length (fst r)))%Z)
  /\ (forall faces r,
         recognize_bosses faces c = Some r ->
         map boss_feature_id (fst r) = ids_from c (List.length (fst r))
         /\ snd r = (c + Z.of_nat (List.length (fst r)))%Z)
  /\ (forall pockets,
         let r := recognize_t_slots pockets c in
         map ts_feature_id (fst r) = ids_from c (List.length (fst r))
         /\ snd r = (c + Z.of_nat (List.length (fst r)))%Z).
Proof.
  split; [|split; [|split; [|split]]].
  - intro shape. apply countersinks_ids.
  - intro edges. apply threaded_holes_ids.
  - intro faces. apply (counterbores_from_ids _ [] c c); [reflexivity|simpl; lia].
  - intros faces r H.
    apply (bosses_from_ids (raised_faces faces) (base_faces faces) [] c c r);
      [reflexivity|simpl; lia|exact H].
  - intro pockets. apply (t_slots_from_ids _ [] c c); [reflexivity|simpl; lia].
Qed.

End AdvancedFacts.
Section PairLoops.
Context {F : Type} {N : Num F}.
Local Open Scope num_scope.

Lemma cylindrical_faces_In (faces : list (Face F)) face r :
  In (face, r) (cylindrical_faces faces)
  <-> In face faces /\ face_surface face = Cylinder r.
Proof.
  unfold cylindrical_faces. rewrite in_flat_map. split.
  - intros [x [Hx H]]. destruct (face_surface x) eqn:E; simpl in H;
      try contradiction.
    destruct H as [H|[]]. injection H as <- <-. split; assumption.
  - intros [H1 H2]. exists face. split; [exact H1|]. rewrite H2.
    left. reflexivity.
Qed.

Lemma counterbores_from_In (cyls : list (Face F * F)) acc c f :
  In f (fst (counterbores_from cyls (acc, c))) ->
  In f acc
  \/ exists c' c1 c2,
       In c1 cyls /\ In c2 cyls /\ counterbore_candidate c' c1 c2 = Some f.
Proof.
  revert acc c. induction cyls as [|c1 rest IH]; intros acc c; simpl.
  - intro H. left. exact H.
  - destruct (first_some (counterbore_candidate c c1) rest) eqn:E; intro H.
    + destruct (IH _ _ H) as [H'|[c' [x [y [Hx [Hy Hf]]]]]].
      * apply in_app_or in H'. destruct H' as [H'|[<-|[]]].
        -- left. exact H'.
        -- right. destruct (first_some_In _ _ _ E) as [y [Hy Hf]].
           exists c, c1, y. split; [left; reflexivity|].
           split; [right; exact Hy|exact Hf].
      * right. exists c', x, y. split; [right; exact Hx|].
        split; [right; exact Hy|exact Hf].
    + destruct (IH _ _ H) as [H'|[c' [x [y [Hx [Hy Hf]]]]]].
      * left. exact H'.
      * right. exists c', x, y. split; [right; exact Hx|].
        split; [right; exact Hy|exact Hf].
Qed.

Lemma counterbores_from_length (cyls : list (Face F * F)) acc c :
  List.length (fst (counterbores_from cyls (acc, c)))
  <= List.length acc + Nat.pred (List.length cyls).
Proof.
  revert acc c. induction cyls as [|c1 rest IH]; intros acc c; simpl.
  - lia.
  - destruct rest as [|c2 rest'].
    + simpl. lia.
    + destruct (first_some _ _).
      * etransitivity; [apply IH|]. rewrite length_app. simpl. lia.
      * etransitivity; [apply IH|]. simpl. lia.
Qed.

Lemma t_slots_from_In (pockets : list (Pocket F)) acc c t :
  In t (fst (t_slots_from pockets (acc, c))) ->
  In t acc
  \/ exists c' p1 p2,
       In p1 pockets /\ In p2 pockets /\ t_slot_candidate c' p1 p2 = Some t.
Proof.
  revert acc c. induction pockets as [|p1 rest IH]; intros acc c; simpl.
  - intro H. left. exact H.
  - destruct (first_some (t_slot_candidate c p1) rest) eqn:E; intro H.
    + destruct (IH _ _ H) as [H'|[c' [x [y [Hx [Hy Hf]]]]]].
      * apply in_app_or in H'. destruct H' as [H'|[<-|[]]].
        -- left. exact H'.
        -- right. destruct (first_some_In _ _ _ E) as [y [Hy Hf]].
           exists c, p1, y. split; [left; reflexivity|].
           split; [right; exact Hy|exact Hf].
      * right. exists c', x, y. split; [right; exact Hx|].
        split; [right; exact Hy|exact Hf].
    + destruct (IH _ _ H) as [H'|[c' [x [y [Hx [Hy Hf]]]]]].
      * left. exact H'.
      * right. exists c', x, y. split; [right; exact Hx|].
        split; [right; exact Hy|exact Hf].
Qed.

Lemma t_slots_from_length (pockets : list (Pocket F)) acc c :
  List.length (fst (t_slots_from pockets (acc, c)))
  <= List.length acc + Nat.pred (List.length pockets).
Proof.
  revert acc c. induction pockets as [|p1 rest IH]; intros acc c; simpl.
  - lia.
  - destruct rest as [|p2 rest'].
    + simpl. lia.
    + destruct (first_some _ _).
      * etransitivity; [apply IH|]. rewrite length_app. simpl. lia.
      * etransitivity; [apply IH|]. simpl. lia.
Qed.

(** X18: a pair loop reports at most one feature per first member and none
    for the last one: [n] cylinders give at most [n - 1] counterbores, [n]
    pockets at most [n - 1] T-slots. *)
Theorem pair_recognisers_report_fewer_than_inputs (c : Z) :
  (forall faces : list (Face F),
      List.length (fst (recognize_counterbores faces c))
      <= Nat.pred (List.length (cylindrical_faces faces)))
  /\ (forall pockets : list (Pocket F),
         List.length (fst (recognize_t_slots pockets c))
         <= Nat.pred (List.length pockets)).
Proof.
  split.
  - intro faces. apply (counterbores_from_length _ [] c).
  - intro pockets. apply (t_slots_from_length _ [] c).
Qed.

Lemma bosses_from_inv (P : Boss F -> Prop) (raised bases : list (Face F)) :
  (forall c r b base, In r raised -> In base bases ->
      (face_location_z base +! fromZ 1 <! face_location_z r) = true ->
      boss_of c r base = Some b -> P b) ->
  forall acc c res,
    Forall P acc -> bosses_from raised bases (acc, c) = Some res ->
    Forall P (fst res)
    /\ List.length (fst res) <= List.length acc + List.length raised.
Proof.
  induction raised as [|r rest IH]; intros HP acc c res Hacc; simpl.
  - intro H. injection H as <-. split; [exact Hacc|simpl; lia].
  - destruct (find _ bases) as [base|] eqn:Ef.
    + destruct (boss_of c r base) as [b|] eqn:E; [|discriminate].
      intro H. apply IH in H.
      * destruct H as [H1 H2]. split; [exact H1|].
        rewrite length_app in H2. simpl in H2. lia.
      * intros c' r' b' base' Hr. apply HP. right. exact Hr.
      * apply Forall_app. split; [exact Hacc|]. constructor; [|constructor].
        apply find_some in Ef. destruct Ef as [Hb Hz].
        apply (HP c r b base); [left; reflexivity|exact Hb|exact Hz|exact E].
    + intro H. apply IH in H.
      * destruct H as [H1 H2]. split; [exact H1|lia].
      * intros c' r' b' base' Hr. apply HP. right. exact Hr.
      * exact Hacc.
Qed.

Lemma bosses_from_no_base (raised : list (Face F)) st :
  bosses_from raised [] st = Some st.
Proof.
  induction raised as [|r rest IH]; simpl; [reflexivity|].
  destruct st as [bosses c]. exact IH.
Qed.

(** The features and their ids after one more pattern. *)
Lemma assign_pattern_id_length (all_features : list (Feature F)) ids i p :
  List.length ids = List.length all_features ->
  List.length (assign_pattern_id all_features ids i p)
  = List.length all_features.
Proof.
  intro H. unfold assign_pattern_id. rewrite length_map, length_combine. lia.
Qed.

Lemma assign_pattern_id_nth (all_features : list (Feature F)) ids i p k f :
  List.length ids = List.length all_features ->
  nth_error all_features k = Some f ->
  nth_error (assign_pattern_id all_features ids i p) k
  = Some (if memZ (feature_id f) (feature_ids p) then Some i
          else nth k ids None).
Proof.
  revert ids k. induction all_features as [|g rest IH]; intros ids k HL Hk.
  - destruct k; discriminate.
  - destruct ids as [|o ids]; [discriminate|].
    destruct k as [|k]; simpl in *.
    + injection Hk as ->. reflexivity.
    + apply IH; [lia|exact Hk].
Qed.
End PairLoops.
Section PatternIds.
Context {F : Type} {N : Num F}.

Lemma memZ_In (x : Z) (xs : list Z) : memZ x xs = true <-> In x xs.
Proof.
  unfold memZ. rewrite existsb_exists. split.
  - intros [y [Hy E]]. apply Z.eqb_eq in E. subst. exact Hy.
  - intro H. exists x. split; [exact H|apply Z.eqb_refl].
Qed.

Lemma combine_seq_snoc {A} (l : list A) (x : A) (s : nat) :
  combine (seq s (List.length (l ++ [x]))) (l ++ [x])
  = combine (seq s (List.length l)) l ++ [(s + List.length l, x)].
Proof.
  revert s. induction l as [|y l IH]; intro s; simpl.
  - rewrite Nat.add_0_r. reflexivity.
  - rewrite IH. rewrite Nat.add_succ_r. reflexivity.
Qed.

Lemma enumerate_snoc {A} (l : list A) (x : A) :
  enumerate (l ++ [x]) = enumerate l ++ [(List.length l, x)].
Proof. unfold enumerate. rewrite combine_seq_snoc. reflexivity. Qed.

Lemma assign_pattern_ids_snoc (patterns : list (FeaturePattern F)) p
    (all_features : list (Feature F)) :
  assign_pattern_ids (patterns ++ [p]) all_features
  = assign_pattern_id all_features (assign_pattern_ids patterns all_features)
      (List.length patterns) p.
Proof.
  unfold assign_pattern_ids. rewrite enumerate_snoc, fold_left_app.
  reflexivity.
Qed.

Lemma assign_pattern_ids_length (patterns : list (FeaturePattern F))
    (all_features : list (Feature F)) :
  List.length (assign_pattern_ids patterns all_features)
  = List.length all_features.
Proof.
  induction patterns as [|p ps IH] using rev_ind.
  - unfold assign_pattern_ids. simpl. apply length_map.
  - rewrite assign_pattern_ids_snoc. apply assign_pattern_id_length. exact IH.
Qed.

(** X19: after the loop of [recognize_all_advanced_features] a feature that
    no pattern lists keeps [pattern_id = None]; a feature that several
    patterns list carries the index of the last of them. *)
Theorem pattern_id_is_last_pattern (patterns : list (FeaturePattern F))
    (all_features : list (Feature F)) (k : nat) (f : Feature F) :
  nth_error all_features k = Some f ->
  List.length (assign_pattern_ids patterns all_features)
  = List.length all_features
  /\ match nth k (assign_pattern_ids patterns all_features) None with
     | Some i =>
         exists p, nth_error patterns i = Some p
                   /\ In (feature_id f) (feature_ids p)
                   /\ forall j q, i < j -> nth_error patterns j = Some q ->
                                  ~ In (feature_id f) (feature_ids q)
     | None =>
         forall p, In p patterns -> ~ In (feature_id f) (feature_ids p)
     end.
Proof.
  intro Hk. split; [apply assign_pattern_ids_length|].
  induction patterns as [|p ps IH] using rev_ind.
  - unfold assign_pattern_ids. simpl.
    replace (nth k (map (fun _ => None) all_features) None)
      with (@None nat).
    + intros p [].
    + symmetry. apply nth_error_nth with (d := @None nat).
      rewrite nth_error_map, Hk. reflexivity.
  - rewrite assign_pattern_ids_snoc.
    pose proof (assign_pattern_id_nth all_features
                  (assign_pattern_ids ps all_features) (List.length ps) p k f
                  (assign_pattern_ids_length ps all_features) Hk) as E.
    rewrite (nth_error_nth _ _ None E).
    destruct (memZ (feature_id f) (feature_ids p)) eqn:M.
    + exists p. split; [|split].
      * rewrite nth_error_app2 by lia. rewrite Nat.sub_diag. reflexivity.
      * apply memZ_In. exact M.
      * intros j q Hj Hq. exfalso.
        assert (j < List.length (ps ++ [p])).
        { apply nth_error_Some. congruence. }
        rewrite length_app in H. simpl in H. lia.
    + assert (Hp : ~ In (feature_id f) (feature_ids p)).
      { intro H. apply memZ_In in H. congruence. }
      destruct (nth k (assign_pattern_ids ps all_features) None) as [i|].
      * destruct IH as [q [Hq [Hin Hlast]]]. exists q. split; [|split].
        -- rewrite nth_error_app1; [exact Hq|].
           apply nth_error_Some. congruence.
        -- exact Hin.
        -- intros j q' Hj Hq'.
           destruct (Nat.lt_ge_cases j (List.length ps)) as [L|L].
           ++ rewrite nth_error_app1 in Hq' by exact L.
              apply (Hlast j q' Hj Hq').
           ++ rewrite nth_error_app2 in Hq' by exact L.
              destruct (j - List.length ps) as [|d]; simpl in Hq'.
              ** injection Hq' as <-. exact Hp.
              ** destruct d; discriminate.
      * intros q Hq. apply in_app_or in Hq. destruct Hq as [Hq|[<-|[]]].
        -- apply IH. exact Hq.
        -- exact Hp.
Qed.
End PatternIds.
Section AdvancedExact.
Local Open Scope R_scope.

Lemma py_max2_real (a b : R) : py_max2 a b = Rmax a b.
Proof.
  unfold py_max2, Rmax. simpl. unfold Rltb.
  destruct (Rlt_dec a b), (Rle_dec a b); try reflexivity; lra.
Qed.

Lemma py_min_real (a b : R) : py_min a b = Rmin a b.
Proof.
  unfold py_min, Rmin. simpl. unfold Rltb.
  destruct (Rlt_dec b a), (Rle_dec a b); try reflexivity; lra.
Qed.

Lemma Rabs_lt_half (x y : R) : Rabs (x - y) < 1 / 2 -> y - 1 / 2 < x < y + 1 / 2.
Proof. intro H. apply Rabs_def2 in H. lra. Qed.

Lemma Rabs_far (x y t : R) : x <= y - t \/ y + t <= x -> t <= Rabs (x - y).
Proof. intro H. unfold Rabs. destruct (Rcase_abs (x - y)); lra. Qed.

Lemma thread_matches_real (d p d0 p0 : R) (name : string) :
  thread_matches d p ((d0, p0), name) = true
  <-> Rabs (d - d0) < 5 / 10 /\ Rabs (p - p0) < 2 / 10.
Proof.
  unfold thread_matches. cbn [fst snd]. rewrite andb_true_iff.
  rewrite !dec_real. simpl. rewrite !Rltb_true.
  replace (5 / (10 * 1)) with (5 / 10) by field.
  replace (2 / (10 * 1)) with (2 / 10) by field.
  reflexivity.
Qed.

Lemma thread_far (d p d0 p0 : R) (name : string) :
  d <= d0 - 1 / 2 \/ d0 + 1 / 2 <= d ->
  thread_matches d p ((d0, p0), name) = false.
Proof.
  intro H. apply not_true_is_false. intro M.
  apply thread_matches_real in M. destruct M as [M _].
  pose proof (Rabs_far d d0 (1 / 2) H). lra.
Qed.

Lemma thread_entries_exclusive (d p d0 p0 d1 p1 : R) (name name1 : string) :
  In ((d0, p0), name) thread_specs ->
  Rabs (d - d0) < 1 / 2 ->
  In ((d1, p1), name1) thread_specs ->
  thread_matches d p ((d1, p1), name1) = true ->
  (d1, p1, name1) = (d0, p0, name).
Proof.
  intros Hin Hd Hin1 M1.
  apply Rabs_lt_half in Hd.
  apply thread_matches_real in M1. destruct M1 as [M1 _].
  replace (5 / 10) with (1 / 2) in M1 by field.
  apply Rabs_lt_half in M1.
  unfold thread_specs in Hin, Hin1. simpl in Hin, Hin1.
  repeat (destruct Hin as [Hin|Hin]; [injection Hin as <- <- <-|]);
    try contradiction;
    repeat (destruct Hin1 as [Hin1|Hin1]; [injection Hin1 as <- <- <-|]);
    try contradiction; try reflexivity; exfalso; lra.
Qed.

Lemma classify_thread_entry (thread_label : R -> R -> string)
    (d p d0 p0 : R) (name : string) :
  In ((d0, p0), name) thread_specs ->
  Rabs (d - d0) < 1 / 2 -> Rabs (p - p0) < 2 / 10 ->
  _classify_thread thread_label d p = name.
Proof.
  intros Hin Hd Hp.
  assert (M : thread_matches d p ((d0, p0), name) = true).
  { apply thread_matches_real. split; lra. }
  unfold _classify_thread.
  destruct (find (thread_matches d p) thread_specs) as [[[d1 p1] name1]|] eqn:E.
  - apply find_some in E. destruct E as [E1 E2].
    pose proof (thread_entries_exclusive d p d0 p0 d1 p1 name name1
                  Hin Hd E1 E2) as U.
    injection U as _ _ ->. reflexivity.
  - exfalso. apply (find_none _ _ E) in Hin. congruence.
Qed.

(** X20: the entries of the thread table exclude one another, so a diameter
    within 0.5 and a pitch within 0.2 of an entry give that entry's name,
    whatever the order of the table. *)
Theorem classify_thread_table (thread_label : R -> R -> string)
    (d p d0 p0 : R) (name : string) :
  In ((d0, p0), name) thread_specs ->
  Rabs (d - d0) < 1 / 2 -> Rabs (p - p0) < 2 / 10 ->
  _classify_thread thread_label d p = name
  /\ forall d1 p1 name1,
       In ((d1, p1), name1) thread_specs ->
       thread_matches d p ((d1, p1), name1) = true ->
       (d1, p1, name1) = (d0, p0, name).
Proof.
  intros Hin Hd Hp. split.
  - apply (classify_thread_entry thread_label d p d0 p0 name Hin Hd Hp).
  - intros d1 p1 name1 Hin1 M1.
    apply (thread_entries_exclusive d p d0 p0 d1 p1 name name1 Hin Hd Hin1 M1).
Qed.

(** X21: every threaded hole is reported with diameter 6, pitch 1 and the
    type M6x1.0, one per helical edge, in binary64 and over the reals. *)
Theorem threaded_holes_are_always_M6 :
  (forall (thread_label : PrimFloat.float -> PrimFloat.float -> string)
          (edges : list Curve) (c : Z),
      let holes := fst (recognize_threaded_holes thread_label edges c) in
      map th_geometry holes
      = map (fun e => [("edge", e)])
            (filter (fun e => match e with Helix => true | _ => false end)
                    edges)
      /\ Forall (fun h => th_diameter h = fromZ 6
                          /\ th_thread_pitch h = fromZ 1
                          /\ th_thread_type h = "M6x1.0"%string) holes)
  /\ (forall (thread_label : R -> R -> string)
             (edges : list Curve) (c : Z),
         Forall (fun h => th_diameter h = 6 /\ th_thread_pitch h = 1
                          /\ th_thread_type h = "M6x1.0"%string)
                (fst (recognize_threaded_holes thread_label edges c))).
Proof.
  split.
  - intros label edges c.
    destruct (threaded_holes_are_helices label edges c) as [H1 H2].
    split; [exact H1|].
    eapply Forall_impl; [|exact H2]. cbv beta.
    intros h [Hd [_ [Hp Ht]]]. split; [exact Hd|split; [exact Hp|]].
    rewrite Ht. vm_compute. reflexivity.
  - intros label edges c.
    destruct (threaded_holes_are_helices label edges c) as [_ H2].
    eapply Forall_impl; [|exact H2]. cbv beta.
    intros h [Hd [_ [Hp Ht]]]. split; [exact Hd|split; [exact Hp|]].
    rewrite Ht.
    apply (classify_thread_entry label 6 1 6 1 "M6x1.0").
    + unfold thread_specs. simpl. tauto.
    + replace (6 - 6) with 0 by ring. rewrite Rabs_R0. lra.
    + replace (1 - 1) with 0 by ring. rewrite Rabs_R0. lra.
Qed.

Lemma coaxial_real (f1 f2 : Face R) :
  _are_coaxial f1 f2 = true
  <-> 99 / 100
      < Rabs (coord (face_axis f1) 0 * coord (face_axis f2) 0
              + coord (face_axis f1) 1 * coord (face_axis f2) 1
              + coord (face_axis f1) 2 * coord (face_axis f2) 2).
Proof.
  unfold _are_coaxial. cbv zeta. rewrite dec_real. simpl. rewrite Rltb_true.
  replace (99 / (10 * (10 * 1))) with (99 / 100) by field. reflexivity.
Qed.

(** X22: a counterbore pairs two cylindrical faces of the shape whose axes
    are within the parallelism tolerance and whose radii differ by more than
    0.5; its hole diameter is twice the smaller radius, its shoulder
    diameter twice the larger one, so the shoulder is more than 1 wider than
    the hole. *)
Theorem counterbore_shoulder_is_wider (faces : list (Face R)) (c : Z)
    (f : Counterbore R) :
  In f (fst (recognize_counterbores faces c)) ->
  exists face1 face2 r1 r2,
    In face1 faces /\ In face2 faces
    /\ face_surface face1 = Cylinder r1 /\ face_surface face2 = Cylinder r2
    /\ _are_coaxial face1 face2 = true
    /\ cb_geometry f = [("face1"%string, face1); ("face2"%string, face2)]
    /\ cb_diameter f = 2 * Rmin r1 r2
    /\ cb_shoulder_diameter f = 2 * Rmax r1 r2
    /\ cb_diameter f + 1 < cb_shoulder_diameter f.
Proof.
  intro H. apply counterbores_from_In in H.
  destruct H as [[]|[c' [[f1 r1] [[f2 r2] [H1 [H2 Hc]]]]]].
  apply cylindrical_faces_In in H1, H2.
  destruct H1 as [H1 S1], H2 as [H2 S2].
  unfold counterbore_candidate in Hc.
  destruct (_ && _) eqn:E in Hc; [|discriminate].
  apply andb_true_iff in E. destruct E as [Co L].
  injection Hc as <-. cbn [cb_geometry cb_diameter cb_shoulder_diameter].
  rewrite dec_real in L. simpl in L. apply Rltb_true in L.
  exists f1, f2, r1, r2. rewrite py_max2_real, py_min_real. simpl.
  repeat split; try assumption; try reflexivity.
  unfold Rmin, Rmax. unfold Rabs in L.
  destruct (Rcase_abs (r1 - r2)), (Rle_dec r1 r2); lra.
Qed.

Lemma forms_t_slot_real (p1 p2 : Pocket R) :
  _forms_t_slot_pattern p1 p2 = true ->
  0 < pocket_width p1 /\ 0 < pocket_width p2
  /\ 15 / 10 * Rmin (pocket_width p1) (pocket_width p2)
     < Rmax (pocket_width p1) (pocket_width p2)
     < 3 * Rmin (pocket_width p1) (pocket_width p2).
Proof.
  change (_forms_t_slot_pattern p1 p2)
    with (if Rltb 0 (pocket_width p1) && Rltb 0 (pocket_width p2)
          then Rltb (dec 15 1)
                    (py_max2 (pocket_width p1) (pocket_width p2)
                     / py_min (pocket_width p1) (pocket_width p2))
               && Rltb (py_max2 (pocket_width p1) (pocket_width p2)
                        / py_min (pocket_width p1) (pocket_width p2)) 3
          else false).
  rewrite py_max2_real, py_min_real, dec_real.
  destruct (Rltb 0 (pocket_width p1)) eqn:W1; [|discriminate].
  destruct (Rltb 0 (pocket_width p2)) eqn:W2; [|discriminate].
  apply Rltb_true in W1, W2. cbn [andb]. intro E.
  apply andb_true_iff in E. destruct E as [E1 E2].
  apply Rltb_true in E1, E2. simpl in E1.
  assert (P : 0 < Rmin (pocket_width p1) (pocket_width p2)).
  { unfold Rmin. destruct (Rle_dec _ _); assumption. }
  split; [exact W1|]. split; [exact W2|].
  set (m := Rmin (pocket_width p1) (pocket_width p2)) in *.
  set (M := Rmax (pocket_width p1) (pocket_width p2)) in *.
  assert (Q : M = M / m * m) by (field; lra).
  split.
  - rewrite Q. apply Rmult_lt_compat_r; [exact P|]. lra.
  - rewrite Q. apply Rmult_lt_compat_r; [exact P|]. exact E2.
Qed.

(** X23: a T-slot pairs two pockets of positive width; its slot width is the
    smaller and its head width the larger of the two, with
    1.5 < head/slot < 3, and its depth is the larger of the two depths. *)
Theorem t_slot_head_is_wider (pockets : list (Pocket R)) (c : Z)
    (t : TSlot R) :
  In t (fst (recognize_t_slots pockets c)) ->
  exists p1 p2,
    In p1 pockets /\ In p2 pockets
    /\ ts_slot_width t = Rmin (pocket_width p1) (pocket_width p2)
    /\ ts_head_width t = Rmax (pocket_width p1) (pocket_width p2)
    /\ ts_width t = ts_slot_width t
    /\ ts_slot_depth t = Rmax (pocket_depth p1) (pocket_depth p2)
    /\ 0 < ts_slot_width t
    /\ 15 / 10 * ts_slot_width t < ts_head_width t < 3 * ts_slot_width t.
Proof.
  intro H. apply t_slots_from_In in H.
  destruct H as [[]|[c' [p1 [p2 [H1 [H2 Hc]]]]]].
  unfold t_slot_candidate in Hc.
  destruct (_forms_t_slot_pattern p1 p2) eqn:E; [|discriminate].
  injection Hc as <-.
  cbn [ts_slot_width ts_head_width ts_width ts_slot_depth].
  rewrite !py_max2_real, !py_min_real.
  apply forms_t_slot_real in E. destruct E as [W1 [W2 [E1 E2]]].
  exists p1, p2. repeat split; try assumption.
  unfold Rmin. destruct (Rle_dec _ _); assumption.
Qed.

Lemma boss_of_defined (c : Z) (raised base : Face R) :
  (let '(xmin, ymin, zmin, xmax, ymax, zmax) := face_bbox raised in
   xmin <= xmax /\ ymin <= ymax) ->
  exists b, boss_of c raised base = Some b.
Proof.
  unfold boss_of.
  destruct (face_bbox raised) as [[[[[x0 y0] z0] x1] y1] z1]. intros [Hx Hy].
  cbv zeta. rewrite py_min_real, dec_real.
  assert (E : eqb (add (Rmin (sub x1 x0) (sub y1 y0))
                       (IZR 1 / IZR (10 ^ Z.of_nat 3))) (fromZ 0) = false).
  { apply Reqb_false. simpl. unfold Rmin. destruct (Rle_dec _ _); lra. }
  rewrite E. eexists. reflexivity.
Qed.

Lemma bosses_from_defined (raised bases : list (Face R)) st :
  (forall face, In face raised ->
     let '(xmin, ymin, zmin, xmax, ymax, zmax) := face_bbox face in
     xmin <= xmax /\ ymin <= ymax) ->
  exists res, bosses_from raised bases st = Some res.
Proof.
  revert st. induction raised as [|r rest IH]; intros [acc c] H; simpl.
  - eexists. reflexivity.
  - destruct (find _ bases) as [base|].
    + destruct (boss_of_defined c r base (H r (or_introl eq_refl))) as [b ->].
      apply IH. intros face Hf. apply H. right. exact Hf.
    + apply IH. intros face Hf. apply H. right. exact Hf.
Qed.

Lemma raised_boxes_real (faces : list (Face R)) :
  raised_boxes_ok faces ->
  forall face, In face (raised_faces faces) ->
    let '(xmin, ymin, zmin, xmax, ymax, zmax) := face_bbox face in
    xmin <= xmax /\ ymin <= ymax.
Proof.
  intros H face Hf. specialize (H face Hf).
  destruct (face_bbox face) as [[[[[x0 y0] z0] x1] y1] z1].
  destruct H as [Hx Hy]. simpl in Hx, Hy.
  apply Rltb_false in Hx, Hy. split; assumption.
Qed.

(** X24: when the bounding boxes of the small planar faces are boxes, the
    division of line 295 never meets a zero divisor and [recognize_bosses]
    returns; every boss stands more than 1 above a base face of area above
    1000, has a top face of area at most 1000 and non-negative width and
    length, and there is at most one boss per small planar face. *)
Theorem bosses_are_raised (faces : list (Face R)) (c : Z) :
  raised_boxes_ok faces ->
  exists bosses c',
    recognize_bosses faces c = Some (bosses, c')
    /\ (List.length bosses <= List.length (raised_faces faces))%nat
    /\ Forall (fun b => 1 < boss_height b /\ boss_area b <= 1000
                        /\ 0 <= boss_width b /\ 0 <= boss_length b
                        /\ (boss_feature_type b = "Circular Boss"%string
                            \/ boss_feature_type b = "Rectangular Boss"%string))
              bosses.
Proof.
  intro Hok'. pose proof (raised_boxes_real faces Hok') as Hok.
  unfold recognize_bosses.
  destruct (bosses_from_defined (raised_faces faces) (base_faces faces)
              ([], c) Hok) as [[bosses c'] E].
  exists bosses, c'. split; [exact E|].
  assert (HP : forall (c0 : Z) (r : Face R) (b : Boss R) (base : Face R),
             In r (raised_faces faces) -> In base (base_faces faces) ->
             ltb (add (face_location_z base) (fromZ 1)) (face_location_z r)
             = true ->
             boss_of c0 r base = Some b ->
             1 < boss_height b /\ boss_area b <= 1000
             /\ 0 <= boss_width b /\ 0 <= boss_length b
             /\ (boss_feature_type b = "Circular Boss"%string
                 \/ boss_feature_type b = "Rectangular Boss"%string)).
  { intros c0 r b base Hr Hb Hz Hbo.
    pose proof (Hok r Hr) as Hbox.
    unfold raised_faces in Hr. apply filter_In in Hr.
    destruct Hr as [_ Hr]. apply andb_true_iff in Hr.
    destruct Hr as [_ Ha]. apply negb_true_iff in Ha.
    simpl in Ha. apply Rltb_false in Ha.
    simpl in Hz. apply Rltb_true in Hz.
    unfold boss_of in Hbo.
    destruct (face_bbox r) as [[[[[x0 y0] z0] x1] y1] z1].
    destruct Hbox as [Hx Hy]. cbv zeta in Hbo.
    destruct (eqb _ _); [discriminate|].
    injection Hbo as <-.
    cbn [boss_height boss_area boss_width boss_length boss_feature_type].
    split; [simpl; lra|]. split; [exact Ha|].
    split; [simpl; lra|]. split; [simpl; lra|].
    match goal with
    | |- context [if ?t then _ else _] => destruct t
    end; [left|right]; reflexivity. }
  destruct (bosses_from_inv _ (raised_faces faces) (base_faces faces) HP
              [] c (bosses, c') (Forall_nil _) E) as [I1 I2].
  split; [simpl in I2; exact I2|exact I1].
Qed.
End AdvancedExact.
Section ClassifierExact.
Local Open Scope R_scope.

Lemma memberships_facts (ar : R) :
  0 <= hole_membership ar <= 1 /\ 0 <= pocket_membership ar <= 1
  /\ (hole_membership ar = 0 \/ pocket_membership ar = 0)
  /\ (0 < pocket_membership ar <-> ar < 1)
  /\ (0 < hole_membership ar <-> 1 < ar).
Proof.
  unfold hole_membership, pocket_membership. rewrite !dec_real.
  change (@ltb R real_num) with Rltb.
  repeat match goal with
         | |- context [Rltb ?a ?b] =>
             let E := fresh "E" in
             destruct (Rltb a b) eqn:E;
             [apply Rltb_true in E|apply Rltb_false in E]
         end;
    simpl in *;
    repeat match goal with
           | |- _ /\ _ => split
           | |- _ <-> _ => split
           | |- _ -> _ => intro
           end; try lra; try (left; lra); try (right; lra).
Qed.

Lemma fuzzy_shape (p : list (string * PropVal R)) (r : ClassificationResult R) :
  fuzzy_classify p = Some r ->
  exists ar, aspect_ratio p = Some ar
    /\ let h := hole_membership ar in
       let k := pocket_membership ar in
       primary_classification r
       = (if Rltb h k then "pocket"%string else "hole"%string)
       /\ cr_confidence r = (if Rltb h k then k else h)
       /\ alternative_classifications r
          = rev (sort_by (fun kv : string * R => snd kv)
                   (rev (filter
                           (fun kv : string * R =>
                              Rltb (dec 3 1) (snd kv)
                              && negb (String.eqb (fst kv)
                                         (if Rltb h k then "pocket"%string
                                          else "hole"%string)))
                           [("hole"%string, h); ("pocket"%string, k)]))).
Proof.
  unfold fuzzy_classify. destruct (aspect_ratio p) as [ar|]; [|discriminate].
  intro H. injection H as <-. exists ar. split; [reflexivity|].
  cbv zeta. unfold memberships, max_by_value. cbn [fold_left snd fst].
  change (@ltb R real_num) with Rltb.
  destruct (Rltb (hole_membership ar) (pocket_membership ar));
    cbn [primary_classification cr_confidence alternative_classifications
         fst snd]; repeat split; reflexivity.
Qed.

(** X25: [fuzzy_classify] never offers an alternative classification: the
    membership that is not the primary one is 0.  Its confidence lies in
    [0,1]; the primary classification is "pocket" exactly for an aspect
    ratio below 1 and "hole" otherwise, with confidence 0 at ratio 1. *)
Theorem fuzzy_classify_has_no_alternative (p : list (string * PropVal R))
    (r : ClassificationResult R) :
  fuzzy_classify p = Some r ->
  alternative_classifications r = []
  /\ 0 <= cr_confidence r <= 1
  /\ exists ar, aspect_ratio p = Some ar
       /\ (ar < 1 -> primary_classification r = "pocket"%string)
       /\ (1 <= ar -> primary_classification r = "hole"%string)
       /\ (ar = 1 -> cr_confidence r = 0).
Proof.
  intro H. destruct (fuzzy_shape p r H) as [ar [Ha [H1 [H2 H3]]]].
  cbv zeta in H1, H2, H3.
  destruct (memberships_facts ar) as [Fh [Fk [Fz [Fp Fq]]]].
  rewrite H1, H2, H3. clear H1 H2 H3.
  cbn [filter fst snd]. rewrite dec_real.
  set (h := hole_membership ar) in *. set (k := pocket_membership ar) in *.
  destruct (Rltb h k) eqn:E.
  - apply Rltb_true in E.
    assert (Hh : h = 0) by (destruct Fz; lra).
    assert (L : Rltb (IZR 3 / IZR (10 ^ Z.of_nat 1)) h = false).
    { apply Rltb_false. rewrite Hh. simpl. lra. }
    rewrite L. cbn [andb String.eqb Ascii.eqb Bool.eqb negb].
    rewrite andb_false_r. cbn [rev sort_by fold_left].
    split; [reflexivity|]. split; [lra|].
    exists ar. split; [exact Ha|]. repeat split; try reflexivity.
    + intro. exfalso. lra.
    + intro. exfalso. lra.
  - apply Rltb_false in E.
    assert (Hk : k = 0).
    { destruct Fz as [Z|Z]; [|exact Z]. lra. }
    assert (L : Rltb (IZR 3 / IZR (10 ^ Z.of_nat 1)) k = false).
    { apply Rltb_false. rewrite Hk. simpl. lra. }
    rewrite L. cbn [andb String.eqb Ascii.eqb Bool.eqb negb].
    rewrite andb_false_r. cbn [rev sort_by fold_left].
    split; [reflexivity|]. split; [lra|].
    exists ar. split; [exact Ha|]. repeat split; try reflexivity.
    + intro. exfalso. lra.
    + intro. subst ar. assert (~ 0 < h) by (intro Q; apply Fq in Q; lra). lra.
Qed.
End ClassifierExact.
Section ScoringFloat.

Local Open Scope num_scope.

(** X26: the machinability score lies between 1 and 9, so the cap at 10
    never applies; it is 1 exactly when no factor is reported, and the
    label is "Easy" then; at most five factors are reported (binary64). *)
Theorem machinability_score_between_1_and_9
    (feature : AnyFeature PrimFloat.float) (material_hardness : string) :
  let r := score_feature feature material_hardness in
  (ms_score r <! fromZ 1) = false /\ (fromZ 9 <! ms_score r) = false
  /\ (ms_factors r = [] <-> ms_score r = fromZ 1)
  /\ (ms_factors r = [] -> ms_difficulty r = "Easy"%string)
  /\ (List.length (ms_factors r) <= 5)%nat.
Proof.
  unfold score_feature.
  generalize (match any_depth feature, any_diameter feature with
              | Some depth, Some diameter => diameter *! fromZ 3 <! depth
              | _, _ => false
              end).
  generalize (match any_diameter feature with
              | Some diameter => diameter <! fromZ 3
              | None => false
              end).
  generalize (str_in "HRC" material_hardness
              || str_in "hard" (lower material_hardness)).
  generalize (match any_tolerance feature with
              | Some tolerance => String.eqb tolerance "Precision"
              | None => false
              end).
  generalize (match any_accessibility feature with
              | Some accessibility =>
                  String.eqb accessibility "Bottom"
                  || String.eqb accessibility "Multi-axis"
              | None => false
              end).
  intros [|] [|] [|] [|] [|]; vm_compute;
    (split; [reflexivity|]); (split; [reflexivity|]);
    (split; [split; intro H; (discriminate H || reflexivity)|]);
    (split; [intro H; (discriminate H || reflexivity)|]);
    repeat constructor.
Qed.
End ScoringFloat.
Section DecisionFloat.

Local Open Scope num_scope.

(** X27: with no weight given every criterion weighs 0.33, and a feature is
    accepted exactly when at least two of its criteria score 1.0; a
    half-scored size never tips the decision (binary64). *)
Theorem default_weights_accept_two_full_criteria
    (feature : AnyFeature PrimFloat.float) :
  let r := multi_criteria_decision feature [] in
  (decision r = "accept"%string
   <-> (2 <= List.length (filter (fun cs => eqb (snd cs) (fromZ 1))
                                 (dec_criteria_scores r)))%nat)
  /\ (decision r <> "accept"%string -> decision r = "uncertain"%string).
Proof.
  unfold multi_criteria_decision, criteria_scores.
  destruct (any_diameter feature) as [diameter|];
    destruct (any_depth feature) as [depth|];
    destruct (any_width feature) as [width|];
    destruct (any_area feature) as [area|];
    try destruct (fromZ 0 <! diameter);
    try destruct (width <! depth);
    try destruct (fromZ 1000 <! area);
    try destruct (fromZ 100 <! area);
    vm_compute;
    (split; [split; intro H; (discriminate H || reflexivity || lia
                              || (repeat constructor))
            |intro H; (reflexivity || (exfalso; apply H; reflexivity))]).
Qed.
End DecisionFloat.
(** ** Runs *)

(** A run of X1. *)
Lemma patterns_reference_features_of_one_type_witness :
  exists t,
    incl (feature_ids scenario_D_mirror)
         (map (@feature_id _) (features_of_type t scenario_D))
    /\ incl (feature_ids scenario_D_mirror)
            (map (@feature_id _) scenario_D).
Proof.
  apply (patterns_reference_features_of_one_type scenario_D
           scenario_D_mirror).
  vm_compute. right. left. reflexivity.
Defined.

(** A run of X2. *)
Lemma patterns_have_two_members_witness :
  pattern_count scenario_D_linear
  = List.length (feature_ids scenario_D_linear)
  /\ 2 <= List.length (feature_ids scenario_D_linear).
Proof.
  apply (patterns_have_two_members scenario_D scenario_D_linear).
  vm_compute. left. reflexivity.
Defined.

(** A run of X3. *)
Lemma pattern_types_and_fixed_confidences_witness :
  pattern_type square_grid_pattern = LINEAR
  \/ (pattern_type square_grid_pattern = CIRCULAR
      /\ confidence square_grid_pattern = dec 9 1)
  \/ (pattern_type square_grid_pattern = GRID
      /\ confidence square_grid_pattern = dec 8 1)
  \/ (pattern_type square_grid_pattern = MIRROR
      /\ confidence square_grid_pattern = dec 85 2).
Proof.
  apply (pattern_types_and_fixed_confidences square_grid
           square_grid_pattern).
  vm_compute. do 3 right. left. reflexivity.
Defined.

(** A run of X4. *)
Lemma no_shared_type_no_pattern_witness :
  recognize_all_patterns
    [hole_at 1 (fpt 0 0 0); bare 2 "Circular Boss"] = [].
Proof.
  apply (no_shared_type_no_pattern
           [hole_at 1 (fpt 0 0 0); bare 2 "Circular Boss"]).
  simpl. constructor; [intros [H|[]]; discriminate H|].
  constructor; [intros []|constructor].
Defined.

(** A run of X5. *)
Lemma grid_pattern_lists_whole_group_witness :
  exists t,
    feature_ids square_grid_pattern
    = map (@feature_id _) (features_of_type t square_grid)
    /\ 4 <= List.length (features_of_type t square_grid).
Proof.
  apply (grid_pattern_lists_whole_group square_grid square_grid_pattern).
  - vm_compute. do 3 right. left. reflexivity.
  - reflexivity.
Defined.

(** A run of X6. *)
Lemma mirror_pattern_pairs_witness :
  (exists k, 1 <= k /\ List.length (feature_ids scenario_D_mirror) = 2 * k)
  /\ (NoDup (map (@feature_id _) scenario_D)
      -> NoDup (feature_ids scenario_D_mirror)).
Proof.
  apply (mirror_pattern_pairs scenario_D scenario_D_mirror).
  - vm_compute. right. left. reflexivity.
  - reflexivity.
Defined.

(** A run of X19. *)
Lemma pattern_id_is_last_pattern_witness :
  List.length (assign_pattern_ids (recognize_all_patterns scenario_D)
                 scenario_D)
  = List.length scenario_D
  /\ match nth 0 (assign_pattern_ids (recognize_all_patterns scenario_D)
                    scenario_D) None with
     | Some i =>
         exists p, nth_error (recognize_all_patterns scenario_D) i = Some p
                   /\ In (feature_id (hole_at 1 (fpt 10 5 0)))
                         (feature_ids p)
                   /\ forall j q, i < j ->
                        nth_error (recognize_all_patterns scenario_D) j
                        = Some q ->
                        ~ In (feature_id (hole_at 1 (fpt 10 5 0)))
                             (feature_ids q)
     | None =>
         forall p, In p (recognize_all_patterns scenario_D) ->
                   ~ In (feature_id (hole_at 1 (fpt 10 5 0))) (feature_ids p)
     end.
Proof.
  apply (pattern_id_is_last_pattern (recognize_all_patterns scenario_D)
           scenario_D 0 (hole_at 1 (fpt 10 5 0))).
  reflexivity.
Defined.

(** A run of X13. *)
Lemma detect_undercuts_iff_witness :
  detect_undercuts [Cylinder (float_of_Z 3); Plane (fpt 0 0 (-1))] = true.
Proof.
  apply (proj2 (detect_undercuts_iff
                  [Cylinder (float_of_Z 3); Plane (fpt 0 0 (-1))])).
  exists (fpt 0 0 (-1)). split.
  - right. left. reflexivity.
  - vm_compute. reflexivity.
Defined.

(** A run of X17. *)
Lemma recognisers_number_consecutively_witness :
  match recognize_bosses
          [horizontal_plane_f 0 2000; horizontal_plane_f 5 100;
           horizontal_plane_f 8 50] 7 with
  | Some r =>
      map boss_feature_id (fst r) = ids_from 7 (List.length (fst r))
      /\ snd r = 9%Z
  | None => False
  end.
Proof.
  destruct (recognize_bosses
              [horizontal_plane_f 0 2000; horizontal_plane_f 5 100;
               horizontal_plane_f 8 50] 7) as [r|] eqn:E.
  - destruct (proj1 (proj2 (proj2 (proj2
                (recognisers_number_consecutively
                   (fun _ _ : PrimFloat.float => EmptyString) 7)))) _ r E)
      as [H1 H2].
    split; [exact H1|].
    vm_compute in E. injection E as <-. reflexivity.
  - vm_compute in E. discriminate E.
Defined.

(** A run of X26. *)
Lemma machinability_score_between_1_and_9_witness :
  let r := score_feature deep_precision_hole "HRC 45" in
  (ms_score r <! fromZ 1)%num = false /\ (fromZ 9 <! ms_score r)%num = false
  /\ (ms_factors r = [] <-> ms_score r = fromZ 1)
  /\ (ms_factors r = [] -> ms_difficulty r = "Easy"%string)
  /\ (List.length (ms_factors r) <= 5)%nat.
Proof.
  exact (machinability_score_between_1_and_9 deep_precision_hole "HRC 45").
Defined.

(** A run of X27. *)
Lemma default_weights_accept_two_full_criteria_witness :
  decision (multi_criteria_decision deep_precision_hole []) = "accept"%string.
Proof.
  apply (proj1 (default_weights_accept_two_full_criteria
                  deep_precision_hole)).
  vm_compute. repeat constructor.
Defined.
Section RunsExact.
Local Open Scope R_scope.

Lemma Rabs_small (x t : R) : - t < x < t -> Rabs x < t.
Proof. intro H. apply Rabs_def1; lra. Qed.

(** A run of X7. *)
Lemma circle_center_is_equidistant_witness :
  planar_dist2 (1, 0, 0) (0, 0, 0) = planar_dist2 (0, 1, 0) (0, 0, 0)
  /\ planar_dist2 (0, 1, 0) (0, 0, 0) = planar_dist2 (-1, 0, 0) (0, 0, 0).
Proof.
  assert (H : _calculate_circle_center_3d (1, 0, 0) (0, 1, 0) (-1, 0, 0)
              = Some (0, 0, (0 + 0 + 0) / 3)).
  { apply (circle_center_of_three 0 0 1); simpl; try ring.
    replace (2 * (1 * (1 - 0) + 0 * (0 - 0) + -1 * (0 - 1))) with 4 by ring.
    rewrite Rabs_right; lra. }
  replace ((0 + 0 + 0) / 3) with 0 in H by field.
  destruct (circle_center_is_equidistant _ _ _ _ H) as [H1 [H2 _]].
  split; assumption.
Defined.

(** A run of X8. *)
Lemma points_of_the_line_are_on_it_witness :
  _is_on_line (1, 2, 3) (0, 0, 1) 10 (point_on_line (1, 2, 3) (0, 0, 1) 7)
  = true
  /\ _distance_along_line (1, 2, 3) (0, 0, 1)
       (point_on_line (1, 2, 3) (0, 0, 1) 7) = 7.
Proof.
  apply (points_of_the_line_are_on_it (1, 2, 3) (0, 0, 1) 10 7).
  simpl. ring.
Defined.

(** A run of X9. *)
Lemma mirrored_pair_is_reported_witness :
  In (mirror_pair_pattern (hole_at 1 (10, 5, 0)) (hole_at 2 (- (10), 5, 0))
        "YZ")
     (detect_mirror_patterns
        [hole_at 1 (10, 5, 0); hole_at 2 (- (10), 5, 0)]).
Proof.
  apply (mirrored_pair_is_reported
           (hole_at 1 (10, 5, 0)) (hole_at 2 (- (10), 5, 0)) "YZ" 0).
  - simpl. tauto.
  - reflexivity.
Defined.

(** A run of X10. *)
Lemma linear_spacing_positive_confidence_at_most_1_witness :
  0 < spacing (pair_pattern (hole_at 1 (0, 0, 0)) (hole_at 2 (1, 0, 0)))
  /\ confidence (pair_pattern (hole_at 1 (0, 0, 0)) (hole_at 2 (1, 0, 0)))
     <= 1.
Proof.
  apply (linear_spacing_positive_confidence_at_most_1
           [hole_at 1 (0, 0, 0); hole_at 2 (1, 0, 0)]).
  rewrite detect_linear_two; [left; reflexivity|].
  unfold euclid. simpl.
  replace ((1 - 0) * (1 - 0) + (0 - 0) * (0 - 0) + (0 - 0) * (0 - 0))
    with 1 by ring.
  rewrite sqrt_1. lra.
Defined.

(** A run of X11. *)
Lemma dominant_spacing_is_near_a_spacing_witness :
  exists key, In key [10; 102 / 10]
              /\ Rabs (fold_right Rplus 0 [10; 102 / 10]
                       / INR (List.length [10; 102 / 10]) - key) < 5 / 10.
Proof.
  apply (dominant_spacing_is_near_a_spacing [10; 102 / 10]
           (fold_right Rplus 0 [10; 102 / 10]
            / INR (List.length [10; 102 / 10]))).
  apply (one_group_mean 10 (102 / 10) []).
  intros x [<-|[]]. apply Rabs_small. lra.
Defined.

(** A run of X12. *)
Lemma common_spacing_is_dominant_witness :
  _find_dominant_spacing [10; 10; 10] = Some 10.
Proof.
  refine (proj2 (common_spacing_is_dominant 10 10 [10] _) _).
  - intros x [<-|[<-|[]]]; apply Rabs_small; lra.
  - intros x [<-|[<-|[]]]; reflexivity.
Defined.

(** A run of X20. *)
Lemma classify_thread_table_witness :
  _classify_thread (fun _ _ => EmptyString) (82 / 10) (13 / 10) = "M8x1.25"%string.
Proof.
  apply (classify_thread_table (fun _ _ => EmptyString) (82 / 10) (13 / 10)
           8 (dec 125 2) "M8x1.25").
  - unfold thread_specs. simpl. tauto.
  - apply Rabs_small. lra.
  - rewrite dec_real. apply Rabs_small. simpl. lra.
Defined.
End RunsExact.
Section RunsExactAdvanced.
Local Open Scope R_scope.

(** A run of X22. *)
Lemma counterbore_shoulder_is_wider_witness :
  exists f,
    In f (fst (recognize_counterbores
                 [vertical_cylinder 3; horizontal_plane 0 2000;
                  vertical_cylinder 5] 0))
    /\ cb_diameter f + 1 < cb_shoulder_diameter f.
Proof.
  assert (C : _are_coaxial (vertical_cylinder 3) (vertical_cylinder 5)
              && ltb (dec 5 1) (fabs (sub 3 5)) = true).
  { apply andb_true_iff. split.
    - apply coaxial_real. simpl.
      replace (0 * 0 + 0 * 0 + 1 * 1) with 1 by ring.
      rewrite Rabs_right; lra.
    - rewrite dec_real. apply Rltb_true. simpl.
      replace (3 - 5) with (- (2)) by ring.
      rewrite Rabs_Ropp, Rabs_right; lra. }
  destruct (counterbore_candidate 0 (vertical_cylinder 3, 3)
              (vertical_cylinder 5, 5)) as [f|] eqn:E.
  - exists f.
    assert (Hin : In f (fst (recognize_counterbores
                               [vertical_cylinder 3; horizontal_plane 0 2000;
                                vertical_cylinder 5] 0))).
    { unfold recognize_counterbores.
      change (cylindrical_faces _)
        with [(vertical_cylinder 3, 3); (vertical_cylinder 5, 5)].
      cbn [counterbores_from first_some]. rewrite E.
      cbn [counterbores_from first_some app fst]. left. reflexivity. }
    split; [exact Hin|].
    destruct (counterbore_shoulder_is_wider _ _ _ Hin)
      as [f1 [f2 [r1 [r2 H]]]].
    apply H.
  - exfalso. unfold counterbore_candidate in E. rewrite C in E.
    discriminate E.
Defined.

(** A run of X23. *)
Lemma t_slot_head_is_wider_witness :
  exists t,
    In t (fst (recognize_t_slots [pocket_of 0 10 4; pocket_of 1 20 6] 0))
    /\ 15 / 10 * ts_slot_width t < ts_head_width t < 3 * ts_slot_width t.
Proof.
  assert (C : _forms_t_slot_pattern (pocket_of 0 10 4) (pocket_of 1 20 6)
              = true).
  { change (_forms_t_slot_pattern (pocket_of 0 10 4) (pocket_of 1 20 6))
      with (if Rltb 0 10 && Rltb 0 20
            then Rltb (dec 15 1) (py_max2 10 20 / py_min 10 20)
                 && Rltb (py_max2 10 20 / py_min 10 20) 3
            else false).
    rewrite py_max2_real, py_min_real, dec_real.
    rewrite Rmax_right, Rmin_left by lra.
    rewrite (proj2 (Rltb_true 0 10)) by lra.
    rewrite (proj2 (Rltb_true 0 20)) by lra.
    cbn [andb]. apply andb_true_iff.
    split; apply Rltb_true; simpl; lra. }
  destruct (t_slot_candidate 0 (pocket_of 0 10 4) (pocket_of 1 20 6))
    as [t|] eqn:E.
  - exists t.
    assert (Hin : In t (fst (recognize_t_slots
                               [pocket_of 0 10 4; pocket_of 1 20 6] 0))).
    { unfold recognize_t_slots. cbn [t_slots_from first_some]. rewrite E.
      cbn [t_slots_from first_some app fst]. left. reflexivity. }
    split; [exact Hin|].
    destruct (t_slot_head_is_wider _ _ _ Hin) as [p1 [p2 H]].
    apply H.
  - exfalso. unfold t_slot_candidate in E. rewrite C in E. discriminate E.
Defined.

(** A run of X24. *)
Lemma bosses_are_raised_witness :
  exists bosses c',
    recognize_bosses [horizontal_plane 0 2000; horizontal_plane 5 100] 0
    = Some (bosses, c')
    /\ Forall (fun b => 1 < boss_height b) bosses.
Proof.
  destruct (bosses_are_raised
              [horizontal_plane 0 2000; horizontal_plane 5 100] 0)
    as [bosses [c' [H1 [_ H2]]]].
  - intros face Hf. unfold raised_faces in Hf. apply filter_In in Hf.
    destruct Hf as [[<-|[<-|[]]] _]; simpl; split; apply Rltb_false; lra.
  - exists bosses, c'. split; [exact H1|].
    eapply Forall_impl; [|exact H2]. cbv beta. intros b Hb. apply Hb.
Defined.

(** A run of X25. *)
Lemma fuzzy_classify_has_no_alternative_witness :
  match fuzzy_classify [("depth"%string, PFloat 15);
                        ("diameter"%string, PFloat 10)] with
  | Some r => alternative_classifications r = []
              /\ 0 <= cr_confidence r <= 1
  | None => False
  end.
Proof.
  destruct (fuzzy_classify [("depth"%string, PFloat 15);
                            ("diameter"%string, PFloat 10)])
    as [r|] eqn:E.
  - destruct (fuzzy_classify_has_no_alternative _ r E) as [H1 [H2 _]].
    split; assumption.
  - unfold fuzzy_classify in E.
    rewrite aspect_ratio_positive_diameter in E by (simpl; lra).
    discriminate E.
Defined.
End RunsExactAdvanced.
